(** * Static-site deployment manager: deploy.py and cleanup.py

    A shallow embedding of [server/builtin-skills/deploy-frontend/scripts]
    and the properties of its deploy / cleanup life cycle.

    - Python text is a [string] of bytes (UTF-8), integers are [Z].
    - The file system is a finite map from absolute, symlink-free paths
      (lists of components) to nodes.
    - Everything the scripts ask of their surroundings (which ports can be
      bound, the clock, the outcome of the docker commands) is read from an
      [env] record, fixed for one invocation.
    - A function that can raise returns an [outcome]; a function with side
      effects is a state transformer over [world].

    Left out: symbolic links, permissions and quotas (a file-system call
    fails only for a reason visible in the tree: a missing entry, a file
    where a directory is needed, a directory where a file is needed), and
    other processes working on the same disk at the same time.

    Where the embedding is narrower than Python, the properties say so in
    their hypotheses:
    - [Json.loads] decodes flat objects of strings and integers and reports
      any other text as undecodable, also JSON that [json.load] would
      decode. Properties about what a record decodes to speak of text that
      [Json.loads] decodes.
    - Text is read from a file as it is, while Python refuses bytes that
      are no UTF-8. Properties about records that are read back ask for
      UTF-8 text ([Py.is_utf8]) where the outcome depends on it.
    - cleanup.py keeps its base directory as it is written and leaves the
      walk to the operating system; [Cleanup.base_dir] computes the location
      the components spell. The two differ only when a [".."] follows a
      directory that is missing. Properties about where cleanup looks ask
      for a base directory without [".."] ([spelled_out]). *)

From Stdlib Require Import ZArith Ascii DecimalString DecimalZ DecimalPos DecimalFacts.
From stdpp Require Import gmap strings list fin_maps sorting.

Local Open Scope Z_scope.

(** ** Python values, text and exceptions *)

Abbreviation path := (list string).

Inductive os_error :=
  | FileNotFoundError
  | FileExistsError
  | NotADirectoryError
  | IsADirectoryError.

(** The three external commands the scripts run. *)
Inductive command :=
  | DockerPs       (* docker ps --filter name=nginx-web --format {{.Names}} *)
  | ComposeUp      (* docker-compose up -d *)
  | NginxReload.   (* docker exec nginx-web nginx -s reload *)

Inductive exn :=
  | ValueError (msg : string)
  | RuntimeError (msg : string)
  | OverflowError
  | RecursionError
  | OSError (kind : os_error)
  | CalledProcessError (cmd : command) (returncode : Z)
  | JSONDecodeError
  | KeyError (key : string)
  | TypeError
  | UnicodeEncodeError.

Inductive outcome (A : Type) :=
  | Return (a : A)
  | Raise (e : exn).
Arguments Return {A} a.
Arguments Raise {A} e.

Global Instance os_error_eq_dec : EqDecision os_error.
Proof. solve_decision. Defined.
Global Instance command_eq_dec : EqDecision command.
Proof. solve_decision. Defined.
Global Instance exn_eq_dec : EqDecision exn.
Proof. solve_decision. Defined.

Module Py.

Definition chr (n : nat) : ascii := ascii_of_nat n.
Definition quote : ascii := chr 34.
Definition backslash : ascii := chr 92.
Definition newline : ascii := chr 10.
Definition slash : ascii := chr 47.
Definition char (a : ascii) : string := String a EmptyString.
Definition nl : string := char newline.

(** [str(n)] and [f"{n}"] for an [int]. *)
Definition str_int (n : Z) : string := NilZero.string_of_int (Z.to_int n).

(** [sub in s] *)
Fixpoint starts_with (p s : string) : bool :=
  match p, s with
  | EmptyString, _ => true
  | String a p', String b s' => bool_decide (a = b) && starts_with p' s'
  | String _ _, EmptyString => false
  end.

Fixpoint contains (sub s : string) : bool :=
  starts_with sub s ||
  match s with
  | EmptyString => false
  | String _ s' => contains sub s'
  end.

Fixpoint join (sep : string) (l : list string) : string :=
  match l with
  | [] => ""
  | [x] => x
  | x :: l' => x +:+ sep +:+ join sep l'
  end.

Fixpoint has_char (c : ascii) (s : string) : bool :=
  match s with
  | EmptyString => false
  | String a s' => bool_decide (a = c) || has_char c s'
  end.

(** The byte [a] lies between [lo] and [hi]. *)
Definition byte_in (lo hi : nat) (a : ascii) : bool :=
  let n := nat_of_ascii a in (lo <=? n)%nat && (n <=? hi)%nat.

(** Well-formed UTF-8, as the strict codec accepts it: no overlong form,
    no surrogate, nothing above U+10FFFF. A [str] that came from an
    argument or a file name with other bytes in it holds a surrogate escape
    for each such byte; its text here is those bytes, it is not well formed,
    and it is the text that [str.encode] refuses. *)
Fixpoint is_utf8 (s : string) : bool :=
  match s with
  | EmptyString => true
  | String a s1 =>
      if byte_in 0 127 a then is_utf8 s1
      else
        match s1 with
        | EmptyString => false
        | String b s2 =>
            if byte_in 194 223 a then byte_in 128 191 b && is_utf8 s2
            else
              match s2 with
              | EmptyString => false
              | String c s3 =>
                  if (byte_in 224 224 a && byte_in 160 191 b) ||
                     (byte_in 225 236 a && byte_in 128 191 b) ||
                     (byte_in 237 237 a && byte_in 128 159 b) ||
                     (byte_in 238 239 a && byte_in 128 191 b)
                  then byte_in 128 191 c && is_utf8 s3
                  else
                    match s3 with
                    | EmptyString => false
                    | String d s4 =>
                        ((byte_in 240 240 a && byte_in 144 191 b) ||
                         (byte_in 241 243 a && byte_in 128 191 b) ||
                         (byte_in 244 244 a && byte_in 128 143 b)) &&
                        byte_in 128 191 c && byte_in 128 191 d && is_utf8 s4
                    end
              end
        end
  end.

End Py.

Arguments Py.chr : simpl never.
Arguments Py.quote : simpl never.
Arguments Py.backslash : simpl never.
Arguments Py.newline : simpl never.
Arguments Py.slash : simpl never.

(** ** The surroundings of one invocation *)

(** What [subprocess.run] can observe of a child process: it could not be
    started ([FileNotFoundError]), or it ran and left an exit status and its
    standard output. *)
Inductive proc_result :=
  | SpawnFailed
  | Exited (returncode : Z) (stdout : string).

Record env := {
  env_port_free : Z → bool;       (* can this valid port be bound right now *)
  env_clock : Z;                  (* int(time.time()) *)
  env_timestamp : string;         (* time.strftime("%Y-%m-%d %H:%M:%S") *)
  env_local_ip : option string;   (* the address get_local_ip's probe sees, if any *)
  env_cwd : path;                 (* the working directory, for relative paths *)
  env_docker_ps : proc_result;
  env_compose_up : proc_result;
  env_nginx_reload : proc_result;
}.

(** ** deploy.py: find_available_port *)

(** [s.bind(('', port))] inside [with socket.socket(...)]: the port number is
    checked first, and a number outside 0..65535 raises [OverflowError]
    ("bind(): port must be 0-65535"), which is not an [OSError]; a valid
    port is either bound (and released when the [with] block is left) or
    refused with an [OSError]. *)
Inductive bind_outcome := Bound | BindOSError | BindOverflow.

Definition bind (e : env) (port : Z) : bind_outcome :=
  if (port <? 0) || (65535 <? port) then BindOverflow
  else if env_port_free e port then Bound
  else BindOSError.

Definition no_port_msg (start_port max_attempts : Z) : string :=
  "无法在 " +:+ Py.str_int start_port +:+ "-" +:+
  Py.str_int (start_port + max_attempts) +:+ " 范围内找到可用端口".

(** The [for port in range(...)] loop, [n] ports left to try from [port]. *)
Fixpoint scan_ports (e : env) (msg : string) (n : nat) (port : Z) : outcome Z :=
  match n with
  | O => Raise (RuntimeError msg)
  | S n' =>
      match bind e port with
      | Bound => Return port
      | BindOSError => scan_ports e msg n' (port + 1)
      | BindOverflow => Raise OverflowError
      end
  end.

Definition find_available_port (e : env) (start_port max_attempts : Z) : outcome Z :=
  scan_ports e (no_port_msg start_port max_attempts)
             (Z.to_nat max_attempts) start_port.

(** The error the specification calls NoAvailablePort. *)
Definition NoAvailablePort (start_port max_attempts : Z) : exn :=
  RuntimeError (no_port_msg start_port max_attempts).

(** ** Paths (pathlib) *)

Module Path.

(** [s.split("/")] *)
Fixpoint split (s : string) : list string :=
  match s with
  | EmptyString => [""]
  | String a s' =>
      if bool_decide (a = Py.slash) then "" :: split s'
      else match split s' with
           | x :: l => String a x :: l
           | [] => [Py.char a]
           end
  end.

(** One component applied to the directory reached so far: empty and
    ["."] components stay, [".."] goes to the parent (the root is its
    own parent), a name goes down. *)
Definition step (here : path) (c : string) : path :=
  if bool_decide (c = "") || bool_decide (c = ".") then here
  else if bool_decide (c = "..") then removelast here
  else here ++ [c].

Definition is_absolute (s : string) : bool := Py.starts_with "/" s.

(** [here / s]: the location the operating system reaches for the path
    [s] taken from directory [here]; an absolute [s] starts over from the
    root. Without symbolic links this is also [Path(s).resolve()]. *)
Definition join (here : path) (s : string) : path :=
  foldl step (if is_absolute s then [] else here) (split s).

(** [Path(s)] and [Path(s).resolve()] for a process whose working
    directory is [cwd]. *)
Definition resolve (cwd : path) (s : string) : path := join cwd s.

(** [str(p)] of a resolved path. *)
Definition str (p : path) : string := "/" +:+ Py.join "/" p.

Definition parent (p : path) : path := removelast p.

Fixpoint rfind (c : ascii) (s : string) : option nat :=
  match s with
  | EmptyString => None
  | String a s' =>
      match rfind c s' with
      | Some i => Some (S i)
      | None => if bool_decide (a = c) then Some O else None
      end
  end.

(** [PurePath.stem]: the name without its last suffix; a name whose only
    dot is the first or the last character has no suffix. *)
Definition stem (name : string) : string :=
  match rfind "." name with
  | Some i =>
      if bool_decide (0 < i < String.length name - 1)%nat
      then String.substring 0 i name else name
  | None => name
  end.

Fixpoint ends_with (suffix s : string) : bool :=
  bool_decide (s = suffix) ||
  match s with
  | EmptyString => false
  | String _ s' => ends_with suffix s'
  end.

End Path.

(** ** The file system *)

Inductive node :=
  | File (content : string)
  | Dir.

Global Instance node_eq_dec : EqDecision node.
Proof. solve_decision. Defined.

Module Fs.

Definition node_at (t : gmap path node) (p : path) : option node :=
  match p with
  | [] => Some Dir
  | _ => t !! p
  end.

(** [p.exists()] *)
Definition exists_ (t : gmap path node) (p : path) : bool :=
  bool_decide (is_Some (node_at t p)).

Definition is_file (t : gmap path node) (p : path) : bool :=
  match node_at t p with
  | Some (File _) => true
  | _ => false
  end.

(** The directories on the way to [p], [p] included, the root excluded. *)
Definition dirs_to (p : path) : list path :=
  (λ n, take n p) <$> seq 1 (length p).

Definition dirs_map (p : path) : gmap path node :=
  list_to_map ((λ q, (q, Dir)) <$> dirs_to p).

(** [p.mkdir(parents=True, exist_ok=True)]: a file on the way (or at
    [p]) is an error; directories already there are kept. *)
Definition makedirs (p : path) (t : gmap path node) : outcome (gmap path node) :=
  match list_find (λ q, is_file t q = true) (dirs_to p) with
  | Some (_, q) =>
      Raise (OSError (if bool_decide (q = p) then FileExistsError
                      else NotADirectoryError))
  | None => Return (t ∪ dirs_map p)
  end.

(** [p.mkdir(exist_ok=True)]: the parent must be there. *)
Definition mkdir (p : path) (t : gmap path node) : outcome (gmap path node) :=
  match node_at t p with
  | Some Dir => Return t
  | Some (File _) => Raise (OSError FileExistsError)
  | None =>
      match node_at t (Path.parent p) with
      | Some Dir => Return (<[p := Dir]> t)
      | Some (File _) => Raise (OSError NotADirectoryError)
      | None => Raise (OSError FileNotFoundError)
      end
  end.

(** [p.write_text(s)] for text that can be encoded; for any text see
    [write_text] among the effects. *)
Definition write_text (p : path) (s : string) (t : gmap path node)
  : outcome (gmap path node) :=
  match node_at t p with
  | Some Dir => Raise (OSError IsADirectoryError)
  | _ =>
      match node_at t (Path.parent p) with
      | Some Dir => Return (<[p := File s]> t)
      | Some (File _) => Raise (OSError NotADirectoryError)
      | None => Raise (OSError FileNotFoundError)
      end
  end.

(** [open(p).read()] *)
Definition read_text (p : path) (t : gmap path node) : outcome string :=
  match node_at t p with
  | Some (File s) => Return s
  | Some Dir => Raise (OSError IsADirectoryError)
  | None => Raise (OSError FileNotFoundError)
  end.

(** [p.unlink()] *)
Definition unlink (p : path) (t : gmap path node) : outcome (gmap path node) :=
  match node_at t p with
  | Some (File _) => Return (delete p t)
  | Some Dir => Raise (OSError IsADirectoryError)
  | None => Raise (OSError FileNotFoundError)
  end.

Definition outside (p : path) (entry : path * node) : Prop :=
  ¬ p `prefix_of` entry.1.

Global Instance outside_dec p entry : Decision (outside p entry).
Proof. unfold outside. apply _. Defined.

(** [shutil.rmtree(p)]: [p] and everything below it goes; a file or a
    missing path is an error. *)
Definition rmtree (p : path) (t : gmap path node) : outcome (gmap path node) :=
  match node_at t p with
  | Some Dir => Return (filter (outside p) t)
  | Some (File _) => Raise (OSError NotADirectoryError)
  | None => Raise (OSError FileNotFoundError)
  end.

(** [q] relative to [p], when [q] is at or below [p]. *)
Fixpoint relative_to (p q : path) : option path :=
  match p, q with
  | [], _ => Some q
  | a :: p', b :: q' => if bool_decide (a = b) then relative_to p' q' else None
  | _ :: _, [] => None
  end.

Definition moved (src dst : path) (entry : path * node) : option (path * node) :=
  match relative_to src entry.1 with
  | Some (c :: rel) => Some (dst ++ c :: rel, entry.2)
  | _ => None
  end.

(** The entries below [src], re-rooted at [dst]. *)
Definition graft (src dst : path) (t : gmap path node) : gmap path node :=
  list_to_map (omap (moved src dst) (map_to_list t)).

(** [dst] lies below [src] and the first directory from [src] towards
    [dst] is already there: the copy then walks into the tree it is
    writing. *)
Definition walks_into_itself (src dst : path) (t : gmap path node) : bool :=
  match relative_to src dst with
  | Some (c :: _) => bool_decide (is_Some (t !! (src ++ [c])))
  | _ => false
  end.

(** [shutil.copytree(src, dst)]: lists [src] (an error unless it is a
    directory), makes [dst] and the directories on the way to it (an
    error if [dst] exists), then copies every entry below [src], files
    with their contents.

    When the copy walks into the tree it is writing it does not end by
    itself: it goes on nesting copies below [dst] until the interpreter or
    the operating system refuses, and raises; what it leaves there, all of
    it below [dst], is not kept in this model beyond the directories made
    at the start. *)
Definition copytree (src dst : path) (t : gmap path node)
  : outcome unit * gmap path node :=
  match node_at t src with
  | None => (Raise (OSError FileNotFoundError), t)
  | Some (File _) => (Raise (OSError NotADirectoryError), t)
  | Some Dir =>
      if exists_ t dst then (Raise (OSError FileExistsError), t)
      else match makedirs dst t with
           | Raise e => (Raise e, t)
           | Return t1 =>
               if walks_into_itself src dst t then (Raise RecursionError, t1)
               else (Return (), graft src dst t ∪ t1)
           end
  end.

Definition child_name (dir : path) (pattern : string → bool)
           (entry : path * node) : option string :=
  match relative_to dir entry.1 with
  | Some [name] => if pattern name then Some name else None
  | _ => None
  end.

(** [dir.glob("*.json")], as names, in the order the directory is read. *)
Definition glob_json (dir : path) (t : gmap path node) : list string :=
  omap (child_name dir (Path.ends_with ".json")) (map_to_list t).

End Fs.

(** ** Record files (json)

    The documents of the record store are flat objects whose values are
    strings and integers. [dumps] is [json.dumps(d, indent=2,
    ensure_ascii=False)] and [loads] is [json.load] on such documents.
    Left out of [loads], and reported as undecodable: nested objects,
    arrays, floats, [true], [false], [null], and [\uXXXX] escapes above
    [\u007f] (which [dumps] never writes). [loads] takes the text byte by
    byte; whether the bytes are UTF-8 is asked separately ([Py.is_utf8]). *)

Module Json.

Inductive scalar :=
  | Str (s : string)
  | Int (n : Z).

Inductive value :=
  | Atom (v : scalar)
  | Dict (members : list (string * scalar)).

(** [d[k]] for a [dict] kept in insertion order with distinct keys. *)
Fixpoint dict_get (k : string) (d : list (string * scalar)) : option scalar :=
  match d with
  | [] => None
  | (k', v) :: d' => if bool_decide (k' = k) then Some v else dict_get k d'
  end.

(** [d[k] = v]: a key already present keeps its place. *)
Fixpoint dict_set (k : string) (v : scalar) (d : list (string * scalar))
  : list (string * scalar) :=
  match d with
  | [] => [(k, v)]
  | (k', v') :: d' =>
      if bool_decide (k' = k) then (k', v) :: d' else (k', v') :: dict_set k v d'
  end.

(** *** Writing *)

Definition hex_digit (n : nat) : ascii :=
  if bool_decide (n < 10)%nat then Py.chr (48 + n) else Py.chr (87 + n).

Definition escape_char (a : ascii) : string :=
  let n := nat_of_ascii a in
  if bool_decide (a = Py.quote) then String Py.backslash (Py.char Py.quote)
  else if bool_decide (a = Py.backslash) then String Py.backslash (Py.char Py.backslash)
  else if bool_decide (n = 10)%nat then String Py.backslash "n"
  else if bool_decide (n = 13)%nat then String Py.backslash "r"
  else if bool_decide (n = 9)%nat then String Py.backslash "t"
  else if bool_decide (n = 8)%nat then String Py.backslash "b"
  else if bool_decide (n = 12)%nat then String Py.backslash "f"
  else if bool_decide (n < 32)%nat then
    String Py.backslash
      ("u00" +:+ Py.char (hex_digit (n / 16)) +:+ Py.char (hex_digit (n mod 16)))
  else Py.char a.

Fixpoint escape (s : string) : string :=
  match s with
  | EmptyString => ""
  | String a s' => escape_char a +:+ escape s'
  end.

Definition encode_string (s : string) : string :=
  Py.char Py.quote +:+ escape s +:+ Py.char Py.quote.

Definition dumps_scalar (v : scalar) : string :=
  match v with
  | Str s => encode_string s
  | Int n => Py.str_int n
  end.

Definition dumps_member (kv : string * scalar) : string :=
  encode_string kv.1 +:+ ": " +:+ dumps_scalar kv.2.

Definition item_separator : string := "," +:+ Py.nl +:+ "  ".

Definition dumps (v : value) : string :=
  match v with
  | Atom a => dumps_scalar a
  | Dict [] => "{}"
  | Dict d =>
      "{" +:+ Py.nl +:+ "  " +:+
      Py.join item_separator (dumps_member <$> d) +:+ Py.nl +:+ "}"
  end.

(** *** Reading *)

Definition is_ws (a : ascii) : bool :=
  let n := nat_of_ascii a in
  bool_decide (n = 32)%nat || bool_decide (n = 9)%nat ||
  bool_decide (n = 10)%nat || bool_decide (n = 13)%nat.

Fixpoint skip_ws (s : string) : string :=
  match s with
  | String a s' => if is_ws a then skip_ws s' else s
  | EmptyString => s
  end.

Definition hex_value (a : ascii) : option nat :=
  let n := nat_of_ascii a in
  if bool_decide (48 ≤ n ≤ 57)%nat then Some (n - 48)%nat
  else if bool_decide (97 ≤ n ≤ 102)%nat then Some (n - 87)%nat
  else if bool_decide (65 ≤ n ≤ 70)%nat then Some (n - 55)%nat
  else None.

(** The character a [\uXXXX] escape stands for, below [\u0080]. *)
Definition unicode_escape (h1 h2 h3 h4 : ascii) : option ascii :=
  match hex_value h1, hex_value h2, hex_value h3, hex_value h4 with
  | Some a, Some b, Some c, Some d =>
      let n := (((a * 16 + b) * 16 + c) * 16 + d)%nat in
      if bool_decide (n < 128)%nat then Some (Py.chr n) else None
  | _, _, _, _ => None
  end.

Definition simple_escape (b : ascii) : option ascii :=
  let n := nat_of_ascii b in
  if bool_decide (b = Py.quote) then Some Py.quote
  else if bool_decide (b = Py.backslash) then Some Py.backslash
  else if bool_decide (b = Py.slash) then Some Py.slash
  else if bool_decide (n = 98)%nat then Some (Py.chr 8)
  else if bool_decide (n = 102)%nat then Some (Py.chr 12)
  else if bool_decide (n = 110)%nat then Some (Py.chr 10)
  else if bool_decide (n = 114)%nat then Some (Py.chr 13)
  else if bool_decide (n = 116)%nat then Some (Py.chr 9)
  else None.

Definition cons_char (a : ascii) (r : option (string * string))
  : option (string * string) :=
  match r with
  | Some (s, rest) => Some (String a s, rest)
  | None => None
  end.

(** [scanstring], entered after the opening quote: the decoded text and
    what follows the closing quote. A raw control character is an error
    (strict mode). *)
Fixpoint scanstring (s : string) : option (string * string) :=
  match s with
  | EmptyString => None
  | String a s' =>
      if bool_decide (a = Py.quote) then Some ("", s')
      else if bool_decide (a = Py.backslash) then
        match s' with
        | EmptyString => None
        | String b s'' =>
            if bool_decide (nat_of_ascii b = 117)%nat then
              match s'' with
              | String h1 (String h2 (String h3 (String h4 s5))) =>
                  match unicode_escape h1 h2 h3 h4 with
                  | Some c => cons_char c (scanstring s5)
                  | None => None
                  end
              | _ => None
              end
            else
              match simple_escape b with
              | Some c => cons_char c (scanstring s'')
              | None => None
              end
        end
      else if bool_decide (nat_of_ascii a < 32)%nat then None
      else cons_char a (scanstring s')
  end.

Definition digit_of (a : ascii) (d : Decimal.uint) : option Decimal.uint :=
  match nat_of_ascii a with
  | 48%nat => Some (Decimal.D0 d) | 49%nat => Some (Decimal.D1 d)
  | 50%nat => Some (Decimal.D2 d) | 51%nat => Some (Decimal.D3 d)
  | 52%nat => Some (Decimal.D4 d) | 53%nat => Some (Decimal.D5 d)
  | 54%nat => Some (Decimal.D6 d) | 55%nat => Some (Decimal.D7 d)
  | 56%nat => Some (Decimal.D8 d) | 57%nat => Some (Decimal.D9 d)
  | _ => None
  end.

Definition is_digit (a : ascii) : bool :=
  bool_decide (48 ≤ nat_of_ascii a ≤ 57)%nat.

(** The longest run of digits at the head of [s]. *)
Fixpoint scan_digits (s : string) : Decimal.uint * string :=
  match s with
  | EmptyString => (Decimal.Nil, s)
  | String a s' =>
      if is_digit a then
        let '(d, rest) := scan_digits s' in
        match digit_of a d with
        | Some d' => (d', rest)
        | None => (Decimal.Nil, s)
        end
      else (Decimal.Nil, s)
  end.

(** [0|[1-9]\d*]: a leading zero is a number by itself. *)
Definition scan_natural (s : string) : option (Decimal.uint * string) :=
  match s with
  | EmptyString => None
  | String a s' =>
      if bool_decide (nat_of_ascii a = 48)%nat then Some (Decimal.D0 Decimal.Nil, s')
      else if is_digit a then Some (scan_digits s)
      else None
  end.

(** A fraction or an exponent after the integer part makes a float. *)
Definition float_follows (rest : string) : bool :=
  match rest with
  | String a (String b rest') =>
      let n := nat_of_ascii a in
      (bool_decide (n = 46)%nat && is_digit b) ||
      ((bool_decide (n = 101)%nat || bool_decide (n = 69)%nat) &&
       (is_digit b ||
        ((bool_decide (nat_of_ascii b = 43)%nat || bool_decide (nat_of_ascii b = 45)%nat) &&
         match rest' with
         | String c _ => is_digit c
         | EmptyString => false
         end)))
  | _ => false
  end.

Definition scan_number (s : string) : option (Z * string) :=
  let '(negative, digits) :=
    match s with
    | String a s' =>
        if bool_decide (nat_of_ascii a = 45)%nat then (true, s') else (false, s)
    | EmptyString => (false, s)
    end in
  match scan_natural digits with
  | Some (d, rest) =>
      if float_follows rest then None
      else Some (Z.of_int (if negative then Decimal.Neg d else Decimal.Pos d), rest)
  | None => None
  end.

Definition scan_scalar (s : string) : option (scalar * string) :=
  match s with
  | EmptyString => None
  | String a s' =>
      if bool_decide (a = Py.quote) then
        match scanstring s' with
        | Some (x, rest) => Some (Str x, rest)
        | None => None
        end
      else
        match scan_number s with
        | Some (n, rest) => Some (Int n, rest)
        | None => None
        end
  end.

(** The members of an object, entered after the opening quote of a key;
    [fuel] bounds the number of members. *)
Fixpoint scan_members (fuel : nat) (d : list (string * scalar)) (s : string)
  : option (list (string * scalar) * string) :=
  match fuel with
  | O => None
  | S fuel' =>
      match scanstring s with
      | None => None
      | Some (key, s1) =>
          match skip_ws s1 with
          | String colon s2 =>
              if bool_decide (nat_of_ascii colon = 58)%nat then
                match scan_scalar (skip_ws s2) with
                | None => None
                | Some (v, s3) =>
                    let d' := dict_set key v d in
                    match skip_ws s3 with
                    | String c s4 =>
                        if bool_decide (nat_of_ascii c = 125)%nat then Some (d', s4)
                        else if bool_decide (nat_of_ascii c = 44)%nat then
                          match skip_ws s4 with
                          | String q s5 =>
                              if bool_decide (q = Py.quote)
                              then scan_members fuel' d' s5
                              else None
                          | EmptyString => None
                          end
                        else None
                    | EmptyString => None
                    end
                end
              else None
          | EmptyString => None
          end
      end
  end.

Definition scan_value (s : string) : option (value * string) :=
  match s with
  | EmptyString => None
  | String a s' =>
      if bool_decide (nat_of_ascii a = 123)%nat then
        match skip_ws s' with
        | String c s'' =>
            if bool_decide (nat_of_ascii c = 125)%nat then Some (Dict [], s'')
            else if bool_decide (c = Py.quote) then
              match scan_members (String.length s'') [] s'' with
              | Some (d, rest) => Some (Dict d, rest)
              | None => None
              end
            else None
        | EmptyString => None
        end
      else
        match scan_scalar s with
        | Some (v, rest) => Some (Atom v, rest)
        | None => None
        end
  end.

(** No value starts at the first character that is not white space: the
    text ends there, or that character opens neither a string, a number, an
    object, an array nor one of the literals. *)
Definition no_value (s : string) : bool :=
  match skip_ws s with
  | EmptyString => true
  | String a _ =>
      negb (bool_decide (a = Py.quote) || is_digit a || Py.has_char a "{[-tfnNI")
  end.

(** [json.loads]: one value, white space around it, nothing after. *)
Definition loads (s : string) : outcome value :=
  match scan_value (skip_ws s) with
  | Some (v, rest) =>
      match skip_ws rest with
      | EmptyString => Return v
      | String _ _ => Raise JSONDecodeError
      end
  | None => Raise JSONDecodeError
  end.

(** [info[key]] *)
Definition subscript (info : value) (key : string) : outcome scalar :=
  match info with
  | Dict d =>
      match dict_get key d with
      | Some v => Return v
      | None => Raise (KeyError key)
      end
  | Atom _ => Raise TypeError
  end.

End Json.

Global Instance scalar_eq_dec : EqDecision Json.scalar.
Proof. solve_decision. Defined.
Global Instance value_eq_dec : EqDecision Json.value.
Proof. solve_decision. Defined.

(** ** Effects *)

(** What a script prints. *)
Inductive line :=
  | Text (s : string)                  (* print(s) *)
  | PathLine (label : string) (p : path) (* print(f"{label}{p}") for a Path *)
  | Report (label : string) (e : exn)  (* print(f"{label}{e}") for an exception *)
  | Traceback (e : exn).               (* traceback.print_exc() *)

Record world := {
  w_fs : gmap path node;     (* the file system *)
  w_cmds : list command;     (* the commands run so far, oldest first *)
  w_out : list line;         (* what was printed so far, oldest first *)
}.

Definition set_fs (t : gmap path node) (w : world) : world :=
  {| w_fs := t; w_cmds := w_cmds w; w_out := w_out w |}.

Definition M (A : Type) : Type := world → outcome A * world.

Global Instance M_ret : MRet M := λ A a w, (Return a, w).

Global Instance M_bind : MBind M := λ A B f m w,
  match m w with
  | (Return a, w') => f a w'
  | (Raise e, w') => (Raise e, w')
  end.

Definition raise {A} (e : exn) : M A := λ w, (Raise e, w).

(** [try: body except Exception as e: handler(e)] *)
Definition try_except {A} (body : M A) (handler : exn → M A) : M A := λ w,
  match body w with
  | (Return a, w') => (Return a, w')
  | (Raise e, w') => handler e w'
  end.

Definition say (l : line) (w : world) : world :=
  {| w_fs := w_fs w; w_cmds := w_cmds w; w_out := w_out w ++ [l] |}.

Definition print (l : line) : M unit := λ w, (Return (), say l w).

Definition of_outcome {A} (r : outcome A) : M A := λ w, (r, w).

(** [if b: body] *)
Definition when_ (b : bool) (body : M unit) : M unit :=
  if b then body else mret ().

(** A file-system call that either updates the tree or raises and leaves it. *)
Definition fs_update (f : gmap path node → outcome (gmap path node)) : M unit := λ w,
  match f (w_fs w) with
  | Return t => (Return (), set_fs t w)
  | Raise e => (Raise e, w)
  end.

Definition fs_read {A} (f : gmap path node → outcome A) : M A := λ w, (f (w_fs w), w).

Definition path_exists (p : path) : M bool := λ w, (Return (Fs.exists_ (w_fs w) p), w).

Definition copytree (src dst : path) : M unit := λ w,
  let '(r, t) := Fs.copytree src dst (w_fs w) in (r, set_fs t w).

(** [p.write_text(s)] for text made of names the operating system gave:
    the file is opened for writing first, which makes it or empties it, and
    the text is encoded after that. Text that is no UTF-8 is refused there
    with [UnicodeEncodeError], and the file stays, empty. Text that is
    UTF-8 is written as [Fs.write_text] says. *)
Definition write_text (p : path) (s : string) : M unit := λ w,
  if Py.is_utf8 s then fs_update (Fs.write_text p s) w
  else
    match Fs.write_text p EmptyString (w_fs w) with
    | Return t => (Raise UnicodeEncodeError, set_fs t w)
    | Raise ex => (Raise ex, w)
    end.

Definition command_result (e : env) (c : command) : proc_result :=
  match c with
  | DockerPs => env_docker_ps e
  | ComposeUp => env_compose_up e
  | NginxReload => env_nginx_reload e
  end.

(** [subprocess.run(cmd, ...)]: the exit status and the output. *)
Definition run (e : env) (c : command) : M (Z * string) := λ w,
  let w' := {| w_fs := w_fs w; w_cmds := w_cmds w ++ [c]; w_out := w_out w |} in
  match command_result e c with
  | SpawnFailed => (Raise (OSError FileNotFoundError), w')
  | Exited code out => (Return (code, out), w')
  end.

(** [subprocess.run(cmd, check=True)] *)
Definition run_checked (e : env) (c : command) : M unit :=
  r ← run e c;
  if bool_decide (r.1 = 0) then mret () else raise (CalledProcessError c r.1).

(** A [str] or a [Path] given where a path is expected. *)
Inductive pathlike :=
  | AsStr (s : string)
  | AsPath (p : path).

Definition to_path (e : env) (x : pathlike) : path :=
  match x with
  | AsStr s => Path.resolve (env_cwd e) s
  | AsPath p => p
  end.

(** ** deploy.py *)

Module Deploy.

Definition DEFAULT_NGINX_BASE_DIR : string := "/home/xubuntu001/AI/nginx".

Definition get_local_ip (e : env) : string :=
  match env_local_ip e with
  | Some ip => ip
  | None => "localhost"
  end.

Definition generate_project_id (e : env) : string :=
  "project-" +:+ Py.str_int (env_clock e).

Definition config_content (project_id : string) (port : Z) : string :=
  Py.join Py.nl [
    "server {";
    "    listen " +:+ Py.str_int port +:+ ";";
    "    server_name localhost;";
    "";
    "    root /usr/share/nginx/html/" +:+ project_id +:+ ";";
    "    index index.html index.htm;";
    "";
    "    location / {";
    "        try_files $uri $uri/ /index.html;";
    "    }";
    "";
    "    # 启用 gzip 压缩";
    "    gzip on;";
    "    gzip_types text/plain text/css application/json application/javascript text/xml application/xml text/javascript;";
    "";
    "    # 缓存静态资源";
    "    location ~* \.(jpg|jpeg|png|gif|ico|css|js|svg|woff|woff2|ttf|eot)$ {";
    "        expires 1y;";
    "        add_header Cache-Control " +:+ Py.char Py.quote +:+ "public, immutable"
      +:+ Py.char Py.quote +:+ ";";
    "    }";
    "}";
    ""
  ].

Definition conf_dir_of (nginx_base_dir : path) : path :=
  Path.join (Path.join nginx_base_dir "config") "conf.d".

(** The text of the configuration is the template with the id and the
    port in it; with an id from [generate_project_id] it is UTF-8, and
    writing it cannot fail for its encoding. *)
Definition create_nginx_conf (project_id : string) (port : Z) (nginx_base_dir : path)
  : M path :=
  let conf_dir := conf_dir_of nginx_base_dir in
  fs_update (Fs.makedirs conf_dir);;
  let conf_file := Path.join conf_dir (project_id +:+ ".conf") in
  fs_update (Fs.write_text conf_file (config_content project_id port));;
  mret conf_file.

(** The compose file being there, [nginx_base_dir] is a directory and can
    be the working directory of the commands. *)
Definition reload_nginx (e : env) (nginx_base_dir : path) : M unit :=
  let compose_file := Path.join nginx_base_dir "docker-compose.yml" in
  present ← path_exists compose_file;
  if negb present then
    raise (RuntimeError ("docker-compose.yml 不存在: " +:+ Path.str compose_file))
  else
    result ← run e DockerPs;
    if negb (Py.contains "nginx-web" result.2) then
      print (Text "启动 nginx 容器...");;
      run_checked e ComposeUp
    else
      print (Text "重新加载 nginx 配置...");;
      run_checked e NginxReload.

(** Lines 132-135: the copy of the source tree to [html_dir]. *)
Definition stage (source_path html_dir : path) : M unit :=
  present ← path_exists html_dir;
  when_ present (fs_update (Fs.rmtree html_dir));;
  copytree source_path html_dir.

Definition info_file_of (nginx_base_dir : path) (project_id : string) : path :=
  Path.join (Path.join nginx_base_dir "deployments") (project_id +:+ ".json").

Definition deploy_frontend (e : env) (source_dir : string) (nginx_base_dir : option string)
  : M (list (string * Json.scalar)) :=
  let source_path := Path.resolve (env_cwd e) source_dir in
  present ← path_exists source_path;
  if negb present then raise (ValueError ("源目录不存在: " +:+ source_dir))
  else
    let nginx_base_dir :=
      match nginx_base_dir with
      | None => Path.resolve (env_cwd e) DEFAULT_NGINX_BASE_DIR
      | Some d => Path.resolve (env_cwd e) d
      end in
    let project_id := generate_project_id e in
    port ← of_outcome (find_available_port e 8080 100);
    let html_dir := Path.join (Path.join nginx_base_dir "html") project_id in
    stage source_path html_dir;;
    conf_file ← create_nginx_conf project_id port nginx_base_dir;
    reload_nginx e nginx_base_dir;;
    let local_ip := get_local_ip e in
    let url := "http://" +:+ local_ip +:+ ":" +:+ Py.str_int port in
    let deployments_dir := Path.join nginx_base_dir "deployments" in
    fs_update (Fs.mkdir deployments_dir);;
    let deploy_info := [
      ("project_id", Json.Str project_id);
      ("port", Json.Int port);
      ("url", Json.Str url);
      ("html_dir", Json.Str (Path.str html_dir));
      ("conf_file", Json.Str (Path.str conf_file));
      ("source_dir", Json.Str (Path.str source_path));
      ("deployed_at", Json.Str (env_timestamp e))
    ] in
    let info_file := Path.join deployments_dir (project_id +:+ ".json") in
    write_text info_file (Json.dumps (Json.Dict deploy_info));;
    mret deploy_info.

Definition show (v : option Json.scalar) : string :=
  match v with
  | Some (Json.Str s) => s
  | Some (Json.Int n) => Py.str_int n
  | None => ""
  end.

(** The exit status of [python deploy.py ...]. *)
Definition main (e : env) (argv : list string) : world → Z * world := λ w,
  match argv with
  | _ :: source_dir :: rest =>
      let nginx_base_dir := head rest in
      let body : M Z :=
        try_except
          (info ← deploy_frontend e source_dir nginx_base_dir;
           print (Text (Py.nl +:+ "✅ 部署成功!"));;
           print (Text ("项目 ID: " +:+ show (Json.dict_get "project_id" info)));;
           print (Text ("端口: " +:+ show (Json.dict_get "port" info)));;
           print (Text ("访问地址: " +:+ show (Json.dict_get "url" info)));;
           print (Text ("HTML 目录: " +:+ show (Json.dict_get "html_dir" info)));;
           print (Text ("配置文件: " +:+ show (Json.dict_get "conf_file" info)));;
           mret 0)
          (λ ex,
           print (Report (Py.nl +:+ "❌ 部署失败: ") ex);;
           print (Traceback ex);;
           mret 1) in
      match body w with
      | (Return status, w') => (status, w')
      | (Raise ex, w') => (1, w')
      end
  | _ =>
      match (print (Text "用法: python deploy.py <前端项目目录> [nginx基础目录]");;
             print (Text ("默认 nginx 目录: " +:+ DEFAULT_NGINX_BASE_DIR));;
             print (Text "示例: python deploy.py ./my-app")) w with
      | (_, w') => (1, w')
      end
  end.

End Deploy.

(** ** cleanup.py *)

Module Cleanup.

Definition DEFAULT_NGINX_BASE_DIR : string := "/home/xubuntu001/AI/nginx".

(** The first lines of each function: the base directory given, or the
    default one. cleanup.py keeps the path as written ([Path(x)], not
    resolved); this is the location the operating system reaches for it
    from the working directory when it can walk every component. *)
Definition base_dir (e : env) (nginx_base_dir : option pathlike) : path :=
  match nginx_base_dir with
  | None => Path.resolve (env_cwd e) DEFAULT_NGINX_BASE_DIR
  | Some d => to_path e d
  end.

Definition info_file_of (base : path) (project_id : string) : path :=
  Path.join (Path.join base "deployments") (project_id +:+ ".json").

(** [Path(info[key])], as the location the operating system reaches for
    it. *)
Definition path_field (e : env) (info : Json.value) (key : string) : M path :=
  v ← of_outcome (Json.subscript info key);
  match v with
  | Json.Str s => mret (Path.resolve (env_cwd e) s)
  | Json.Int _ => raise TypeError
  end.

(** Lines 50-55: the reload of the proxy, as cleanup does it. *)
Definition reload_step (e : env) : M unit :=
  print (Text "重新加载 nginx 配置...");;
  run_checked e NginxReload.

Definition cleanup_deployment (e : env) (project_id : string)
           (nginx_base_dir : option pathlike) : M bool :=
  let nginx_base_dir := base_dir e nginx_base_dir in
  let deployments_dir := Path.join nginx_base_dir "deployments" in
  let info_file := Path.join deployments_dir (project_id +:+ ".json") in
  present ← path_exists info_file;
  if negb present then
    print (Text ("❌ 项目不存在: " +:+ project_id));;
    mret false
  else
    try_except
      (text ← fs_read (Fs.read_text info_file);
       info ← of_outcome (Json.loads text);
       html_dir ← path_field e info "html_dir";
       html_there ← path_exists html_dir;
       when_ html_there
         (print (PathLine "删除 HTML 目录: " html_dir);;
          fs_update (Fs.rmtree html_dir));;
       conf_file ← path_field e info "conf_file";
       conf_there ← path_exists conf_file;
       when_ conf_there
         (print (PathLine "删除配置文件: " conf_file);;
          fs_update (Fs.unlink conf_file));;
       reload_step e;;
       fs_update (Fs.unlink info_file);;
       print (Text ("✅ 清理完成: " +:+ project_id));;
       mret true)
      (λ ex,
       print (Report "❌ 清理失败: " ex);;
       print (Traceback ex);;
       mret false).

Definition name_le (a b : string) : Prop := String.leb a b = true.

Global Instance name_le_dec a b : Decision (name_le a b).
Proof. unfold name_le. apply _. Defined.

Definition repeat_string (s : string) (n : nat) : string :=
  Py.join "" (replicate n s).

Definition show (v : Json.scalar) : string :=
  match v with
  | Json.Str s => s
  | Json.Int n => Py.str_int n
  end.

(** [info.get(key, default)] *)
Definition get_or (info : Json.value) (key : string) (fallback : Json.scalar)
  : outcome Json.scalar :=
  match info with
  | Json.Dict d => Return (default fallback (Json.dict_get key d))
  | Json.Atom _ => Raise TypeError
  end.

Fixpoint list_each (deployments_dir : path) (names : list string) : M unit :=
  match names with
  | [] => mret ()
  | name :: names' =>
      text ← fs_read (Fs.read_text (deployments_dir ++ [name]));
      info ← of_outcome (Json.loads text);
      project_id ← of_outcome (Json.subscript info "project_id");
      print (Text ("项目 ID: " +:+ show project_id));;
      deployed_at ← of_outcome (get_or info "deployed_at" (Json.Str "N/A"));
      print (Text ("  部署时间: " +:+ show deployed_at));;
      url ← of_outcome (Json.subscript info "url");
      print (Text ("  访问地址: " +:+ show url));;
      html_dir ← of_outcome (Json.subscript info "html_dir");
      print (Text ("  HTML 目录: " +:+ show html_dir));;
      print (Text "");;
      list_each deployments_dir names'
  end.

Definition list_deployments (e : env) (nginx_base_dir : option pathlike) : M unit :=
  let nginx_base_dir := base_dir e nginx_base_dir in
  let deployments_dir := Path.join nginx_base_dir "deployments" in
  present ← path_exists deployments_dir;
  names ← fs_read (λ t, Return (Fs.glob_json deployments_dir t));
  if negb present || bool_decide (names = []) then
    print (Text "没有找到部署")
  else
    print (Text (Py.nl +:+ "当前部署:"));;
    print (Text (repeat_string "-" 80));;
    list_each deployments_dir (merge_sort name_le names).

Fixpoint cleanup_each (e : env) (nginx_base_dir : path) (names : list string) : M unit :=
  match names with
  | [] => mret ()
  | name :: names' =>
      let project_id := Path.stem name in
      print (Text (Py.nl +:+ "清理项目: " +:+ project_id));;
      cleanup_deployment e project_id (Some (AsPath nginx_base_dir));;
      cleanup_each e nginx_base_dir names'
  end.

Definition cleanup_all (e : env) (nginx_base_dir : option pathlike) : M unit :=
  let nginx_base_dir := base_dir e nginx_base_dir in
  let deployments_dir := Path.join nginx_base_dir "deployments" in
  present ← path_exists deployments_dir;
  if negb present then
    print (Text "没有找到部署")
  else
    names ← fs_read (λ t, Return (Fs.glob_json deployments_dir t));
    cleanup_each e nginx_base_dir names.

(** The exit status of [python cleanup.py ...]: 1 from [sys.exit(1)] and
    for an exception nobody catches, 0 when [main] returns. *)
Definition main (e : env) (argv : list string) : world → Z * world := λ w,
  match argv with
  | _ :: command :: rest =>
      let nginx_base_dir := AsStr <$> head rest in
      let body : M unit :=
        if bool_decide (command = "list") then list_deployments e nginx_base_dir
        else if bool_decide (command = "all") then cleanup_all e nginx_base_dir
        else (cleanup_deployment e command nginx_base_dir;; mret ()) in
      match body w with
      | (Return _, w') => (0, w')
      | (Raise ex, w') => (1, (print (Traceback ex) w').2)
      end
  | _ =>
      match (print (Text "用法:");;
             print (Text ("  默认 nginx 目录: " +:+ DEFAULT_NGINX_BASE_DIR));;
             print (Text "  列出所有部署: python cleanup.py list [nginx基础目录]");;
             print (Text "  清理指定项目: python cleanup.py <project_id> [nginx基础目录]");;
             print (Text "  清理所有项目: python cleanup.py all [nginx基础目录]")) w with
      | (_, w') => (1, w')
      end
  end.

End Cleanup.

(** * Vocabulary of the properties *)

(** ** Port allocation *)

(** [p] is the first port from [start] that can be bound. *)
Definition first_bindable (e : env) (start p : Z) : Prop :=
  bind e p = Bound ∧ ∀ q, start ≤ q < p → bind e q ≠ Bound.

Definition none_bindable (e : env) (start attempts : Z) : Prop :=
  ∀ q, start ≤ q < start + attempts → bind e q ≠ Bound.

(** The contract of the allocator, as the specification words it. *)
Definition allocator_contract (e : env) (start attempts : Z) : Prop :=
  (∀ p, find_available_port e start attempts = Return p ↔
        start ≤ p < start + attempts ∧ first_bindable e start p) ∧
  (find_available_port e start attempts = Raise (NoAvailablePort start attempts) ↔
        none_bindable e start attempts).

(** Every port of the range is a port number. *)
Definition valid_ports (start attempts : Z) : Prop :=
  ∀ q, start ≤ q < start + attempts → 0 ≤ q ≤ 65535.

(** ** Sample surroundings *)

(** Every port is taken. *)
Definition all_busy : env := {|
  env_port_free := λ _, false;
  env_clock := 0;
  env_timestamp := "";
  env_local_ip := None;
  env_cwd := [];
  env_docker_ps := SpawnFailed;
  env_compose_up := SpawnFailed;
  env_nginx_reload := SpawnFailed;
|}.

(** Ports 8080-8082 are taken and the rest is free. *)
Definition three_busy : env := {|
  env_port_free := λ p, negb ((8080 <=? p) && (p <=? 8082));
  env_clock := 0;
  env_timestamp := "";
  env_local_ip := None;
  env_cwd := [];
  env_docker_ps := SpawnFailed;
  env_compose_up := SpawnFailed;
  env_nginx_reload := SpawnFailed;
|}.

(** An office network: every port below 8083 taken, the proxy running. *)
Definition office : env := {|
  env_port_free := λ p, 8083 <=? p;
  env_clock := 1700000000;
  env_timestamp := "2023-11-14 22:13:20";
  env_local_ip := Some "10.0.0.5";
  env_cwd := ["work"];
  env_docker_ps := Exited 0 ("nginx-web" +:+ Py.nl);
  env_compose_up := Exited 0 "";
  env_nginx_reload := Exited 0 "";
|}.

(** A disk with two built sites under /work and the proxy's directory /srv. *)
Definition office_disk : gmap path node :=
  list_to_map [
    (["work"], Dir);
    (["work"; "site"], Dir);
    (["work"; "site"; "index.html"], File "<html>");
    (["work"; "site"; "app.js"], File "js");
    (["work"; "site"; "logo.svg"], File "svg");
    (["work"; "blog"], Dir);
    (["work"; "blog"; "index.html"], File "<blog>");
    (["srv"], Dir);
    (["srv"; "docker-compose.yml"], File "services:")
  ].

Definition office_world : world :=
  {| w_fs := office_disk; w_cmds := []; w_out := [] |}.

(** ** Identifiers *)

Definition html_dir_of (nginx_base_dir : path) (project_id : string) : path :=
  Path.join (Path.join nginx_base_dir "html") project_id.

Definition conf_file_of (nginx_base_dir : path) (project_id : string) : path :=
  Path.join (Deploy.conf_dir_of nginx_base_dir) (project_id +:+ ".conf").

(** No two deployments into one base directory share an id, a staged
    directory or a configuration file, as the specification words it: the
    second of any two successful deployments has another id than the first. *)
Definition ids_never_shared : Prop :=
  ∀ (e1 e2 : env) (source1 source2 : string) (base : option string)
    (w : world) (info1 info2 : list (string * Json.scalar)),
    let first := Deploy.deploy_frontend e1 source1 base w in
    let second := Deploy.deploy_frontend e2 source2 base first.2 in
    first.1 = Return info1 →
    second.1 = Return info2 →
    Json.dict_get "project_id" info1 ≠ Json.dict_get "project_id" info2 ∧
    Json.dict_get "html_dir" info1 ≠ Json.dict_get "html_dir" info2 ∧
    Json.dict_get "conf_file" info1 ≠ Json.dict_get "conf_file" info2.

(** ** Reloading the proxy *)

(** The proxy is stopped: nothing is listed, and a reload signal has no
    container to go to. *)
Definition stopped_proxy : env := {|
  env_port_free := λ p, 8083 <=? p;
  env_clock := 1700000000;
  env_timestamp := "2023-11-14 22:13:20";
  env_local_ip := Some "10.0.0.5";
  env_cwd := ["work"];
  env_docker_ps := Exited 0 "";
  env_compose_up := Exited 0 "";
  env_nginx_reload := Exited 1 "";
|}.

(** What a reload did to the proxy: the commands run, the query left out. *)
Definition proxy_actions (w : world) : list command :=
  filter (λ c, c ≠ DockerPs) (w_cmds w).

(** The reload step of cleanup does what [reload_nginx] does: same result,
    same commands to the proxy, same printed lines, same files. *)
Definition same_reload (e : env) (nginx_base_dir : path) (w : world) : Prop :=
  let cleanup_side := Cleanup.reload_step e w in
  let deploy_side := Deploy.reload_nginx e nginx_base_dir w in
  cleanup_side.1 = deploy_side.1 ∧
  proxy_actions cleanup_side.2 = proxy_actions deploy_side.2 ∧
  w_out cleanup_side.2 = w_out deploy_side.2 ∧
  w_fs cleanup_side.2 = w_fs deploy_side.2.

(** The claim of the specification: cleanup reloads through the reload
    controller. *)
Definition cleanup_reloads_as_controller : Prop :=
  ∀ (e : env) (nginx_base_dir : path) (w : world), same_reload e nginx_base_dir w.

(** ** Command lines *)

(** The office world after [python deploy.py site /srv]. *)
Definition deployed_world : world :=
  (Deploy.main office ["deploy.py"; "site"; "/srv"] office_world).2.

(** ** Configuration files *)

(** An empty disk. *)
Definition blank_world : world := {| w_fs := ∅; w_cmds := []; w_out := [] |}.

(** ** Deployment records *)

(** [q] lies strictly below directory [d]. *)
Definition below (d q : path) : Prop := d `prefix_of` q ∧ q ≠ d.

(** The base directory deploy_frontend works in. *)
Definition deploy_base (e : env) (nginx_base_dir : option string) : path :=
  match nginx_base_dir with
  | None => Path.resolve (env_cwd e) Deploy.DEFAULT_NGINX_BASE_DIR
  | Some d => Path.resolve (env_cwd e) d
  end.

(** The record deploy_frontend builds once a port is allocated. *)
Definition record_of (e : env) (source_dir : string) (base : path) (port : Z)
  : list (string * Json.scalar) :=
  let project_id := Deploy.generate_project_id e in
  [ ("project_id", Json.Str project_id);
    ("port", Json.Int port);
    ("url", Json.Str ("http://" +:+ Deploy.get_local_ip e +:+ ":" +:+ Py.str_int port));
    ("html_dir", Json.Str (Path.str (html_dir_of base project_id)));
    ("conf_file", Json.Str (Path.str (conf_file_of base project_id)));
    ("source_dir", Json.Str (Path.str (Path.resolve (env_cwd e) source_dir)));
    ("deployed_at", Json.Str (env_timestamp e)) ].

(** ** The record store *)

(** A deployment record: the seven fields of [deploy_info]. *)
Record deployment := {
  r_project_id : string;
  r_port : Z;
  r_url : string;
  r_html_dir : string;
  r_conf_file : string;
  r_source_dir : string;
  r_deployed_at : string;
}.

(** deploy.py, lines 151-159. *)
Definition deploy_info (r : deployment) : list (string * Json.scalar) :=
  [ ("project_id", Json.Str (r_project_id r));
    ("port", Json.Int (r_port r));
    ("url", Json.Str (r_url r));
    ("html_dir", Json.Str (r_html_dir r));
    ("conf_file", Json.Str (r_conf_file r));
    ("source_dir", Json.Str (r_source_dir r));
    ("deployed_at", Json.Str (r_deployed_at r)) ].

(** deploy.py, line 162: [info_file.write_text(json.dumps(deploy_info,
    indent=2, ensure_ascii=False))]. *)
Definition put (info_file : path) (r : deployment) (t : gmap path node)
  : outcome (gmap path node) :=
  Fs.write_text info_file (Json.dumps (Json.Dict (deploy_info r))) t.

(** cleanup.py, lines 35-36: [with open(info_file) as f: info = json.load(f)]. *)
Definition get (info_file : path) (t : gmap path node) : outcome Json.value :=
  match Fs.read_text info_file t with
  | Return text => Json.loads text
  | Raise ex => Raise ex
  end.

(** A record with text that needs escaping. *)
Definition awkward_record : deployment := {|
  r_project_id := "project-1700000000";
  r_port := 8083;
  r_url := "http://10.0.0.5:8083";
  r_html_dir := "/srv/html/project-1700000000";
  r_conf_file := "/srv/config/conf.d/project-1700000000.conf";
  r_source_dir := "/work/my " +:+ Py.char Py.quote +:+ "site" +:+ Py.char Py.quote
                  +:+ Py.char Py.backslash +:+ Py.nl +:+ Py.char (Py.chr 1);
  r_deployed_at := "2023-11-14 22:13:20";
|}.

(** What follows a number in a document written by [dumps]. *)
Definition ends_number (c : ascii) : Prop :=
  c = ","%char ∨ c = Py.newline.

(** The value of a number token, or nothing when a float follows. *)
Definition number_of (negative : bool) (r : option (Decimal.uint * string))
  : option (Z * string) :=
  match r with
  | Some (d, rest) =>
      if Json.float_follows rest then None
      else Some (Z.of_int (if negative then Decimal.Neg d else Decimal.Pos d), rest)
  | None => None
  end.

(** ** Staging *)

(** Every entry of the disk hangs from directories. *)
Definition is_tree (t : gmap path node) : bool :=
  forallb (λ entry : path * node,
             forallb (λ p, bool_decide (t !! p = Some Dir))
                     (Fs.dirs_to (Path.parent entry.1)))
          (map_to_list t).

(** No file stands on the way to [p] or at [p]. *)
Definition way_clear (t : gmap path node) (p : path) : bool :=
  forallb (λ q, negb (Fs.is_file t q)) (Fs.dirs_to p).

(** The disk after [src] was staged to [dst], entry by entry: a directory at
    [dst], below it the entries of [src], the directories on the way to
    [dst], and everything else as it was. *)
Definition staged (src dst : path) (t : gmap path node) (q : path) : option node :=
  match Fs.relative_to dst q with
  | Some [] => Some Dir
  | Some (c :: rel) => t !! (src ++ c :: rel)
  | None => if decide (q ∈ Fs.dirs_to dst) then Some Dir else t !! q
  end.

(** A disk on which an earlier, differently shaped site is staged as "demo". *)
Definition restaged_world : world := {|
  w_fs := list_to_map [
    (["work"], Dir);
    (["work"; "site"], Dir);
    (["work"; "site"; "index.html"], File "<html>");
    (["work"; "site"; "app.js"], File "js");
    (["srv"], Dir);
    (["srv"; "html"], Dir);
    (["srv"; "html"; "demo"], Dir);
    (["srv"; "html"; "demo"; "old.css"], File "css");
    (["srv"; "html"; "demo"; "index.html"], File "<old>")
  ];
  w_cmds := [];
  w_out := [];
|}.

(** Staging is idempotent, as the specification words it: a second staging
    of the same source to the same destination goes through and leaves
    what the first left. *)
Definition staging_idempotent : Prop :=
  ∀ (src dst : path) (w w1 : world),
    Deploy.stage src dst w = (Return (), w1) →
    Deploy.stage src dst w1 = (Return (), w1).

(** ** Cleanup *)

(** The record text names neither the record file nor a directory above it
    as its staged directory, and not the record file as its configuration
    file. Only text whose reading is known counts: text that is UTF-8 and
    that [Json.loads] decodes, or in which no value starts at all. A
    document that [json.load] reads and [Json.loads] does not (one with a
    float, a nested value or a literal in it) is not known to spare
    anything. *)
Definition spares (e : env) (info_file : path) (text : string) : bool :=
  Py.is_utf8 text &&
  match Json.loads text with
  | Return info =>
      match Json.subscript info "html_dir" with
      | Return (Json.Str h) =>
          negb (bool_decide (Path.resolve (env_cwd e) h `prefix_of` info_file)) &&
          match Json.subscript info "conf_file" with
          | Return (Json.Str c) =>
              negb (bool_decide (Path.resolve (env_cwd e) c = info_file))
          | _ => true
          end
      | _ => true
      end
  | Raise _ => Json.no_value text
  end.


(** A record that names the directory of the records as its staged
    directory. *)
Definition trap_record : list (string * Json.scalar) :=
  [ ("project_id", Json.Str "trap");
    ("html_dir", Json.Str "/srv/deployments");
    ("conf_file", Json.Str "/srv/config/conf.d/trap.conf") ].

Definition trap_world : world := {|
  w_fs := <[ ["srv"; "deployments"; "trap.json"]
             := File (Json.dumps (Json.Dict trap_record)) ]>
            (<[ ["srv"; "deployments"] := Dir ]> office_disk);
  w_cmds := [];
  w_out := [];
|}.


(** A path component: a name without "/", other than "", "." and "..". *)
Definition plain (c : string) : Prop :=
  Py.has_char Py.slash c = false ∧ c ≠ "" ∧ c ≠ "." ∧ c ≠ "..".

(** ** What a computation leaves of the world *)

(** Whatever [m] does, returning or raising, the world it leaves is related
    by [R] to the world it was started in. *)
Definition keeps (R : relation world) {A : Type} (m : M A) : Prop :=
  ∀ w r w', m w = (r, w') → R w w'.

(** Nothing but printing: the files and the commands run are as before. *)
Definition read_only : relation world := λ w w',
  w_fs w' = w_fs w ∧ w_cmds w' = w_cmds w.

(** Entries of the disk only go away, none is made or rewritten, and the
    only commands run are reload signals to the proxy. *)
Definition shrinks : relation world := λ w w',
  w_fs w' ⊆ w_fs w ∧ ∃ n, w_cmds w' = w_cmds w ++ replicate n NginxReload.

(** Every entry of the disk outside [touched] is still there, as it was. *)
Definition preserves (touched : path → Prop) : relation world := λ w w',
  ∀ q n, ¬ touched q → w_fs w !! q = Some n → w_fs w' !! q = Some n.

(** The paths a deployment of [project_id] into [base] may write or remove. *)
Definition deployment_paths (base : path) (project_id : string) (q : path) : Prop :=
  html_dir_of base project_id `prefix_of` q ∨
  q = conf_file_of base project_id ∨
  q = Deploy.info_file_of base project_id.

(** Every port from [start] up to [p], [p] excluded, is a port number that
    is in use. *)
Definition all_refused (e : env) (start p : Z) : Prop :=
  ∀ q, start ≤ q < p → bind e q = BindOSError.

(** ** Records that cannot be read, disks that are in the way *)



(** A record without the time of deployment, the port, the configuration
    file and the source directory. *)
Definition undated_record : list (string * Json.scalar) :=
  [ ("project_id", Json.Str "project-1");
    ("url", Json.Str "http://localhost:8080");
    ("html_dir", Json.Str "/srv/html/project-1") ].

(** A disk on which a file stands where the configuration directory of the
    proxy goes. *)
Definition blocked_world : world := {|
  w_fs := {[ ["srv"; "config"] := File "notes" ]};
  w_cmds := [];
  w_out := [];
|}.

(** The proxy is listed as running but refuses the reload signal. *)
Definition failing_reload : env := {|
  env_port_free := λ p, 8083 <=? p;
  env_clock := 1700000000;
  env_timestamp := "2023-11-14 22:13:20";
  env_local_ip := Some "10.0.0.5";
  env_cwd := ["work"];
  env_docker_ps := Exited 0 ("nginx-web" +:+ Py.nl);
  env_compose_up := Exited 0 "started";
  env_nginx_reload := Exited 1 "refused";
|}.

(** ** Records that are written whole *)

(** The keys of a deployment record, in the order they are written. *)
Definition record_keys : list string :=
  ["project_id"; "port"; "url"; "html_dir"; "conf_file"; "source_dir"; "deployed_at"].


(** A directory name in Latin-1, "caf" and then the byte 233: bytes that
    are no UTF-8. Python holds such a name as a [str] with a surrogate
    escape. *)
Definition latin1_name : string := "caf" +:+ Py.char (Py.chr 233).

(** The office disk with a built site in a directory of that name. *)
Definition latin1_world : world := {|
  w_fs := <[ ["work"; latin1_name; "index.html"] := File "<html>" ]>
            (<[ ["work"; latin1_name] := Dir ]> office_disk);
  w_cmds := [];
  w_out := [];
|}.

(** ** The base directory cleanup.py is given *)

(** cleanup.py takes its base directory as it is written, [Path(x)], and
    leaves it to the operating system to walk it. When no component is
    [".."], the walk ends at the location the components spell from the
    working directory, whether or not the directories on the way exist, and
    that is what [Cleanup.base_dir] computes. *)
Definition spelled_out (nginx_base_dir : option pathlike) : Prop :=
  match nginx_base_dir with
  | Some (AsStr s) => ".." ∉ Path.split s
  | Some (AsPath p) => ".." ∉ p
  | None => True
  end.

(** ** The loop of cleanup_all *)


(** The disk after a deployment, with a second record beside it that is no
    JSON document. *)
Definition two_records_world : world := {|
  w_fs := <[ ["srv"; "deployments"; "broken.json"] := File "<html></html>" ]>
            (w_fs deployed_world);
  w_cmds := w_cmds deployed_world;
  w_out := [];
|}.

(** * Properties *)

(** ** Port allocation *)

Section find_available_port.
Context (e : env).

Lemma bind_valid q : 0 ≤ q ≤ 65535 → bind e q ≠ BindOverflow.
Proof.
  intros Hq. unfold bind.
  destruct (Z.ltb_spec q 0); [lia|].
  destruct (Z.ltb_spec 65535 q); [lia|]. simpl.
  by destruct (env_port_free e q).
Qed.

Lemma scan_ports_spec msg n port :
  valid_ports port (Z.of_nat n) →
  match scan_ports e msg n port with
  | Return p => port ≤ p < port + Z.of_nat n ∧ first_bindable e port p
  | Raise ex => ex = RuntimeError msg ∧ none_bindable e port (Z.of_nat n)
  end.
Proof.
  revert port. induction n as [|n IH]; intros port Hvalid; simpl.
  - split; [done|]. intros q Hq. lia.
  - destruct (bind e port) eqn:Hb.
    + split; [lia|]. split; [done|]. intros q Hq. lia.
    + specialize (IH (port + 1)).
      destruct (scan_ports e msg n (port + 1)) as [p|ex].
      * destruct IH as (Hp & Hbound & Hfirst).
        { intros q Hq. apply Hvalid. lia. }
        split; [lia|]. split; [done|].
        intros q Hq. destruct (decide (q = port)) as [->|Hne].
        -- by rewrite Hb.
        -- apply Hfirst. lia.
      * destruct IH as (-> & Hnone).
        { intros q Hq. apply Hvalid. lia. }
        split; [done|]. intros q Hq.
        destruct (decide (q = port)) as [->|Hne].
        -- by rewrite Hb.
        -- apply Hnone. lia.
    + exfalso. apply (bind_valid port); [|done]. apply Hvalid. lia.
Qed.

Lemma first_bindable_unique start p p' :
  start ≤ p → start ≤ p' → first_bindable e start p → first_bindable e start p' → p = p'.
Proof.
  intros Hp Hp' [Hb Hf] [Hb' Hf'].
  destruct (Z.lt_trichotomy p p') as [Hlt|[->|Hgt]]; [|done|].
  - exfalso. by apply (Hf' p).
  - exfalso. by apply (Hf p').
Qed.

Lemma valid_ports_to_nat start attempts :
  valid_ports start attempts → valid_ports start (Z.of_nat (Z.to_nat attempts)).
Proof. intros H q Hq. apply H. lia. Qed.

Lemma none_bindable_to_nat start attempts :
  none_bindable e start (Z.of_nat (Z.to_nat attempts)) ↔ none_bindable e start attempts.
Proof. split; intros H q Hq; apply H; lia. Qed.

(** C2 (as amended). When every port of [start, start+attempts) is a
    valid port number (0..65535), find_available_port returns exactly the
    first port of the range that can be bound at the moment of the check,
    never a port outside the range, and it fails with NoAvailablePort
    exactly when no port of the range can be bound. *)
Theorem find_available_port_first_bindable (start attempts : Z) :
  valid_ports start attempts → allocator_contract e start attempts.
Proof.
  intros Hvalid.
  pose proof (scan_ports_spec (no_port_msg start attempts) (Z.to_nat attempts) start
                (valid_ports_to_nat _ _ Hvalid)) as Hscan.
  unfold allocator_contract, find_available_port, NoAvailablePort.
  destruct (scan_ports e _ _ start) as [p0|ex].
  - destruct Hscan as (Hrange & Hfirst). split.
    + intros p. split.
      * intros [= <-]. split; [lia|done].
      * intros [Hp Hfp]. f_equal.
        apply (first_bindable_unique start); [lia|lia|done|done].
    + split; [done|]. intros Hnone. exfalso.
      destruct Hfirst as [Hb _]. apply (Hnone p0); [lia|done].
  - destruct Hscan as (-> & Hnone).
    apply (proj1 (none_bindable_to_nat _ _)) in Hnone. split.
    + intros p. split; [done|]. intros [Hp [Hb _]]. exfalso. by apply (Hnone p Hp).
    + done.
Qed.

End find_available_port.

Lemma find_available_port_first_bindable_witness :
  valid_ports 8080 100 ∧ allocator_contract three_busy 8080 100.
Proof.
  assert (valid_ports 8080 100) as H by (intros q Hq; lia).
  split; [exact H | exact (find_available_port_first_bindable three_busy 8080 100 H)].
Defined.

(** C2 (as stated) fails past the last port number: from 65535 with two
    attempts and port 65535 taken, no port of the range can be bound, yet
    the allocator does not fail with NoAvailablePort: the OverflowError of
    the bind on 65536 leaves the loop. *)
Lemma find_available_port_overflow :
  ¬ allocator_contract all_busy 65535 2.
Proof.
  intros [_ Hfail].
  assert (none_bindable all_busy 65535 2) as Hnone.
  { intros q Hq. unfold bind. simpl.
    destruct (_ || _); done. }
  apply Hfail in Hnone. vm_compute in Hnone. discriminate Hnone.
Qed.

Example find_available_port_skips_busy :
  find_available_port three_busy 8080 100 = Return 8083.
Proof. reflexivity. Qed.

Example find_available_port_overflow_escapes :
  find_available_port all_busy 65535 2 = Raise OverflowError.
Proof. reflexivity. Qed.

(** ** Names and paths *)

Lemma has_char_app c a b :
  Py.has_char c (a +:+ b) = Py.has_char c a || Py.has_char c b.
Proof.
  induction a as [|x a IH]; simpl; [done|].
  rewrite IH. by rewrite orb_assoc.
Qed.

Lemma split_no_slash s : Py.has_char Py.slash s = false → Path.split s = [s].
Proof.
  induction s as [|a s IH]; simpl; [done|].
  intros H. apply orb_false_iff in H as [Ha Hs].
  rewrite Ha. by rewrite (IH Hs).
Qed.

(** A name that is one path component. *)
Lemma join_name (here : path) (s : string) :
  Py.has_char Py.slash s = false → s ≠ "" → s ≠ "." → s ≠ ".." →
  Path.join here s = here ++ [s].
Proof.
  intros Hs H0 H1 H2. unfold Path.join, Path.is_absolute.
  rewrite (split_no_slash s Hs).
  assert (Py.starts_with "/" s = false) as ->.
  { destruct s as [|a s]; [done|]. simpl in *.
    apply orb_false_iff in Hs as [Ha _]. apply bool_decide_eq_false in Ha.
    rewrite bool_decide_eq_false_2; [done|]. intros Heq. apply Ha. by rewrite <-Heq. }
  simpl. unfold Path.step.
  rewrite !bool_decide_eq_false_2 by done. done.
Qed.

Lemma has_char_uint c d :
  (∀ n, (48 ≤ n ≤ 57)%nat → c ≠ Py.chr n) →
  Py.has_char c (NilEmpty.string_of_uint d) = false.
Proof.
  intros Hc. induction d; simpl; [done|..];
    rewrite IHd, orb_false_r; apply bool_decide_eq_false_2; intros <-.
  - by apply (Hc 48%nat); [lia|].
  - by apply (Hc 49%nat); [lia|].
  - by apply (Hc 50%nat); [lia|].
  - by apply (Hc 51%nat); [lia|].
  - by apply (Hc 52%nat); [lia|].
  - by apply (Hc 53%nat); [lia|].
  - by apply (Hc 54%nat); [lia|].
  - by apply (Hc 55%nat); [lia|].
  - by apply (Hc 56%nat); [lia|].
  - by apply (Hc 57%nat); [lia|].
Qed.

Lemma slash_not_digit n : (48 ≤ n ≤ 57)%nat → Py.slash ≠ Py.chr n.
Proof.
  intros Hn Heq.
  assert (n = 48 ∨ n = 49 ∨ n = 50 ∨ n = 51 ∨ n = 52 ∨ n = 53 ∨ n = 54 ∨
          n = 55 ∨ n = 56 ∨ n = 57)%nat as Hcases by lia.
  repeat destruct Hcases as [->|Hcases]; try subst n; discriminate Heq.
Qed.

Lemma str_int_no_slash n : Py.has_char Py.slash (Py.str_int n) = false.
Proof.
  unfold Py.str_int, NilZero.string_of_int, NilZero.string_of_uint.
  destruct (Z.to_int n) as [d|d].
  - destruct d; try done; apply (has_char_uint Py.slash _ slash_not_digit).
  - simpl. destruct d; try done; apply (has_char_uint Py.slash _ slash_not_digit).
Qed.

Lemma to_int_digits n :
  Z.to_int n ≠ Decimal.Pos Decimal.Nil ∧ Z.to_int n ≠ Decimal.Neg Decimal.Nil.
Proof.
  destruct n as [|p|p]; simpl; split; try done; intros [= H];
    by apply (DecimalPos.Unsigned.to_uint_nonnil p).
Qed.

Lemma str_int_inj a b : Py.str_int a = Py.str_int b → a = b.
Proof.
  unfold Py.str_int. intros H.
  apply DecimalZ.to_int_inj.
  destruct (to_int_digits a) as [Ha1 Ha2], (to_int_digits b) as [Hb1 Hb2].
  assert (Some (Z.to_int a) = Some (Z.to_int b)) as [= ->]; [|done].
  rewrite <-(NilZero.isi _ Ha1 Ha2), <-(NilZero.isi _ Hb1 Hb2). by rewrite H.
Qed.

Lemma project_id_is_name (e : env) (suffix : string) :
  Py.has_char Py.slash suffix = false →
  ∀ here, Path.join here (Deploy.generate_project_id e +:+ suffix)
          = here ++ [Deploy.generate_project_id e +:+ suffix].
Proof.
  intros Hsuffix here. apply join_name; try done.
  unfold Deploy.generate_project_id.
  rewrite !has_char_app, str_int_no_slash, Hsuffix. done.
Qed.

Lemma string_length_app (a b : string) :
  String.length (a +:+ b) = (String.length a + String.length b)%nat.
Proof. induction a as [|x a IH]; simpl; [done|]. by rewrite IH. Qed.

Lemma singleton_inj {A} (a b : A) : [a] = [b] → a = b.
Proof. congruence. Qed.

Lemma string_app_cons (a : ascii) (s t : string) :
  String a s +:+ t = String a (s +:+ t).
Proof. reflexivity. Qed.

Lemma string_app_nil (s : string) : s +:+ "" = s.
Proof.
  induction s as [|a s IH]; [done|].
  change (String a (s +:+ "") = String a s). by rewrite IH.
Qed.

Lemma app_inv_tail_string (a b s : string) : a +:+ s = b +:+ s → a = b.
Proof.
  revert b. induction a as [|x a IH]; intros [|y b]; simpl; intros H.
  - done.
  - exfalso. apply (f_equal String.length) in H.
    rewrite ?string_length_app in H. simpl in H.
    rewrite ?string_length_app in H. lia.
  - exfalso. apply (f_equal String.length) in H.
    rewrite ?string_length_app in H. simpl in H.
    rewrite ?string_length_app in H. lia.
  - injection H as -> H. f_equal. by apply IH.
Qed.

(** ** Identifiers *)

Lemma generate_project_id_inj (e1 e2 : env) :
  Deploy.generate_project_id e1 = Deploy.generate_project_id e2 ↔
  env_clock e1 = env_clock e2.
Proof.
  unfold Deploy.generate_project_id. split.
  - intros H. simpl in H. injection H as H. by apply str_int_inj.
  - by intros ->.
Qed.

(** C8 (as amended). Ids are derived from the clock in whole seconds: two
    deployments get the same id exactly when they read the same second, and
    likewise, within one base directory, the same staged directory, the same
    configuration file and the same record file. *)
Theorem generate_project_id_per_second (e1 e2 : env) (base : path) :
  let id1 := Deploy.generate_project_id e1 in
  let id2 := Deploy.generate_project_id e2 in
  (id1 = id2 ↔ env_clock e1 = env_clock e2) ∧
  (html_dir_of base id1 = html_dir_of base id2 ↔ env_clock e1 = env_clock e2) ∧
  (conf_file_of base id1 = conf_file_of base id2 ↔ env_clock e1 = env_clock e2) ∧
  (Deploy.info_file_of base id1 = Deploy.info_file_of base id2
     ↔ env_clock e1 = env_clock e2).
Proof.
  intros id1 id2. pose proof (generate_project_id_inj e1 e2) as Hid.
  fold id1 id2 in Hid.
  split; [done|].
  unfold html_dir_of, conf_file_of, Deploy.info_file_of.
  pose proof (project_id_is_name e1 "" eq_refl) as H1.
  pose proof (project_id_is_name e2 "" eq_refl) as H2.
  rewrite !string_app_nil in H1, H2. fold id1 in H1. fold id2 in H2.
  repeat split.
  - rewrite H1, H2. intros H. apply app_inv_head in H. apply Hid.
    by apply singleton_inj.
  - intros H. apply Hid in H. by rewrite H.
  - unfold id1, id2. rewrite !project_id_is_name by done.
    intros H. apply app_inv_head in H.
    apply singleton_inj, app_inv_tail_string in H. by apply Hid.
  - intros H. apply Hid in H. by rewrite H.
  - unfold id1, id2. rewrite !project_id_is_name by done.
    intros H. apply app_inv_head in H.
    apply singleton_inj, app_inv_tail_string in H. by apply Hid.
  - intros H. apply Hid in H. by rewrite H.
Qed.

(** C8 (as stated) fails for two deployments within one second: the second
    gets the id, the staged directory and the configuration file of the
    first. *)
Lemma same_second_same_id : ¬ ids_never_shared.
Proof.
  intros H.
  destruct (H office office "site" "blog" (Some "/srv") office_world
              (record_of office "site" ["srv"] 8083)
              (record_of office "blog" ["srv"] 8083)) as [Hne _].
  - vm_compute. reflexivity.
  - vm_compute. reflexivity.
  - apply Hne. reflexivity.
Qed.

(** ** Reloading the proxy *)

Ltac unfold_M :=
  repeat progress
    unfold run_checked, when_, print, run, raise, of_outcome, path_exists,
      fs_update, fs_read, try_except, copytree, set_fs, say,
      mbind, M_bind, mret, M_ret in *.

(** C5 (as amended). The reload step of cleanup never looks at the proxy and
    never starts it: whatever the disk and the proxy are like, it runs one
    command, the reload signal, leaves the files alone, returns when that
    command ends with status 0 and fails when the command cannot be started
    or ends with another status. It does what the reload controller does
    exactly when the controller finds the topology file and sees the proxy
    running. *)
Theorem cleanup_reload_signal_only (e : env) (nginx_base_dir : path) (w : world) :
  let step := Cleanup.reload_step e w in
  w_cmds step.2 = w_cmds w ++ [NginxReload] ∧
  w_fs step.2 = w_fs w ∧
  step.1 = match env_nginx_reload e with
           | SpawnFailed => Raise (OSError FileNotFoundError)
           | Exited code _ =>
               if bool_decide (code = 0) then Return ()
               else Raise (CalledProcessError NginxReload code)
           end ∧
  (same_reload e nginx_base_dir w ↔
   Fs.exists_ (w_fs w) (Path.join nginx_base_dir "docker-compose.yml") = true ∧
   ∃ code out, env_docker_ps e = Exited code out ∧
               Py.contains "nginx-web" out = true).
Proof.
  assert (∀ (l : list command) c, l ++ [c] ≠ l) as Hlonger.
  { intros l c Heq. apply (f_equal length) in Heq. rewrite length_app in Heq.
    cbn [length] in Heq. lia. }
  cbv zeta.
  unfold same_reload, proxy_actions, Cleanup.reload_step, Deploy.reload_nginx.
  unfold_M. cbn [command_result fst snd w_fs w_cmds w_out].
  assert (∃ r, (match env_nginx_reload e with
                | SpawnFailed => Raise (OSError FileNotFoundError)
                | Exited code _ =>
                    if bool_decide (code = 0) then Return ()
                    else Raise (CalledProcessError NginxReload code)
                end) = r) as [r Hr] by by eexists.
  rewrite Hr.
  destruct (env_nginx_reload e) as [|rc so]; cbn [fst snd w_fs w_cmds w_out];
    [|destruct (bool_decide (rc = 0)); cbn [fst snd w_fs w_cmds w_out]];
    subst r.
  all: split; [done|]; split; [done|]; split; [done|].
  all: destruct (Fs.exists_ (w_fs w) _); cbn [negb fst snd w_fs w_cmds w_out];
    [|split; [|by intros [? _]]; intros (_ & Hactions & _); exfalso;
      rewrite filter_app in Hactions; by apply Hlonger in Hactions].
  all: destruct (env_docker_ps e) as [|code listing];
    cbn [negb fst snd w_fs w_cmds w_out];
    [split; [|by intros (_ & ? & ? & ? & _)]; intros (_ & Hactions & _); exfalso;
     rewrite !filter_app in Hactions; cbn in Hactions;
     rewrite app_nil_r in Hactions; by apply Hlonger in Hactions|].
  all: destruct (Py.contains "nginx-web" listing) eqn:Hrunning;
    cbn [negb fst snd w_fs w_cmds w_out].
  all: try (split; [intros _; split; [done|by exists code, listing]|]; intros _;
            rewrite <-?app_assoc, ?filter_app; repeat split; reflexivity).
  all: split; [|intros (_ & code' & out' & Heq & Hout); injection Heq as _ <-;
                congruence].
  all: destruct (env_compose_up e) as [|rc' so']; cbn [fst snd w_fs w_cmds w_out];
    [|destruct (bool_decide (rc' = 0)); cbn [fst snd w_fs w_cmds w_out]].
  all: intros (_ & Hactions & _); exfalso;
    rewrite <-?app_assoc, !filter_app in Hactions; cbn in Hactions;
    by apply app_inv_head in Hactions.
Qed.

(** C5 (as stated) fails when the proxy is stopped: the controller starts
    it, the reload step of cleanup signals a container that is not there. *)
Lemma cleanup_reload_differs_when_stopped : ¬ cleanup_reloads_as_controller.
Proof.
  intros H. destruct (H stopped_proxy ["srv"] office_world) as [Hresult _].
  vm_compute in Hresult. discriminate Hresult.
Qed.

Example reload_nginx_starts_stopped_proxy :
  (Deploy.reload_nginx stopped_proxy ["srv"] office_world).1 = Return () ∧
  w_cmds (Deploy.reload_nginx stopped_proxy ["srv"] office_world).2
    = [DockerPs; ComposeUp].
Proof. split; reflexivity. Qed.

Example cleanup_reload_signals_stopped_proxy :
  (Cleanup.reload_step stopped_proxy office_world).1
    = Raise (CalledProcessError NginxReload 1) ∧
  w_cmds (Cleanup.reload_step stopped_proxy office_world).2 = [NginxReload].
Proof. split; reflexivity. Qed.

(** ** Running the monad *)

Lemma bind_run {A B} (m : M A) (f : A → M B) (w : world) :
  (m ≫= f) w = match m w with
               | (Return a, w') => f a w'
               | (Raise ex, w') => (Raise ex, w')
               end.
Proof. reflexivity. Qed.

Lemma try_except_run {A} (body : M A) (handler : exn → M A) (w : world) :
  try_except body handler w = match body w with
                              | (Return a, w') => (Return a, w')
                              | (Raise ex, w') => handler ex w'
                              end.
Proof. reflexivity. Qed.

Lemma print_run (l : line) (w : world) : print l w = (Return (), say l w).
Proof. reflexivity. Qed.

Lemma pair_eta_fst {A B} (x : A * B) (a : A) : x.1 = a → x = (a, x.2).
Proof. destruct x. simpl. by intros ->. Qed.

(** ** Cleanup of an id without a record *)

Lemma cleanup_deployment_missing (e : env) (project_id : string)
      (nginx_base_dir : option pathlike) (w : world) :
  Fs.exists_ (w_fs w)
    (Cleanup.info_file_of (Cleanup.base_dir e nginx_base_dir) project_id) = false →
  Cleanup.cleanup_deployment e project_id nginx_base_dir w
  = (Return false, say (Text ("❌ 项目不存在: " +:+ project_id)) w).
Proof.
  intros Hmissing. unfold Cleanup.cleanup_deployment, Cleanup.info_file_of in *.
  rewrite bind_run. unfold path_exists at 1. rewrite Hmissing. reflexivity.
Qed.

(** Whatever happens, cleanup_deployment comes back with a boolean. *)
Lemma cleanup_deployment_returns (e : env) (project_id : string)
      (nginx_base_dir : option pathlike) (w : world) :
  ∃ ok w', Cleanup.cleanup_deployment e project_id nginx_base_dir w = (Return ok, w').
Proof.
  unfold Cleanup.cleanup_deployment.
  rewrite bind_run. unfold path_exists at 1.
  destruct (Fs.exists_ _ _); cbn [negb].
  - rewrite try_except_run.
    match goal with |- context [match ?body w with _ => _ end] =>
      destruct (body w) as [[ok|ex] w'] end.
    + by eexists _, _.
    + by eexists _, _.
  - by eexists _, _.
Qed.

(** C4. For an id that has no record file (and is not one of the commands
    list and all), [python cleanup.py <id> [base]] reports that the project
    does not exist and leaves files and proxy alone; its exit status is 0. *)
Theorem cleanup_missing_id_exit_status (e : env) (prog project_id : string)
        (rest : list string) (w : world) :
  project_id ≠ "list" → project_id ≠ "all" →
  Fs.exists_ (w_fs w)
    (Cleanup.info_file_of (Cleanup.base_dir e (AsStr <$> head rest)) project_id)
    = false →
  Cleanup.main e (prog :: project_id :: rest) w
  = (0, say (Text ("❌ 项目不存在: " +:+ project_id)) w).
Proof.
  intros Hlist Hall Hmissing. unfold Cleanup.main.
  rewrite !bool_decide_eq_false_2 by done.
  rewrite bind_run, (cleanup_deployment_missing _ _ _ _ Hmissing). reflexivity.
Qed.

Lemma cleanup_missing_id_exit_status_witness :
  Cleanup.main office ["cleanup.py"; "ghost"; "/srv"] office_world
  = (0, say (Text ("❌ 项目不存在: " +:+ "ghost")) office_world).
Proof.
  apply (cleanup_missing_id_exit_status office "cleanup.py" "ghost" ["/srv"]);
    [done | done | reflexivity].
Defined.

(** ** Exit status of the command lines *)

(** deploy.py: a failure of deploy_frontend is reported and the exit status
    is 1. *)
Lemma deploy_main_failure (e : env) (prog source_dir : string) (rest : list string)
      (w w' : world) (ex : exn) :
  Deploy.deploy_frontend e source_dir (head rest) w = (Raise ex, w') →
  Deploy.main e (prog :: source_dir :: rest) w
  = (1, say (Traceback ex) (say (Report (Py.nl +:+ "❌ 部署失败: ") ex) w')).
Proof.
  intros Hfail. unfold Deploy.main.
  rewrite try_except_run, bind_run, Hfail. reflexivity.
Qed.

Lemma deploy_main_usage (e : env) (w : world) :
  (Deploy.main e [] w).1 = 1 ∧ ∀ prog, (Deploy.main e [prog] w).1 = 1.
Proof. split; [|intros prog]; reflexivity. Qed.

(** cleanup.py: cleaning a named id ends with exit status 0, whether or not
    the cleanup went through. *)
Lemma cleanup_main_named_id (e : env) (prog project_id : string)
      (rest : list string) (w : world) :
  project_id ≠ "list" → project_id ≠ "all" →
  (Cleanup.main e (prog :: project_id :: rest) w).1 = 0.
Proof.
  intros Hlist Hall. unfold Cleanup.main.
  rewrite !bool_decide_eq_false_2 by done. rewrite bind_run.
  destruct (cleanup_deployment_returns e project_id (AsStr <$> head rest) w)
    as (ok & w' & ->). reflexivity.
Qed.



(** C7. A cleanup that fails half-way (here: the reload signal has no
    running proxy to go to) prints its failure message, and
    [python cleanup.py <id> <base>] still ends with exit status 0. *)
Theorem cleanup_failure_exit_status :
  let run := Cleanup.main stopped_proxy
               ["cleanup.py"; "project-1700000000"; "/srv"] deployed_world in
  run.1 = 0 ∧
  last (w_out run.2) = Some (Traceback (CalledProcessError NginxReload 1)) ∧
  Report "❌ 清理失败: " (CalledProcessError NginxReload 1) ∈ w_out run.2.
Proof.
  vm_compute. split; [done|]. split; [done|].
  apply list_elem_of_In. vm_compute. tauto.
Qed.

(** ** The file system: directories *)

Lemma elem_of_dirs_to (p q : path) :
  q ∈ Fs.dirs_to p ↔ q ≠ [] ∧ q `prefix_of` p.
Proof.
  unfold Fs.dirs_to. rewrite list_elem_of_fmap. split.
  - intros (n & -> & Hn). apply elem_of_seq in Hn. split.
    + destruct p; simpl in *; [lia|]. destruct n; [lia|done].
    + apply prefix_take.
  - intros (Hne & k & ->). exists (length q). split.
    + by rewrite take_app_length.
    + apply elem_of_seq. rewrite length_app.
      destruct q; simpl in *; [done|lia].
Qed.

Lemma dirs_to_self (p : path) : p ≠ [] → p ∈ Fs.dirs_to p.
Proof. intros H. by apply elem_of_dirs_to. Qed.

Lemma lookup_dirs_map_Some (p q : path) (n : node) :
  Fs.dirs_map p !! q = Some n ↔ n = Dir ∧ q ∈ Fs.dirs_to p.
Proof.
  unfold Fs.dirs_map. split.
  - intros H. apply elem_of_list_to_map_2 in H.
    apply list_elem_of_fmap in H as (q' & [= -> ->] & Hq). done.
  - intros [-> Hq]. apply elem_of_list_to_map_1'.
    + intros y Hy. apply list_elem_of_fmap in Hy as (q' & [= _ ->] & _). done.
    + apply list_elem_of_fmap. by exists q.
Qed.

Lemma lookup_dirs_map_None (p q : path) :
  Fs.dirs_map p !! q = None ↔ q ∉ Fs.dirs_to p.
Proof.
  split.
  - intros H Hq. by rewrite (proj2 (lookup_dirs_map_Some p q Dir)) in H.
  - intros Hq. destruct (Fs.dirs_map p !! q) as [n|] eqn:H; [|done].
    apply lookup_dirs_map_Some in H as [_ H]. done.
Qed.

Lemma makedirs_ok (p : path) (t : gmap path node) :
  (∀ q, q ∈ Fs.dirs_to p → Fs.is_file t q = false) →
  Fs.makedirs p t = Return (t ∪ Fs.dirs_map p).
Proof.
  intros Hclear. unfold Fs.makedirs.
  destruct (list_find _ _) as [[i q]|] eqn:Hfind; [|done].
  apply list_find_Some in Hfind as (Hq & Hfile & _).
  apply list_elem_of_lookup_2 in Hq. rewrite (Hclear q Hq) in Hfile. done.
Qed.

Lemma makedirs_inv (p : path) (t t' : gmap path node) :
  Fs.makedirs p t = Return t' →
  t' = t ∪ Fs.dirs_map p ∧ ∀ q, q ∈ Fs.dirs_to p → Fs.is_file t q = false.
Proof.
  unfold Fs.makedirs. destruct (list_find _ _) as [[i q]|] eqn:Hfind; [done|].
  intros [= <-]. split; [done|]. intros q Hq.
  apply list_find_None in Hfind. rewrite Forall_forall in Hfind.
  specialize (Hfind q Hq). by destruct (Fs.is_file t q).
Qed.

Lemma node_at_lookup (t : gmap path node) (q : path) :
  q ≠ [] → Fs.node_at t q = t !! q.
Proof. by destruct q. Qed.

Lemma is_file_false_lookup (t : gmap path node) (q : path) :
  q ≠ [] → Fs.is_file t q = false → t !! q = None ∨ t !! q = Some Dir.
Proof.
  intros Hq. unfold Fs.is_file. rewrite node_at_lookup by done.
  destruct (t !! q) as [[c|]|]; auto. done.
Qed.

(** After [makedirs p], the directories to [p] are there and nothing else
    has changed. *)
Lemma lookup_after_makedirs (p q : path) (t : gmap path node) :
  (∀ q, q ∈ Fs.dirs_to p → Fs.is_file t q = false) →
  (t ∪ Fs.dirs_map p) !! q = if decide (q ∈ Fs.dirs_to p) then Some Dir else t !! q.
Proof.
  intros Hclear. case_decide as Hq.
  - pose proof (proj1 (elem_of_dirs_to p q) Hq) as [Hne _].
    destruct (is_file_false_lookup t q Hne (Hclear q Hq)) as [Hnone|Hdir].
    + rewrite lookup_union_r by done. by apply lookup_dirs_map_Some.
    + by rewrite (lookup_union_Some_l _ _ _ _ Hdir).
  - apply lookup_dirs_map_None in Hq.
    destruct (t !! q) as [n|] eqn:Ht.
    + by rewrite (lookup_union_Some_l _ _ _ _ Ht).
    + by rewrite lookup_union_r.
Qed.

Lemma parent_snoc (p : path) (x : string) : Path.parent (p ++ [x]) = p.
Proof. unfold Path.parent. apply removelast_last. Qed.

Lemma write_text_ok (p : path) (x s : string) (t : gmap path node) :
  Fs.node_at t p = Some Dir → t !! (p ++ [x]) ≠ Some Dir →
  Fs.write_text (p ++ [x]) s t = Return (<[p ++ [x] := File s]> t).
Proof.
  intros Hparent Hfree. unfold Fs.write_text.
  rewrite parent_snoc, Hparent.
  rewrite node_at_lookup by (by destruct p).
  by destruct (t !! (p ++ [x])) as [[c|]|].
Qed.

(** ** Text *)

Lemma starts_with_app (p rest : string) : Py.starts_with p (p +:+ rest) = true.
Proof.
  induction p as [|a p IH]; [done|].
  change (bool_decide (a = a) && Py.starts_with p (p +:+ rest) = true).
  by rewrite bool_decide_eq_true_2, IH.
Qed.

Lemma starts_with_eq (p s rest : string) :
  s = p +:+ rest → Py.starts_with p s = true.
Proof. intros ->. apply starts_with_app. Qed.

Lemma contains_here (sub s : string) :
  Py.starts_with sub s = true → Py.contains sub s = true.
Proof. intros H. destruct s; simpl; rewrite H; done. Qed.

Lemma contains_cons (sub : string) (a : ascii) (s : string) :
  Py.contains sub s = true → Py.contains sub (String a s) = true.
Proof. intros H. simpl. rewrite H. apply orb_true_r. Qed.

Lemma contains_app_r (sub a s : string) :
  Py.contains sub s = true → Py.contains sub (a +:+ s) = true.
Proof.
  intros H. induction a as [|x a IH]; [done|].
  change (Py.contains sub (String x (a +:+ s)) = true). by apply contains_cons.
Qed.

Lemma string_app_assoc (a b c : string) : (a +:+ b) +:+ c = a +:+ (b +:+ c).
Proof.
  induction a as [|x a IH]; [done|].
  change (String x ((a +:+ b) +:+ c) = String x (a +:+ (b +:+ c))). by rewrite IH.
Qed.

(** ** The generated configuration *)

Lemma config_content_listen (project_id : string) (port : Z) :
  Py.contains ("listen " +:+ Py.str_int port +:+ ";")
    (Deploy.config_content project_id port) = true.
Proof.
  unfold Deploy.config_content. cbn [Py.join].
  rewrite !string_app_assoc.
  do 13 apply contains_cons. apply contains_here.
  eapply starts_with_eq. rewrite !string_app_assoc. reflexivity.
Qed.

Lemma config_content_root (project_id : string) (port : Z) :
  Py.contains ("root /usr/share/nginx/html/" +:+ project_id +:+ ";")
    (Deploy.config_content project_id port) = true.
Proof.
  unfold Deploy.config_content. cbn [Py.join].
  rewrite !string_app_assoc.
  do 20 apply contains_cons. apply contains_app_r.
  do 34 apply contains_cons. apply contains_here.
  eapply starts_with_eq. rewrite !string_app_assoc. reflexivity.
Qed.

Lemma conf_name_is_name (project_id : string) (here : path) :
  Py.has_char Py.slash project_id = false →
  Path.join here (project_id +:+ ".conf") = here ++ [project_id +:+ ".conf"].
Proof.
  intros Hid. apply join_name.
  - by rewrite has_char_app, Hid.
  - intros H. apply (f_equal String.length) in H.
    rewrite string_length_app in H. simpl in H. lia.
  - intros H. apply (f_equal String.length) in H.
    rewrite string_length_app in H. simpl in H. lia.
  - intros H. apply (f_equal String.length) in H.
    rewrite string_length_app in H. simpl in H. lia.
Qed.

Lemma conf_dir_of_eq (nginx_base_dir : path) :
  Deploy.conf_dir_of nginx_base_dir = nginx_base_dir ++ ["config"; "conf.d"].
Proof.
  unfold Deploy.conf_dir_of.
  rewrite !join_name by done. by rewrite <-app_assoc.
Qed.

(** C3. For an id that is a file name (no "/", as every generated id) and
    any port, create_nginx_conf makes the directories down to
    <base>/config/conf.d where they are missing, writes the configuration to
    <base>/config/conf.d/<id>.conf and returns that path, provided no file
    stands where a directory is needed and the target is not a directory.
    The text written listens on the port and has its document root at
    /usr/share/nginx/html/<id>. Nothing else on disk changes. *)
Theorem create_nginx_conf_writes (project_id : string) (port : Z)
        (nginx_base_dir : path) (w : world) :
  let conf_dir := nginx_base_dir ++ ["config"; "conf.d"] in
  let conf_file := conf_dir ++ [project_id +:+ ".conf"] in
  let text := Deploy.config_content project_id port in
  Py.has_char Py.slash project_id = false →
  (∀ q, q ∈ Fs.dirs_to conf_dir → Fs.is_file (w_fs w) q = false) →
  w_fs w !! conf_file ≠ Some Dir →
  ∃ w', Deploy.create_nginx_conf project_id port nginx_base_dir w
          = (Return conf_file, w') ∧
        w_fs w' !! conf_file = Some (File text) ∧
        (∀ q, q ∈ Fs.dirs_to conf_dir → w_fs w' !! q = Some Dir) ∧
        (∀ q, q ≠ conf_file → q ∉ Fs.dirs_to conf_dir → w_fs w' !! q = w_fs w !! q) ∧
        Py.contains ("listen " +:+ Py.str_int port +:+ ";") text = true ∧
        Py.contains ("root /usr/share/nginx/html/" +:+ project_id +:+ ";") text = true.
Proof.
  intros conf_dir conf_file text Hid Hclear Hfree.
  assert (conf_dir ≠ []) as Hdir_ne by (unfold conf_dir; by destruct nginx_base_dir).
  assert (conf_file ∉ Fs.dirs_to conf_dir) as Hfile_out.
  { intros H. apply elem_of_dirs_to in H as [_ H]. by apply prefix_snoc_not in H. }
  unfold Deploy.create_nginx_conf.
  rewrite conf_dir_of_eq, conf_name_is_name by done. fold conf_dir conf_file text.
  rewrite bind_run. unfold fs_update at 1.
  rewrite (makedirs_ok conf_dir (w_fs w) Hclear).
  rewrite bind_run. unfold fs_update at 1. cbn [set_fs w_fs].
  unfold conf_file at 1. rewrite write_text_ok.
  - eexists. split; [reflexivity|]. cbn [set_fs w_fs]. fold conf_file.
    split; [by rewrite lookup_insert_eq|].
    split; [|split; [|split]].
    + intros q Hq. rewrite lookup_insert_ne by (by intros <-).
      rewrite lookup_after_makedirs by done. by rewrite decide_True.
    + intros q Hq1 Hq2. rewrite lookup_insert_ne by done.
      rewrite lookup_after_makedirs by done. by rewrite decide_False.
    + apply config_content_listen.
    + apply config_content_root.
  - rewrite node_at_lookup by done.
    rewrite lookup_after_makedirs by done.
    by rewrite decide_True by (by apply dirs_to_self).
  - fold conf_file. rewrite lookup_after_makedirs by done.
    by rewrite decide_False.
Qed.

Lemma create_nginx_conf_writes_witness :
  ∃ w', Deploy.create_nginx_conf "demo" 8123 ["srv"] blank_world
          = (Return ["srv"; "config"; "conf.d"; "demo.conf"], w') ∧
        w_fs w' !! ["srv"; "config"; "conf.d"; "demo.conf"]
          = Some (File (Deploy.config_content "demo" 8123)) ∧
        (∀ q, q ∈ Fs.dirs_to ["srv"; "config"; "conf.d"] → w_fs w' !! q = Some Dir) ∧
        (∀ q, q ≠ ["srv"; "config"; "conf.d"; "demo.conf"] →
              q ∉ Fs.dirs_to ["srv"; "config"; "conf.d"] →
              w_fs w' !! q = w_fs blank_world !! q) ∧
        Py.contains "listen 8123;" (Deploy.config_content "demo" 8123) = true ∧
        Py.contains "root /usr/share/nginx/html/demo;"
          (Deploy.config_content "demo" 8123) = true.
Proof.
  apply (create_nginx_conf_writes "demo" 8123 ["srv"] blank_world).
  - reflexivity.
  - intros q _. unfold Fs.is_file, Fs.node_at. destruct q; [reflexivity|].
    simpl. rewrite lookup_empty. reflexivity.
  - simpl. rewrite lookup_empty. discriminate.
Defined.

(** ** The file system: removing and copying trees *)

Lemma relative_to_Some (p q r : path) : Fs.relative_to p q = Some r ↔ q = p ++ r.
Proof.
  revert q. induction p as [|a p IH]; intros q; simpl.
  - split; [by intros [= ->]|by intros ->].
  - destruct q as [|b q]; [split; [done|by intros [=]]|].
    case_bool_decide as Hab.
    + subst b. rewrite IH. split; [by intros ->|by intros [= ->]].
    + split; [done|]. intros [= -> _]. done.
Qed.

Lemma relative_to_None (p q : path) : Fs.relative_to p q = None ↔ ¬ p `prefix_of` q.
Proof.
  split.
  - intros H [r ->]. by rewrite (proj2 (relative_to_Some p (p ++ r) r)) in H.
  - intros H. destruct (Fs.relative_to p q) as [r|] eqn:Hr; [|done].
    apply relative_to_Some in Hr. exfalso. apply H. by exists r.
Qed.

Lemma lookup_rmtree (p q : path) (t : gmap path node) :
  filter (Fs.outside p) t !! q = if decide (p `prefix_of` q) then None else t !! q.
Proof.
  case_decide as Hpq.
  - apply map_lookup_filter_None. right. intros n _ Hout. by apply Hout.
  - destruct (t !! q) as [n|] eqn:Hq.
    + by apply map_lookup_filter_Some.
    + apply map_lookup_filter_None. by left.
Qed.

Lemma lookup_graft_Some (src dst q : path) (t : gmap path node) (n : node) :
  Fs.graft src dst t !! q = Some n ↔
  ∃ c rel, q = dst ++ c :: rel ∧ t !! (src ++ c :: rel) = Some n.
Proof.
  assert (∀ y, (q, y) ∈ omap (Fs.moved src dst) (map_to_list t) →
               ∃ c rel, q = dst ++ c :: rel ∧ t !! (src ++ c :: rel) = Some y) as Hin.
  { intros y Hy. apply list_elem_of_omap in Hy as ([k v] & Hkv & Hmoved).
    apply elem_of_map_to_list in Hkv. unfold Fs.moved in Hmoved. simpl in Hmoved.
    destruct (Fs.relative_to src k) as [[|c rel]|] eqn:Hrel; try done.
    apply relative_to_Some in Hrel. injection Hmoved as <- <-.
    exists c, rel. by subst k. }
  unfold Fs.graft. split.
  - intros H. apply elem_of_list_to_map_2 in H. by apply Hin.
  - intros (c & rel & -> & Hsrc). apply elem_of_list_to_map_1'.
    + intros y Hy. apply Hin in Hy as (c' & rel' & Heq & Hy).
      apply app_inv_head in Heq. injection Heq as <- <-. congruence.
    + apply list_elem_of_omap. exists (src ++ c :: rel, n). split.
      * by apply elem_of_map_to_list.
      * unfold Fs.moved. simpl.
        by rewrite (proj2 (relative_to_Some src (src ++ c :: rel) (c :: rel))).
Qed.

Lemma lookup_graft_below (src dst q : path) (t : gmap path node) :
  is_Some (Fs.graft src dst t !! q) → dst `prefix_of` q ∧ q ≠ dst.
Proof.
  intros [n Hn]. apply lookup_graft_Some in Hn as (c & rel & -> & _). split.
  - by eexists.
  - intros H. rewrite <-(app_nil_r dst) in H at 2. by apply app_inv_head in H.
Qed.

Lemma lookup_graft_outside (src dst q : path) (t : gmap path node) :
  ¬ dst `prefix_of` q → Fs.graft src dst t !! q = None.
Proof.
  intros H. destruct (Fs.graft src dst t !! q) eqn:Hq; [|done].
  exfalso. apply H. by apply (lookup_graft_below src dst q t).
Qed.

Lemma lookup_graft_self (src dst : path) (t : gmap path node) :
  Fs.graft src dst t !! dst = None.
Proof.
  destruct (Fs.graft src dst t !! dst) eqn:H; [|done].
  exfalso. by apply (lookup_graft_below src dst dst t).
Qed.

Lemma prefix_longer {A} (p r : list A) (c : A) : ¬ (p ++ c :: r) `prefix_of` p.
Proof.
  intros H. apply prefix_length in H. rewrite length_app in H. simpl in H. lia.
Qed.

(** What each call leaves alone. *)

Lemma mkdir_frame (p q : path) (t t' : gmap path node) :
  Fs.mkdir p t = Return t' → q ≠ p → t' !! q = t !! q.
Proof.
  unfold Fs.mkdir. intros H Hq.
  destruct (Fs.node_at t p) as [[c|]|]; try done.
  - by injection H as <-.
  - destruct (Fs.node_at t (Path.parent p)) as [[c|]|]; try done.
    injection H as <-. by rewrite lookup_insert_ne.
Qed.

Lemma write_text_inv (p : path) (s : string) (t t' : gmap path node) :
  Fs.write_text p s t = Return t' → t' = <[p := File s]> t.
Proof.
  unfold Fs.write_text. intros H.
  destruct (Fs.node_at t p) as [[c|]|];
    destruct (Fs.node_at t (Path.parent p)) as [[c'|]|]; try done;
    by injection H as <-.
Qed.

Lemma rmtree_inv (p : path) (t t' : gmap path node) :
  Fs.rmtree p t = Return t' → t' = filter (Fs.outside p) t.
Proof.
  unfold Fs.rmtree. intros H.
  destruct (Fs.node_at t p) as [[c|]|]; try done. by injection H as <-.
Qed.

Lemma unlink_inv (p : path) (t t' : gmap path node) :
  Fs.unlink p t = Return t' → t' = delete p t.
Proof.
  unfold Fs.unlink. intros H.
  destruct (Fs.node_at t p) as [[c|]|]; try done. by injection H as <-.
Qed.

Lemma copytree_frame (src dst q : path) (t t' : gmap path node) (r : outcome unit) :
  Fs.copytree src dst t = (r, t') →
  ¬ dst `prefix_of` q → ¬ q `prefix_of` dst → t' !! q = t !! q.
Proof.
  unfold Fs.copytree. intros H Hq1 Hq2.
  destruct (Fs.node_at t src) as [[c|]|]; try by injection H as <- <-.
  destruct (Fs.exists_ t dst); [by injection H as <- <-|].
  destruct (Fs.makedirs dst t) as [t1|ex] eqn:Hmk; [|by injection H as <- <-].
  apply makedirs_inv in Hmk as [-> Hclear].
  assert ((t ∪ Fs.dirs_map dst) !! q = t !! q) as Hdirs.
  { rewrite lookup_after_makedirs by done. rewrite decide_False; [done|].
    intros Hin. apply elem_of_dirs_to in Hin as [_ Hin]. done. }
  destruct (Fs.walks_into_itself src dst t); injection H as <- <-; [done|].
  rewrite lookup_union_r; [done|]. by apply lookup_graft_outside.
Qed.

(** ** Deployment: what each step leaves alone *)

Lemma fs_update_run (f : gmap path node → outcome (gmap path node)) (w : world) :
  fs_update f w = match f (w_fs w) with
                  | Return t => (Return (), set_fs t w)
                  | Raise ex => (Raise ex, w)
                  end.
Proof. reflexivity. Qed.

Lemma write_text_run (p : path) (s : string) (w : world) :
  write_text p s w
  = if Py.is_utf8 s then
      match Fs.write_text p s (w_fs w) with
      | Return t => (Return (), set_fs t w)
      | Raise ex => (Raise ex, w)
      end
    else
      match Fs.write_text p EmptyString (w_fs w) with
      | Return t => (Raise UnicodeEncodeError, set_fs t w)
      | Raise ex => (Raise ex, w)
      end.
Proof. unfold write_text. by destruct (Py.is_utf8 s). Qed.

Lemma stage_frame (src dst q : path) (w w' : world) (r : outcome unit) :
  Deploy.stage src dst w = (r, w') →
  ¬ dst `prefix_of` q → ¬ q `prefix_of` dst → w_fs w' !! q = w_fs w !! q.
Proof.
  unfold Deploy.stage. intros H Hq1 Hq2.
  rewrite bind_run in H. unfold path_exists at 1 in H.
  rewrite bind_run in H. unfold when_ in H.
  destruct (Fs.exists_ (w_fs w) dst).
  - rewrite fs_update_run in H.
    destruct (Fs.rmtree dst (w_fs w)) as [t1|ex] eqn:Hrm.
    + apply rmtree_inv in Hrm. unfold copytree in H. cbn [set_fs w_fs] in H.
      destruct (Fs.copytree src dst t1) as [r' t2] eqn:Hcp.
      injection H as <- <-. cbn [set_fs w_fs].
      rewrite (copytree_frame _ _ q _ _ _ Hcp) by done.
      subst t1. rewrite lookup_rmtree. by rewrite decide_False.
    + by injection H as <- <-.
  - unfold mret, M_ret, copytree in H.
    destruct (Fs.copytree src dst (w_fs w)) as [r' t2] eqn:Hcp.
    injection H as <- <-. cbn [set_fs w_fs].
    by rewrite (copytree_frame _ _ q _ _ _ Hcp).
Qed.

Lemma stage_world (src dst : path) (w w' : world) (r : outcome unit) :
  Deploy.stage src dst w = (r, w') → w_cmds w' = w_cmds w ∧ w_out w' = w_out w.
Proof.
  unfold Deploy.stage. intros H.
  rewrite bind_run in H. unfold path_exists at 1 in H.
  rewrite bind_run in H. unfold when_ in H.
  destruct (Fs.exists_ (w_fs w) dst).
  - rewrite fs_update_run in H.
    destruct (Fs.rmtree dst (w_fs w)) as [t1|ex].
    + unfold copytree in H. cbn [set_fs w_fs] in H.
      destruct (Fs.copytree src dst t1) as [r' t2]. by injection H as <- <-.
    + by injection H as <- <-.
  - unfold mret, M_ret, copytree in H.
    destruct (Fs.copytree src dst (w_fs w)) as [r' t2]. by injection H as <- <-.
Qed.

Lemma create_nginx_conf_frame (project_id : string) (port : Z) (base q : path)
      (w w' : world) (r : outcome path) :
  Deploy.create_nginx_conf project_id port base w = (r, w') →
  q ≠ Path.join (Deploy.conf_dir_of base) (project_id +:+ ".conf") →
  ¬ q `prefix_of` Deploy.conf_dir_of base →
  w_fs w' !! q = w_fs w !! q.
Proof.
  unfold Deploy.create_nginx_conf. intros H Hq1 Hq2.
  rewrite bind_run, fs_update_run in H.
  destruct (Fs.makedirs _ (w_fs w)) as [t1|ex] eqn:Hmk; [|by injection H as <- <-].
  apply makedirs_inv in Hmk as [-> Hclear].
  rewrite bind_run, fs_update_run in H. cbn [set_fs w_fs] in H.
  assert ((w_fs w ∪ Fs.dirs_map (Deploy.conf_dir_of base)) !! q = w_fs w !! q) as Hdirs.
  { rewrite lookup_after_makedirs by done. rewrite decide_False; [done|].
    intros Hin. apply elem_of_dirs_to in Hin as [_ Hin]. done. }
  destruct (Fs.write_text _ _ _) as [t2|ex] eqn:Hwr.
  - apply write_text_inv in Hwr. injection H as <- <-. cbn [set_fs w_fs].
    subst t2. by rewrite lookup_insert_ne.
  - by injection H as <- <-.
Qed.

Lemma reload_nginx_files (e : env) (base : path) (w : world) :
  w_fs (Deploy.reload_nginx e base w).2 = w_fs w.
Proof.
  unfold Deploy.reload_nginx. unfold_M.
  destruct (Fs.exists_ _ _); cbn [negb]; [|done].
  destruct (command_result e DockerPs) as [|code out]; [done|].
  cbn [snd]. destruct (negb _).
  - destruct (command_result e ComposeUp) as [|c o]; [done|].
    cbn [fst]. by destruct (bool_decide _).
  - destruct (command_result e NginxReload) as [|c o]; [done|].
    cbn [fst]. by destruct (bool_decide _).
Qed.

(** Paths below <base>/deployments are away from <base>/html/... and from
    <base>/config/... *)
Lemma sibling_apart (base rest q : path) (a b : string) :
  a ≠ b → (base ++ [b]) `prefix_of` q →
  ¬ (base ++ a :: rest) `prefix_of` q ∧ ¬ q `prefix_of` (base ++ a :: rest).
Proof.
  intros Hab [k ->]. rewrite <-app_assoc. simpl. split.
  - intros H. apply prefix_app_inv in H. by apply prefix_cons_inv_1 in H.
  - intros H. apply prefix_app_inv in H. by apply prefix_cons_inv_1 in H.
Qed.

Lemma create_nginx_conf_result (project_id : string) (port : Z) (base p : path)
      (w w' : world) :
  Deploy.create_nginx_conf project_id port base w = (Return p, w') →
  p = conf_file_of base project_id.
Proof.
  unfold Deploy.create_nginx_conf, conf_file_of. intros H.
  rewrite bind_run, fs_update_run in H.
  destruct (Fs.makedirs _ _); [|done].
  rewrite bind_run, fs_update_run in H.
  destruct (Fs.write_text _ _ _); [|done]. by injection H as <- <-.
Qed.

Lemma deployments_apart (e : env) (base q : path) :
  below (base ++ ["deployments"]) q →
  (¬ html_dir_of base (Deploy.generate_project_id e) `prefix_of` q ∧
   ¬ q `prefix_of` html_dir_of base (Deploy.generate_project_id e)) ∧
  q ≠ conf_file_of base (Deploy.generate_project_id e) ∧
  ¬ q `prefix_of` Deploy.conf_dir_of base.
Proof.
  intros [Hq _]. unfold html_dir_of, conf_file_of.
  pose proof (project_id_is_name e "" eq_refl) as Hid.
  rewrite string_app_nil in Hid. rewrite Hid.
  rewrite (project_id_is_name e ".conf") by done.
  rewrite conf_dir_of_eq, (join_name base "html") by done.
  rewrite <-!app_assoc. simpl. split; [|split].
  - by apply (sibling_apart base _ q "html" "deployments").
  - intros ->.
    destruct (sibling_apart base ["conf.d"; Deploy.generate_project_id e +:+ ".conf"]
                _ "config" "deployments" ltac:(done) Hq) as [H _].
    by apply H.
  - by apply (sibling_apart base ["conf.d"] q "config" "deployments").
Qed.


Example deploy_frontend_office :
  (Deploy.deploy_frontend office "site" (Some "/srv") office_world).1
    = Return (record_of office "site" ["srv"] 8083) ∧
  Json.dict_get "url" (record_of office "site" ["srv"] 8083)
    = Some (Json.Str "http://10.0.0.5:8083").
Proof. split; [vm_compute; reflexivity|reflexivity]. Qed.

Example deploy_frontend_stops_at_reload :
  let run := Deploy.deploy_frontend stopped_proxy "site" (Some "/nowhere") office_world in
  run.1 = Raise (RuntimeError "docker-compose.yml 不存在: /nowhere/docker-compose.yml") ∧
  Fs.exists_ (w_fs run.2) ["nowhere"; "html"; "project-1700000000"] = true ∧
  Fs.exists_ (w_fs run.2) ["nowhere"; "deployments"] = false.
Proof. vm_compute. done. Qed.

(** ** Record files: what is written can be read back *)

Lemma scanstring_escape_char (a : ascii) (tail : string) :
  Json.scanstring (Json.escape_char a +:+ tail) = Json.cons_char a (Json.scanstring tail).
Proof.
  destruct a as [b0 b1 b2 b3 b4 b5 b6 b7].
  destruct b0, b1, b2, b3, b4, b5, b6, b7; reflexivity.
Qed.

Lemma scanstring_escape (s rest : string) :
  Json.scanstring (Json.escape s +:+ String Py.quote rest) = Some (s, rest).
Proof.
  induction s as [|a s IH].
  - reflexivity.
  - change (Json.escape (String a s)) with (Json.escape_char a +:+ Json.escape s).
    rewrite string_app_assoc, scanstring_escape_char, IH. reflexivity.
Qed.

Lemma scan_digits_cons (a : ascii) (s : string) :
  Json.is_digit a = true →
  Json.scan_digits (String a s)
  = let '(d, rest) := Json.scan_digits s in
    match Json.digit_of a d with
    | Some d' => (d', rest)
    | None => (Decimal.Nil, String a s)
    end.
Proof. intros H. simpl. by rewrite H. Qed.

Lemma scan_digits_uint (d : Decimal.uint) (c : ascii) (rest : string) :
  Json.is_digit c = false →
  Json.scan_digits (NilEmpty.string_of_uint d +:+ String c rest) = (d, String c rest).
Proof.
  intros Hc. induction d;
    [simpl; by rewrite Hc|..];
    cbn [NilEmpty.string_of_uint]; rewrite string_app_cons;
    rewrite scan_digits_cons by reflexivity; rewrite IHd; reflexivity.
Qed.

Lemma unorm_D0 (d d' : Decimal.uint) :
  Decimal.unorm d = Decimal.D0 d' → d' = Decimal.Nil.
Proof.
  induction d; simpl; intros H; [by injection H|by apply IHd|discriminate..].
Qed.

Lemma to_uint_leading (p : positive) :
  match Pos.to_uint p with
  | Decimal.Nil | Decimal.D0 _ => False
  | _ => True
  end.
Proof.
  pose proof (DecimalPos.Unsigned.to_of (Pos.to_uint p)) as H.
  rewrite DecimalPos.Unsigned.of_to in H. simpl in H.
  destruct (Pos.to_uint p) as [|d| | | | | | | | |] eqn:Hp; try done.
  symmetry in H. apply unorm_D0 in H. subst d.
  by apply (DecimalPos.Unsigned.to_uint_nonzero p).
Qed.

Lemma scan_natural_pos (p : positive) (c : ascii) (rest : string) :
  Json.is_digit c = false →
  Json.scan_natural (NilEmpty.string_of_uint (Pos.to_uint p) +:+ String c rest)
  = Some (Pos.to_uint p, String c rest).
Proof.
  intros Hc. pose proof (to_uint_leading p) as Hlead.
  pose proof (scan_digits_uint (Pos.to_uint p) c rest Hc) as Hscan.
  destruct (Pos.to_uint p) as [|d|d|d|d|d|d|d|d|d|d]; try done;
    cbn [NilEmpty.string_of_uint] in *; rewrite string_app_cons in *;
    unfold Json.scan_natural; by rewrite Hscan.
Qed.

Lemma scan_number_minus (s : string) :
  Json.scan_number (String "-" s) = number_of true (Json.scan_natural s).
Proof. reflexivity. Qed.

Lemma scan_number_plain (a : ascii) (s : string) :
  nat_of_ascii a ≠ 45%nat →
  Json.scan_number (String a s) = number_of false (Json.scan_natural (String a s)).
Proof.
  intros Ha. unfold Json.scan_number. by rewrite bool_decide_eq_false_2.
Qed.

Lemma uint_string_head (p : positive) :
  ∃ a s, NilEmpty.string_of_uint (Pos.to_uint p) = String a s ∧ nat_of_ascii a ≠ 45%nat.
Proof.
  pose proof (to_uint_leading p) as Hlead.
  destruct (Pos.to_uint p); try done; simpl; eexists _, _; (split; [done|]);
    by vm_compute.
Qed.

Lemma scan_number_str_int (n : Z) (c : ascii) (rest : string) :
  ends_number c →
  Json.scan_number (Py.str_int n +:+ String c rest) = Some (n, String c rest).
Proof.
  intros Hc.
  assert (Json.is_digit c = false ∧ Json.float_follows (String c rest) = false)
    as [Hdigit Hfloat].
  { destruct Hc as [-> | ->]; split; try reflexivity; by destruct rest. }
  pose proof (DecimalZ.of_to n) as Hback.
  unfold Py.str_int.
  destruct n as [|p|p]; simpl Z.to_int in *.
  - change (Json.scan_number (String "0" (String c rest)) = Some (0, String c rest)).
    rewrite scan_number_plain by (by vm_compute).
    change (Json.scan_natural (String "0" (String c rest)))
      with (Some (Decimal.D0 Decimal.Nil, String c rest)).
    unfold number_of. by rewrite Hfloat.
  - assert (NilZero.string_of_int (Decimal.Pos (Pos.to_uint p))
            = NilEmpty.string_of_uint (Pos.to_uint p)) as ->.
    { pose proof (to_uint_leading p). by destruct (Pos.to_uint p). }
    destruct (uint_string_head p) as (a & s & Hs & Ha).
    pose proof (scan_natural_pos p c rest Hdigit) as Hnat.
    rewrite Hs in *. rewrite string_app_cons in *.
    rewrite scan_number_plain, Hnat by done.
    unfold number_of. by rewrite Hfloat, Hback.
  - assert (NilZero.string_of_int (Decimal.Neg (Pos.to_uint p))
            = String "-" (NilEmpty.string_of_uint (Pos.to_uint p))) as ->.
    { pose proof (to_uint_leading p). unfold NilZero.string_of_int.
      by destruct (Pos.to_uint p). }
    rewrite string_app_cons, scan_number_minus.
    rewrite (scan_natural_pos p c rest Hdigit).
    unfold number_of. by rewrite Hfloat, Hback.
Qed.

(** Appends brought to the form [String a (String b (... +:+ ...))]. *)
Ltac flatten_string :=
  repeat first
    [ rewrite string_app_assoc
    | rewrite string_app_cons
    | progress change ("" +:+ ?s) with s ].

Lemma skip_ws_stop (a : ascii) (s : string) :
  Json.is_ws a = false → Json.skip_ws (String a s) = String a s.
Proof. intros H. simpl. by rewrite H. Qed.

Lemma str_int_head (n : Z) :
  ∃ a s, Py.str_int n = String a s ∧ a ≠ Py.quote ∧ Json.is_ws a = false.
Proof.
  unfold Py.str_int. destruct n as [|p|p]; simpl Z.to_int.
  - by eexists _, _.
  - pose proof (to_uint_leading p) as Hlead.
    unfold NilZero.string_of_int, NilZero.string_of_uint.
    destruct (Pos.to_uint p); try done; by eexists _, _.
  - by eexists _, _.
Qed.

Lemma dumps_scalar_head (v : Json.scalar) :
  ∃ a s, Json.dumps_scalar v = String a s ∧ Json.is_ws a = false.
Proof.
  destruct v as [x|n].
  - by eexists _, _.
  - destruct (str_int_head n) as (a & s & Hs & _ & Hws). by eexists _, _.
Qed.

Lemma scan_scalar_dumps (v : Json.scalar) (c : ascii) (rest : string) :
  ends_number c →
  Json.scan_scalar (Json.dumps_scalar v +:+ String c rest) = Some (v, String c rest).
Proof.
  intros Hc. destruct v as [x|n]; simpl Json.dumps_scalar.
  - unfold Json.encode_string, Py.char.
    flatten_string.
    unfold Json.scan_scalar. rewrite bool_decide_eq_true_2 by done.
    by rewrite scanstring_escape.
  - destruct (str_int_head n) as (a & s & Hs & Hquote & _).
    pose proof (scan_number_str_int n c rest Hc) as Hnum.
    rewrite Hs in *. rewrite string_app_cons in *.
    unfold Json.scan_scalar. rewrite bool_decide_eq_false_2 by done.
    by rewrite Hnum.
Qed.

Lemma dict_set_fresh (k : string) (v : Json.scalar) (d : list (string * Json.scalar)) :
  k ∉ d.*1 → Json.dict_set k v d = d ++ [(k, v)].
Proof.
  induction d as [|[k' v'] d IH]; simpl; [done|]. intros Hk.
  apply not_elem_of_cons in Hk as [Hne Hk].
  rewrite bool_decide_eq_false_2 by done. by rewrite IH.
Qed.

(** The members of an object as [dumps] lays them out, from the first key
    on, up to and including the closing brace. *)
Lemma members_layout (kv : string * Json.scalar) (d : list (string * Json.scalar))
      (tail : string) :
  Py.join Json.item_separator (Json.dumps_member <$> kv :: d) +:+ Py.nl +:+ "}" +:+ tail
  = String Py.quote
      (Json.escape kv.1 +:+ String Py.quote (": " +:+ Json.dumps_scalar kv.2 +:+
         match d with
         | [] => String Py.newline (String "}" tail)
         | kv' :: d' =>
             String "," (String Py.newline ("  " +:+
               (Py.join Json.item_separator (Json.dumps_member <$> kv' :: d')
                +:+ Py.nl +:+ "}" +:+ tail)))
         end)).
Proof.
  destruct d as [|kv' d']; cbn [fmap list_fmap Py.join];
    unfold Json.dumps_member at 1, Json.encode_string, Json.item_separator,
      Py.nl, Py.char;
    flatten_string; reflexivity.
Qed.

Lemma scan_members_unfold (fuel : nat) (acc : list (string * Json.scalar))
      (k : string) (v : Json.scalar) (c : ascii) (rest : string) :
  ends_number c →
  Json.scan_members (S fuel) acc
    (Json.escape k +:+ String Py.quote (": " +:+ Json.dumps_scalar v +:+ String c rest))
  = let d' := Json.dict_set k v acc in
    match Json.skip_ws (String c rest) with
    | String c' s4 =>
        if bool_decide (nat_of_ascii c' = 125%nat) then Some (d', s4)
        else if bool_decide (nat_of_ascii c' = 44%nat) then
          match Json.skip_ws s4 with
          | String q s5 =>
              if bool_decide (q = Py.quote) then Json.scan_members fuel d' s5 else None
          | EmptyString => None
          end
        else None
    | EmptyString => None
    end.
Proof.
  intros Hc. cbn [Json.scan_members]. rewrite scanstring_escape.
  flatten_string. rewrite skip_ws_stop by reflexivity.
  rewrite bool_decide_eq_true_2 by reflexivity.
  destruct (dumps_scalar_head v) as (a & s & Hs & Hws).
  assert (Json.skip_ws (String " " (Json.dumps_scalar v +:+ String c rest))
          = Json.dumps_scalar v +:+ String c rest) as ->.
  { rewrite Hs, string_app_cons.
    change (Json.skip_ws (String a (s +:+ String c rest)) = String a (s +:+ String c rest)).
    by apply skip_ws_stop. }
  by rewrite scan_scalar_dumps.
Qed.

Lemma scan_members_dumps (d : list (string * Json.scalar)) :
  ∀ (kv : string * Json.scalar) (acc : list (string * Json.scalar)) (tail : string),
    NoDup (acc ++ kv :: d).*1 →
    ∃ s', Py.join Json.item_separator (Json.dumps_member <$> kv :: d)
            +:+ Py.nl +:+ "}" +:+ tail = String Py.quote s' ∧
          (length d < String.length s')%nat ∧
          ∀ fuel, (length d < fuel)%nat →
                  Json.scan_members fuel acc s' = Some (acc ++ kv :: d, tail).
Proof.
  induction d as [|kv' d IH]; intros [k v] acc tail Hnodup;
    rewrite members_layout; eexists; (split; [reflexivity|]).
  - split.
    { rewrite string_length_app. simpl. lia. }
    intros fuel Hfuel.
    destruct fuel as [|fuel]; [simpl in Hfuel; lia|].
    cbn [fst snd]. rewrite scan_members_unfold by (by right).
    change (Some (Json.dict_set k v acc, tail) = Some (acc ++ [(k, v)], tail)).
    rewrite dict_set_fresh; [done|].
    rewrite fmap_app in Hnodup. apply NoDup_app in Hnodup as (_ & Hfresh & _).
    intros Hk. apply (Hfresh k Hk). simpl. apply list_elem_of_here.
  - destruct (IH kv' (acc ++ [(k, v)]) tail) as (s' & Hs' & Hlen & Hscan).
    { by rewrite <-app_assoc. }
    split.
    { rewrite Hs'. rewrite string_length_app. simpl.
      rewrite !string_length_app. simpl. lia. }
    intros fuel Hfuel.
    destruct fuel as [|fuel]; [simpl in Hfuel; lia|].
    cbn [fst snd]. rewrite scan_members_unfold by (by left).
    rewrite Hs'.
    change (Json.scan_members fuel (Json.dict_set k v acc) s'
            = Some (acc ++ (k, v) :: kv' :: d, tail)).
    rewrite dict_set_fresh.
    + rewrite Hscan by (simpl in Hfuel; lia). by rewrite <-app_assoc.
    + rewrite fmap_app in Hnodup. apply NoDup_app in Hnodup as (_ & Hfresh & _).
      intros Hk. apply (Hfresh k Hk). simpl. apply list_elem_of_here.
Qed.

(** [json.loads(json.dumps(d, indent=2, ensure_ascii=False)) == d] for a flat
    dictionary of strings and integers. *)
Lemma loads_dumps (d : list (string * Json.scalar)) :
  NoDup d.*1 → Json.loads (Json.dumps (Json.Dict d)) = Return (Json.Dict d).
Proof.
  intros Hnodup. destruct d as [|kv d]; [reflexivity|].
  destruct (scan_members_dumps d kv [] "" Hnodup) as (s' & Hs' & Hlen & Hscan).
  unfold Json.dumps.
  assert (Py.join Json.item_separator (Json.dumps_member <$> kv :: d) +:+ Py.nl +:+ "}"
          = String Py.quote s') as ->.
  { rewrite <-Hs'. by rewrite !string_app_nil. }
  change (match
            match Json.scan_members (String.length s') [] s' with
            | Some (members, rest) => Some (Json.Dict members, rest)
            | None => None
            end
          with
          | Some (v, rest) =>
              match Json.skip_ws rest with
              | EmptyString => Return v
              | String _ _ => Raise JSONDecodeError
              end
          | None => Raise JSONDecodeError
          end = Return (Json.Dict (kv :: d))).
  rewrite Hscan by lia. reflexivity.
Qed.

Lemma deploy_info_keys (r : deployment) : NoDup (deploy_info r).*1.
Proof.
  apply (bool_decide_unpack _). by vm_compute.
Qed.

(** C9. A record written to its file by [put] and read back from that file
    by [get] is the record that was written, field for field, for all seven
    fields. *)
Theorem put_get_roundtrip (info_file : path) (r : deployment)
        (t t' : gmap path node) :
  put info_file r t = Return t' →
  get info_file t' = Return (Json.Dict (deploy_info r)) ∧
  ∀ info, get info_file t' = Return info →
    Json.subscript info "project_id" = Return (Json.Str (r_project_id r)) ∧
    Json.subscript info "port" = Return (Json.Int (r_port r)) ∧
    Json.subscript info "url" = Return (Json.Str (r_url r)) ∧
    Json.subscript info "html_dir" = Return (Json.Str (r_html_dir r)) ∧
    Json.subscript info "conf_file" = Return (Json.Str (r_conf_file r)) ∧
    Json.subscript info "source_dir" = Return (Json.Str (r_source_dir r)) ∧
    Json.subscript info "deployed_at" = Return (Json.Str (r_deployed_at r)).
Proof.
  unfold put, get. intros Hput.
  assert (info_file ≠ []) as Hne.
  { intros ->. unfold Fs.write_text in Hput. simpl in Hput. done. }
  apply write_text_inv in Hput. subst t'.
  unfold Fs.read_text. rewrite node_at_lookup by done.
  rewrite lookup_insert_eq, (loads_dumps _ (deploy_info_keys r)).
  split; [done|]. intros info [= <-]. repeat split; reflexivity.
Qed.

Lemma put_get_roundtrip_witness :
  ∃ t', put ["srv"; "deployments.json"] awkward_record office_disk = Return t' ∧
        get ["srv"; "deployments.json"] t'
          = Return (Json.Dict (deploy_info awkward_record)).
Proof.
  eexists. split; [reflexivity|].
  apply (put_get_roundtrip ["srv"; "deployments.json"] awkward_record office_disk).
  reflexivity.
Defined.

(** The record deploy_frontend builds is a [deploy_info]; its last
    file-system call is a [put] of it when the text of the record is UTF-8
    ([write_text_put]). *)
Lemma record_of_deploy_info (e : env) (source_dir : string) (base : path) (port : Z) :
  record_of e source_dir base port
  = deploy_info {|
      r_project_id := Deploy.generate_project_id e;
      r_port := port;
      r_url := "http://" +:+ Deploy.get_local_ip e +:+ ":" +:+ Py.str_int port;
      r_html_dir := Path.str (html_dir_of base (Deploy.generate_project_id e));
      r_conf_file := Path.str (conf_file_of base (Deploy.generate_project_id e));
      r_source_dir := Path.str (Path.resolve (env_cwd e) source_dir);
      r_deployed_at := env_timestamp e;
    |}.
Proof. reflexivity. Qed.

(** ** The record of a deployment: written whole, or left empty *)

Lemma write_text_put (info_file : path) (r : deployment) (w : world) :
  Py.is_utf8 (Json.dumps (Json.Dict (deploy_info r))) = true →
  write_text info_file (Json.dumps (Json.Dict (deploy_info r))) w
  = fs_update (put info_file r) w.
Proof. intros Hutf8. unfold write_text. by rewrite Hutf8. Qed.

Lemma deploy_frontend_frame (e : env) (source_dir : string)
        (nginx_base_dir : option string) (w : world) :
  let base := deploy_base e nginx_base_dir in
  let deployments_dir := base ++ ["deployments"] in
  let info_file := deployments_dir ++ [Deploy.generate_project_id e +:+ ".json"] in
  match Deploy.deploy_frontend e source_dir nginx_base_dir w with
  | (Raise ex, w') =>
      (∀ q, below deployments_dir q → q ≠ info_file → w_fs w' !! q = w_fs w !! q) ∧
      (w_fs w' !! info_file = w_fs w !! info_file ∨
       ex = UnicodeEncodeError ∧
       w_fs w' !! info_file = Some (File EmptyString) ∧
       ∃ port, find_available_port e 8080 100 = Return port ∧
               Py.is_utf8 (Json.dumps (Json.Dict (record_of e source_dir base port)))
               = false)
  | (Return info, w') =>
      (∃ port, find_available_port e 8080 100 = Return port ∧
               info = record_of e source_dir base port) ∧
      info.*1 = record_keys ∧
      (∃ text, w_fs w' !! info_file = Some (File text) ∧
               text = Json.dumps (Json.Dict info) ∧
               Py.is_utf8 text = true ∧
               Json.loads text = Return (Json.Dict info)) ∧
      ∀ q, below deployments_dir q → q ≠ info_file → w_fs w' !! q = w_fs w !! q
  end.
Proof.
  intros base deployments_dir info_file.
  assert (below deployments_dir info_file) as Hinfo.
  { split; [by eexists|]. unfold info_file. intros Heq.
    apply (f_equal length) in Heq.
    rewrite length_app in Heq. cbn [length] in Heq. lia. }
  assert (∀ (ex : exn) w',
            (∀ q, below deployments_dir q → w_fs w' !! q = w_fs w !! q) →
            (∀ q, below deployments_dir q → q ≠ info_file →
                  w_fs w' !! q = w_fs w !! q) ∧
            (w_fs w' !! info_file = w_fs w !! info_file ∨
             ex = UnicodeEncodeError ∧
             w_fs w' !! info_file = Some (File EmptyString) ∧
             ∃ port, find_available_port e 8080 100 = Return port ∧
                     Py.is_utf8 (Json.dumps (Json.Dict
                                   (record_of e source_dir base port))) = false))
    as Hkept.
  { intros ex w' Hw'. split; [by intros q Hq _; apply Hw'|]. left. by apply Hw'. }
  unfold Deploy.deploy_frontend. fold (deploy_base e nginx_base_dir). fold base.
  rewrite (join_name base "deployments") by done. fold deployments_dir.
  rewrite (project_id_is_name e ".json") by done. fold info_file.
  fold (html_dir_of base (Deploy.generate_project_id e)).
  rewrite bind_run. unfold path_exists at 1.
  destruct (Fs.exists_ _ _); cbn [negb]; [|by apply Hkept].
  rewrite bind_run. unfold of_outcome at 1.
  destruct (find_available_port e 8080 100) as [port|ex]; [|by apply Hkept].
  rewrite bind_run.
  destruct (Deploy.stage _ _ w) as [[[]|ex] w1] eqn:Hstage.
  2:{ apply Hkept. intros q Hq.
      destruct (deployments_apart e base q Hq) as ([H1 H2] & _).
      by apply (stage_frame _ _ q _ _ _ Hstage). }
  rewrite bind_run.
  destruct (Deploy.create_nginx_conf _ _ _ w1) as [[conf_file|ex] w2] eqn:Hconf.
  2:{ apply Hkept. intros q Hq.
      destruct (deployments_apart e base q Hq) as ([H1 H2] & H3 & H4).
      rewrite (create_nginx_conf_frame _ _ _ q _ _ _ Hconf) by done.
      by apply (stage_frame _ _ q _ _ _ Hstage). }
  pose proof (create_nginx_conf_result _ _ _ _ _ _ Hconf) as ->.
  rewrite bind_run.
  pose proof (reload_nginx_files e base w2) as Hreload.
  destruct (Deploy.reload_nginx e base w2) as [[[]|ex] w3]; cbn [snd] in Hreload.
  2:{ apply Hkept. intros q Hq.
      destruct (deployments_apart e base q Hq) as ([H1 H2] & H3 & H4).
      rewrite Hreload, (create_nginx_conf_frame _ _ _ q _ _ _ Hconf) by done.
      by apply (stage_frame _ _ q _ _ _ Hstage). }
  assert (∀ q, below deployments_dir q → w_fs w3 !! q = w_fs w !! q) as Hsteps.
  { intros q Hq. destruct (deployments_apart e base q Hq) as ([H1 H2] & H3 & H4).
    rewrite Hreload, (create_nginx_conf_frame _ _ _ q _ _ _ Hconf) by done.
    by apply (stage_frame _ _ q _ _ _ Hstage). }
  rewrite bind_run, fs_update_run.
  destruct (Fs.mkdir deployments_dir (w_fs w3)) as [t4|ex] eqn:Hmkdir;
    [|by apply Hkept].
  assert (∀ q, below deployments_dir q → t4 !! q = w_fs w !! q) as Hmade.
  { intros q Hq. rewrite (mkdir_frame _ q _ _ Hmkdir) by apply Hq. by apply Hsteps. }
  rewrite bind_run, write_text_run. cbn [set_fs w_fs].
  fold (record_of e source_dir base port).
  destruct (Py.is_utf8 (Json.dumps (Json.Dict (record_of e source_dir base port))))
    eqn:Hutf8.
  - destruct (Fs.write_text info_file _ t4) as [t5|ex] eqn:Hwrite;
      [|by apply Hkept].
    apply write_text_inv in Hwrite. subst t5. cbn [mret M_ret set_fs w_fs].
    split; [by exists port|]. split; [done|]. split.
    + eexists. split; [by rewrite lookup_insert_eq|]. split; [done|].
      split; [done|]. apply loads_dumps. apply (bool_decide_unpack _). by vm_compute.
    + intros q Hq Hne. rewrite lookup_insert_ne by done. by apply Hmade.
  - destruct (Fs.write_text info_file _ t4) as [t5|ex] eqn:Hwrite;
      [|by apply Hkept].
    apply write_text_inv in Hwrite. subst t5. cbn [set_fs w_fs]. split.
    + intros q Hq Hne. rewrite lookup_insert_ne by done. by apply Hmade.
    + right. split; [done|]. split; [by rewrite lookup_insert_eq|]. by exists port.
Qed.



Example deploy_frontend_latin1_source :
  let attempt := Deploy.deploy_frontend office latin1_name (Some "/srv") latin1_world in
  attempt.1 = Raise UnicodeEncodeError ∧
  Fs.read_text ["srv"; "deployments"; "project-1700000000.json"] (w_fs attempt.2)
    = Return EmptyString ∧
  Fs.exists_ (w_fs attempt.2) ["srv"; "html"; "project-1700000000"; "index.html"] = true ∧
  w_cmds attempt.2 = [DockerPs; NginxReload].
Proof. vm_compute. done. Qed.

Example awkward_record_text :
  Json.dumps_scalar (Json.Str (r_source_dir awkward_record))
  = Py.char Py.quote +:+ "/work/my \" +:+ Py.char Py.quote +:+ "site\"
    +:+ Py.char Py.quote +:+ "\\\n\u0001" +:+ Py.char Py.quote.
Proof. reflexivity. Qed.

(** ** Staging *)

Lemma way_clear_spec (t : gmap path node) (p : path) :
  way_clear t p = true ↔ ∀ q, q ∈ Fs.dirs_to p → Fs.is_file t q = false.
Proof.
  unfold way_clear. rewrite forallb_forall. split.
  - intros H q Hq. apply list_elem_of_In in Hq. apply H in Hq.
    by destruct (Fs.is_file t q).
  - intros H q Hq. apply list_elem_of_In in Hq. by rewrite (H q Hq).
Qed.

Lemma prefix_parent (p q : path) :
  p `prefix_of` q → p ≠ q → p `prefix_of` Path.parent q.
Proof.
  intros [k ->] Hne. unfold Path.parent.
  destruct (decide (k = [])) as [->|Hk].
  - by rewrite app_nil_r in Hne.
  - rewrite removelast_app by done. by eexists.
Qed.

Lemma is_tree_spec (t : gmap path node) (p q : path) :
  is_tree t = true →
  p ≠ [] → p `prefix_of` q → p ≠ q → is_Some (t !! q) → t !! p = Some Dir.
Proof.
  unfold is_tree. rewrite forallb_forall.
  intros Htree Hp Hpq Hne [n Hq].
  apply elem_of_map_to_list, list_elem_of_In, Htree in Hq.
  rewrite forallb_forall in Hq. simpl in Hq.
  assert (p ∈ Fs.dirs_to (Path.parent q)) as Hin.
  { apply elem_of_dirs_to. split; [done|]. by apply prefix_parent. }
  apply list_elem_of_In, Hq in Hin. by apply bool_decide_eq_true in Hin.
Qed.

(** What [copytree] leaves when [dst] is away from [src] and nothing is at
    or below [dst]. *)
Lemma copytree_onto_cleared (src dst : path) (t t1 : gmap path node) :
  ¬ src `prefix_of` dst → ¬ dst `prefix_of` src →
  Fs.node_at t src = Some Dir →
  way_clear t dst = true →
  (∀ q, t1 !! q = if decide (dst `prefix_of` q) then None else t !! q) →
  ∃ t2, Fs.copytree src dst t1 = (Return (), t2) ∧ ∀ q, t2 !! q = staged src dst t q.
Proof.
  intros Hsd Hds Hsrc Hclear Ht1.
  assert (src ≠ []) as Hsrc_ne by (intros ->; apply Hsd, prefix_nil).
  assert (dst ≠ []) as Hdst_ne by (intros ->; apply Hds, prefix_nil).
  rewrite way_clear_spec in Hclear.
  assert (∀ q, ¬ dst `prefix_of` q → t1 !! q = t !! q) as Hout.
  { intros q Hq. by rewrite Ht1, decide_False. }
  assert (∀ q, q ∈ Fs.dirs_to dst → Fs.is_file t1 q = false) as Hclear1.
  { intros q Hq. pose proof (proj1 (elem_of_dirs_to _ _) Hq) as [Hne _].
    unfold Fs.is_file. rewrite node_at_lookup, Ht1 by done.
    case_decide; [done|]. specialize (Hclear q Hq). unfold Fs.is_file in Hclear.
    by rewrite node_at_lookup in Hclear. }
  unfold Fs.copytree.
  rewrite node_at_lookup, Hout by done. rewrite node_at_lookup in Hsrc by done.
  rewrite Hsrc.
  assert (Fs.exists_ t1 dst = false) as ->.
  { unfold Fs.exists_. rewrite node_at_lookup, Ht1, decide_True by done.
    apply bool_decide_eq_false_2. by intros [? ?]. }
  rewrite (makedirs_ok dst t1 Hclear1).
  assert (Fs.walks_into_itself src dst t1 = false) as ->.
  { unfold Fs.walks_into_itself.
    by rewrite (proj2 (relative_to_None src dst) Hsd). }
  eexists. split; [reflexivity|]. intros q. unfold staged.
  destruct (Fs.relative_to dst q) as [[|c rel]|] eqn:Hrel.
  - apply relative_to_Some in Hrel. rewrite app_nil_r in Hrel. subst q.
    rewrite lookup_union_r by (apply lookup_graft_self).
    rewrite lookup_after_makedirs by done.
    by rewrite decide_True by (by apply dirs_to_self).
  - apply relative_to_Some in Hrel. subst q.
    assert (t1 !! (src ++ c :: rel) = t !! (src ++ c :: rel)) as Hsame.
    { apply Hout. intros H. apply Hds.
      destruct (prefix_weak_total _ _ _ H (prefix_app_r src src (c :: rel) (reflexivity _)))
        as [?|Hx]; [done|]. by exfalso. }
    destruct (t !! (src ++ c :: rel)) as [n|] eqn:Hn.
    + apply lookup_union_Some_l. apply lookup_graft_Some.
      exists c, rel. by rewrite Hsame.
    + rewrite lookup_union_r.
      * rewrite lookup_after_makedirs by done.
        rewrite decide_False.
        -- rewrite Ht1. rewrite decide_True; [done|by eexists].
        -- intros Hin. apply elem_of_dirs_to in Hin as [_ Hin].
           by apply prefix_longer in Hin.
      * destruct (Fs.graft src dst t1 !! (dst ++ c :: rel)) as [n|] eqn:Hg; [|done].
        apply lookup_graft_Some in Hg as (c' & rel' & Heq & Hg).
        apply app_inv_head in Heq. injection Heq as <- <-. congruence.
  - apply relative_to_None in Hrel.
    rewrite lookup_union_r by (by apply lookup_graft_outside).
    rewrite lookup_after_makedirs by done.
    case_decide; [done|]. by apply Hout.
Qed.

Lemma stage_run (src dst : path) (w : world) :
  Deploy.stage src dst w
  = if Fs.exists_ (w_fs w) dst then
      match Fs.rmtree dst (w_fs w) with
      | Return t1 =>
          let '(r, t2) := Fs.copytree src dst t1 in (r, set_fs t2 w)
      | Raise ex => (Raise ex, w)
      end
    else let '(r, t2) := Fs.copytree src dst (w_fs w) in (r, set_fs t2 w).
Proof.
  unfold Deploy.stage. rewrite bind_run. unfold path_exists at 1.
  rewrite bind_run. unfold when_.
  destruct (Fs.exists_ (w_fs w) dst); [|reflexivity].
  rewrite fs_update_run. by destruct (Fs.rmtree dst (w_fs w)).
Qed.

Lemma stage_staged (src dst : path) (w : world) :
  ¬ src `prefix_of` dst → ¬ dst `prefix_of` src →
  Fs.node_at (w_fs w) src = Some Dir →
  way_clear (w_fs w) dst = true →
  (Fs.exists_ (w_fs w) dst = false → ∀ q, dst `prefix_of` q → w_fs w !! q = None) →
  ∃ t2, Deploy.stage src dst w = (Return (), set_fs t2 w) ∧
        ∀ q, t2 !! q = staged src dst (w_fs w) q.
Proof.
  intros Hsd Hds Hsrc Hclear Hbelow.
  assert (dst ≠ []) as Hdst_ne by (intros ->; apply Hds, prefix_nil).
  rewrite stage_run.
  destruct (Fs.exists_ (w_fs w) dst) eqn:Hexists.
  - assert (Fs.node_at (w_fs w) dst = Some Dir) as Hdir.
    { apply bool_decide_eq_true in Hexists as [n Hn].
      pose proof (proj1 (way_clear_spec _ _) Hclear dst (dirs_to_self dst Hdst_ne)) as Hf.
      unfold Fs.is_file in Hf. rewrite Hn in *. by destruct n. }
    unfold Fs.rmtree. rewrite Hdir.
    destruct (copytree_onto_cleared src dst (w_fs w) (filter (Fs.outside dst) (w_fs w)))
      as (t2 & -> & Ht2); try done.
    + intros q. apply lookup_rmtree.
    + by exists t2.
  - destruct (copytree_onto_cleared src dst (w_fs w) (w_fs w))
      as (t2 & -> & Ht2); try done.
    + intros q. case_decide; [by apply Hbelow|done].
    + by exists t2.
Qed.

Lemma staged_again (src dst : path) (t t2 : gmap path node) :
  ¬ src `prefix_of` dst → ¬ dst `prefix_of` src →
  (∀ q, t2 !! q = staged src dst t q) →
  ∀ q, staged src dst t2 q = staged src dst t q.
Proof.
  intros Hsd Hds Ht2 q. unfold staged.
  destruct (Fs.relative_to dst q) as [[|c rel]|] eqn:Hrel; [done|..].
  - rewrite Ht2. unfold staged.
    assert (Fs.relative_to dst (src ++ c :: rel) = None) as ->.
    { apply relative_to_None. intros H. apply Hds.
      destruct (prefix_weak_total _ _ _ H
                  (prefix_app_r src src (c :: rel) (reflexivity _))) as [?|?]; done. }
    rewrite decide_False; [done|].
    intros Hin. apply elem_of_dirs_to in Hin as [_ Hin].
    apply Hsd. etrans; [|exact Hin]. by apply prefix_app_r.
  - case_decide; [done|]. rewrite Ht2. unfold staged.
    rewrite Hrel. by rewrite decide_False.
Qed.

(** C6 (as amended). For a source directory and a destination that do not
    lie inside one another, on a disk that is a tree, with no file in the
    way of the destination: staging succeeds; afterwards the destination
    holds exactly the entries of the source (whatever was there before is
    gone), the rest of the disk is as it was, up to the directories made on
    the way; and staging once more changes nothing. *)
Theorem stage_overwrites_and_is_idempotent (src dst : path) (w : world) :
  is_tree (w_fs w) = true →
  ¬ src `prefix_of` dst → ¬ dst `prefix_of` src →
  Fs.node_at (w_fs w) src = Some Dir →
  way_clear (w_fs w) dst = true →
  ∃ w1, Deploy.stage src dst w = (Return (), w1) ∧
        (∀ rel, w_fs w1 !! (dst ++ rel) = w_fs w !! (src ++ rel)) ∧
        (∀ q, ¬ dst `prefix_of` q → q ∉ Fs.dirs_to dst → w_fs w1 !! q = w_fs w !! q) ∧
        Deploy.stage src dst w1 = (Return (), w1).
Proof.
  intros Htree Hsd Hds Hsrc Hclear.
  assert (src ≠ []) as Hsrc_ne by (intros ->; apply Hsd, prefix_nil).
  assert (dst ≠ []) as Hdst_ne by (intros ->; apply Hds, prefix_nil).
  destruct (stage_staged src dst w) as (t2 & Hstage & Ht2); try done.
  { intros Hmissing q Hq. destruct (w_fs w !! q) as [n|] eqn:Hn; [|done].
    exfalso. apply bool_decide_eq_false in Hmissing. apply Hmissing.
    rewrite node_at_lookup by done.
    destruct (decide (dst = q)) as [->|Hne]; [by eexists|].
    exists Dir. by apply (is_tree_spec _ dst q). }
  exists (set_fs t2 w). split; [done|].
  assert (∀ rel, t2 !! (dst ++ rel) = w_fs w !! (src ++ rel)) as Hcopy.
  { intros rel. rewrite Ht2. unfold staged.
    rewrite (proj2 (relative_to_Some dst (dst ++ rel) rel)) by done.
    destruct rel as [|c rel]; [|done].
    rewrite app_nil_r. by rewrite node_at_lookup in Hsrc. }
  assert (∀ q, ¬ dst `prefix_of` q → q ∉ Fs.dirs_to dst → t2 !! q = w_fs w !! q)
    as Hrest.
  { intros q Hq1 Hq2. rewrite Ht2. unfold staged.
    rewrite (proj2 (relative_to_None dst q)) by done. by rewrite decide_False. }
  split; [exact Hcopy|]. split; [exact Hrest|].
  destruct (stage_staged src dst (set_fs t2 w)) as (t3 & -> & Ht3); cbn [set_fs w_fs].
  - done.
  - done.
  - rewrite node_at_lookup by done. rewrite Hrest.
    + by rewrite node_at_lookup in Hsrc.
    + done.
    + intros Hin. apply elem_of_dirs_to in Hin as [_ Hin]. done.
  - apply way_clear_spec. intros q Hq.
    pose proof (proj1 (elem_of_dirs_to _ _) Hq) as [Hne Hpre].
    unfold Fs.is_file. rewrite node_at_lookup, Ht2 by done. unfold staged.
    destruct (Fs.relative_to dst q) as [[|c rel]|] eqn:Hrel; [done|..].
    + apply relative_to_Some in Hrel. subst q. by apply prefix_longer in Hpre.
    + by rewrite decide_True.
  - intros Hmissing. exfalso. apply bool_decide_eq_false in Hmissing. apply Hmissing.
    rewrite node_at_lookup by done. rewrite <-(app_nil_r dst), Hcopy, app_nil_r.
    rewrite node_at_lookup in Hsrc by done. by eexists.
  - f_equal. unfold set_fs. cbn [w_fs w_cmds w_out]. f_equal.
    apply map_eq. intros q. rewrite Ht3, Ht2. by apply staged_again.
Qed.

Lemma stage_overwrites_and_is_idempotent_witness :
  ∃ w1, Deploy.stage ["work"; "site"] ["srv"; "html"; "demo"] restaged_world
          = (Return (), w1) ∧
        (∀ rel, w_fs w1 !! (["srv"; "html"; "demo"] ++ rel)
                = w_fs restaged_world !! (["work"; "site"] ++ rel)) ∧
        (∀ q, ¬ ["srv"; "html"; "demo"] `prefix_of` q →
              q ∉ Fs.dirs_to ["srv"; "html"; "demo"] →
              w_fs w1 !! q = w_fs restaged_world !! q) ∧
        Deploy.stage ["work"; "site"] ["srv"; "html"; "demo"] w1 = (Return (), w1).
Proof.
  apply (stage_overwrites_and_is_idempotent ["work"; "site"] ["srv"; "html"; "demo"]
           restaged_world).
  - reflexivity.
  - intros [k Hk]. discriminate Hk.
  - intros [k Hk]. discriminate Hk.
  - reflexivity.
  - reflexivity.
Defined.

Example stage_drops_old_files :
  let w1 := (Deploy.stage ["work"; "site"] ["srv"; "html"; "demo"] restaged_world).2 in
  w_fs w1 !! ["srv"; "html"; "demo"; "old.css"] = None ∧
  w_fs w1 !! ["srv"; "html"; "demo"; "index.html"] = Some (File "<html>") ∧
  w_fs w1 !! ["srv"; "html"; "demo"; "app.js"] = Some (File "js").
Proof. vm_compute. done. Qed.

(** C6 (as stated) fails for a source that contains its destination:
    staging /srv to /srv/html/demo goes through once (there is no /srv/html
    yet), and the second staging, which now finds /srv/html inside the
    source, ends in a RecursionError. *)
Lemma staging_into_own_source : ¬ staging_idempotent.
Proof.
  intros H.
  specialize (H ["srv"] ["srv"; "html"; "demo"] office_world
                (Deploy.stage ["srv"] ["srv"; "html"; "demo"] office_world).2).
  assert (Deploy.stage ["srv"] ["srv"; "html"; "demo"] office_world
          = (Return (), (Deploy.stage ["srv"] ["srv"; "html"; "demo"] office_world).2))
    as Hfirst by (apply pair_eta_fst; vm_compute; reflexivity).
  apply H, (f_equal fst) in Hfirst. vm_compute in Hfirst. discriminate Hfirst.
Qed.

(** ** Cleanup of an id with a record *)

Lemma path_field_run (e : env) (info : Json.value) (key : string) (w : world) :
  Cleanup.path_field e info key w
  = match Json.subscript info key with
    | Return (Json.Str s) => (Return (Path.resolve (env_cwd e) s), w)
    | Return (Json.Int _) => (Raise TypeError, w)
    | Raise ex => (Raise ex, w)
    end.
Proof.
  unfold Cleanup.path_field. rewrite bind_run. unfold of_outcome at 1.
  by destruct (Json.subscript info key) as [[s|n]|ex].
Qed.

Lemma reload_step_files (e : env) (w : world) :
  w_fs (Cleanup.reload_step e w).2 = w_fs w.
Proof.
  unfold Cleanup.reload_step. unfold_M.
  destruct (command_result e NginxReload) as [|c o]; [done|].
  cbn [fst]. by destruct (bool_decide _).
Qed.

Lemma removal_step_run (present : bool) (l : line)
      (f : gmap path node → outcome (gmap path node)) (w : world) :
  when_ present (print l;; fs_update f) w
  = if present then
      match f (w_fs w) with
      | Return t => (Return (), set_fs t (say l w))
      | Raise ex => (Raise ex, say l w)
      end
    else (Return (), w).
Proof.
  unfold when_. destruct present; [|done].
  rewrite bind_run, print_run, fs_update_run. cbn [say w_fs].
  by destruct (f (w_fs w)).
Qed.

(** The steps of cleanup between reading the record and the reload, seen
    from the record file: they leave it alone unless the record names it. *)
Lemma cleanup_failed_report (ex : exn) (w : world) :
  (print (Report "❌ 清理失败: " ex);; print (Traceback ex);; mret false) w
  = (Return false, say (Traceback ex) (say (Report "❌ 清理失败: " ex) w)).
Proof. reflexivity. Qed.

Ltac kept :=
  eexists _, _; split; [reflexivity|]; cbn [say set_fs w_fs];
  split; [assumption|first [reflexivity|assumption]].

Lemma cleanup_record_last (e : env) (project_id : string)
        (nginx_base_dir : option pathlike) (w : world) :
  let info_file :=
    Cleanup.info_file_of (Cleanup.base_dir e nginx_base_dir) project_id in
  Fs.exists_ (w_fs w) info_file = true →
  (∀ text, w_fs w !! info_file = Some (File text) → spares e info_file text = true) →
  match Cleanup.cleanup_deployment e project_id nginx_base_dir w with
  | (Return true, w') => w_fs w' !! info_file = None ∧ w_fs w' ⊆ w_fs w
  | (Return false, w') =>
      w_fs w' !! info_file = w_fs w !! info_file ∧ w_fs w' ⊆ w_fs w
  | (Raise _, _) => False
  end.
Proof.
  intros info_file Hexists Hspares.
  unfold Cleanup.cleanup_deployment. fold (Cleanup.info_file_of
    (Cleanup.base_dir e nginx_base_dir) project_id). fold info_file.
  rewrite bind_run. unfold path_exists at 1. rewrite Hexists. cbn [negb].
  rewrite try_except_run.
  rewrite bind_run. unfold fs_read at 1. unfold Fs.read_text.
  destruct (Fs.node_at (w_fs w) info_file) as [[text|]|] eqn:Hnode;
    [|by rewrite cleanup_failed_report..].
  assert (info_file ≠ []) as Hne by (by intros Heq; rewrite Heq in Hnode).
  rewrite node_at_lookup in Hnode by done.
  specialize (Hspares text Hnode). unfold spares in Hspares.
  apply andb_true_iff in Hspares as [_ Hspares].
  rewrite bind_run. unfold of_outcome at 1.
  destruct (Json.loads text) as [info|ex]; [|by rewrite cleanup_failed_report].
  rewrite bind_run, path_field_run.
  destruct (Json.subscript info "html_dir") as [[h|n]|ex];
    [|by rewrite cleanup_failed_report..].
  apply andb_true_iff in Hspares as [Hh Hc].
  apply negb_true_iff, bool_decide_eq_false in Hh.
  rewrite bind_run. unfold path_exists at 1.
  rewrite bind_run, removal_step_run.
  set (w1 := say (PathLine "删除 HTML 目录: " (Path.resolve (env_cwd e) h)) w).
  assert (∃ r2 w2, (if Fs.exists_ (w_fs w) (Path.resolve (env_cwd e) h)
                    then match Fs.rmtree (Path.resolve (env_cwd e) h) (w_fs w) with
                         | Return t => (Return (), set_fs t w1)
                         | Raise ex => (Raise ex, w1)
                         end
                    else (Return (), w)) = (r2, w2) ∧
                   w_fs w2 !! info_file = Some (File text) ∧ w_fs w2 ⊆ w_fs w)
    as (r2 & w2 & -> & Hinfo2 & Hsub2).
  { destruct (Fs.exists_ (w_fs w) (Path.resolve (env_cwd e) h)); [|kept].
    destruct (Fs.rmtree _ (w_fs w)) as [t|ex] eqn:Hrm; [|kept].
    apply rmtree_inv in Hrm. subst t. eexists _, _. split; [done|].
    cbn [set_fs w_fs]. split.
    - rewrite lookup_rmtree. by rewrite decide_False.
    - apply map_filter_subseteq. }
  destruct r2 as [[]|ex]; [|rewrite cleanup_failed_report; cbn [say w_fs]; by rewrite Hnode].
  rewrite bind_run, path_field_run.
  destruct (Json.subscript info "conf_file") as [[c|n]|ex];
    [|rewrite cleanup_failed_report; cbn [say w_fs]; by rewrite Hnode..].
  apply negb_true_iff, bool_decide_eq_false in Hc.
  rewrite bind_run. unfold path_exists at 1.
  rewrite bind_run, removal_step_run.
  set (w3 := say (PathLine "删除配置文件: " (Path.resolve (env_cwd e) c)) w2).
  assert (∃ r4 w4, (if Fs.exists_ (w_fs w2) (Path.resolve (env_cwd e) c)
                    then match Fs.unlink (Path.resolve (env_cwd e) c) (w_fs w2) with
                         | Return t => (Return (), set_fs t w3)
                         | Raise ex => (Raise ex, w3)
                         end
                    else (Return (), w2)) = (r4, w4) ∧
                   w_fs w4 !! info_file = Some (File text) ∧ w_fs w4 ⊆ w_fs w)
    as (r4 & w4 & -> & Hinfo4 & Hsub4).
  { destruct (Fs.exists_ (w_fs w2) (Path.resolve (env_cwd e) c)); [|kept].
    destruct (Fs.unlink _ (w_fs w2)) as [t|ex] eqn:Hun; [|kept].
    apply unlink_inv in Hun. subst t. eexists _, _. split; [done|].
    cbn [set_fs w_fs]. split.
    - by rewrite lookup_delete_ne.
    - etrans; [apply delete_subseteq|done]. }
  destruct r4 as [[]|ex]; [|rewrite cleanup_failed_report; cbn [say w_fs]; by rewrite Hnode].
  rewrite bind_run.
  pose proof (reload_step_files e w4) as Hreload.
  destruct (Cleanup.reload_step e w4) as [[[]|ex] w5]; cbn [snd] in Hreload;
    [|rewrite cleanup_failed_report; cbn [say w_fs]; by rewrite Hreload, Hnode].
  rewrite bind_run, fs_update_run. unfold Fs.unlink.
  rewrite node_at_lookup, Hreload, Hinfo4 by done.
  rewrite bind_run, print_run. cbn [mret M_ret say set_fs w_fs].
  split; [by rewrite lookup_delete_eq|].
  etrans; [apply delete_subseteq|done].
Qed.



Example cleanup_failed_reload_keeps_record :
  let run := Cleanup.cleanup_deployment stopped_proxy "project-1700000000"
               (Some (AsStr "/srv")) deployed_world in
  run.1 = Return false ∧
  Fs.exists_ (w_fs run.2) ["srv"; "deployments"; "project-1700000000.json"] = true ∧
  Fs.exists_ (w_fs run.2) ["srv"; "html"; "project-1700000000"] = false ∧
  Fs.exists_ (w_fs run.2) ["srv"; "config"; "conf.d"; "project-1700000000.conf"] = false.
Proof. vm_compute. done. Qed.


Example cleanup_of_trap_record :
  let run := Cleanup.cleanup_deployment stopped_proxy "trap" (Some (AsStr "/srv"))
               trap_world in
  Fs.exists_ (w_fs trap_world) ["srv"; "deployments"; "trap.json"] = true ∧
  spares stopped_proxy ["srv"; "deployments"; "trap.json"]
    (Json.dumps (Json.Dict trap_record)) = false ∧
  run.1 = Return false ∧
  Fs.exists_ (w_fs run.2) ["srv"; "deployments"; "trap.json"] = false ∧
  Fs.exists_ (w_fs run.2) ["srv"; "deployments"] = false ∧
  w_cmds run.2 = [NginxReload].
Proof. vm_compute. done. Qed.

Example cleanup_success_removes_record :
  let run := Cleanup.cleanup_deployment office "project-1700000000"
               (Some (AsStr "/srv")) deployed_world in
  run.1 = Return true ∧
  Fs.exists_ (w_fs run.2) ["srv"; "deployments"; "project-1700000000.json"] = false ∧
  Fs.exists_ (w_fs run.2) ["srv"; "html"; "project-1700000000"] = false ∧
  Fs.exists_ (w_fs run.2) ["srv"; "config"; "conf.d"; "project-1700000000.conf"] = false.
Proof. vm_compute. done. Qed.

(** ** The records deploy_frontend writes and cleanup reads *)

Lemma split_slash (s : string) : Path.split (String Py.slash s) = "" :: Path.split s.
Proof. reflexivity. Qed.

Lemma split_app_slash (x s : string) :
  Py.has_char Py.slash x = false →
  Path.split (x +:+ String Py.slash s) = x :: Path.split s.
Proof.
  induction x as [|a x IH]; intros Hx.
  - apply split_slash.
  - simpl in Hx. apply orb_false_iff in Hx as [Ha Hx].
    rewrite string_app_cons. cbn [Path.split]. rewrite Ha, (IH Hx). done.
Qed.

Lemma split_join (p : path) :
  p ≠ [] → Forall plain p → Path.split (Py.join "/" p) = p.
Proof.
  induction p as [|x p IH]; [done|]. intros _ Hp.
  apply Forall_cons in Hp as [[Hx _] Hp].
  destruct p as [|y p].
  - simpl. by apply split_no_slash.
  - change (Py.join "/" (x :: y :: p)) with (x +:+ String Py.slash (Py.join "/" (y :: p))).
    rewrite split_app_slash by done. by rewrite IH.
Qed.

Lemma foldl_step_plain (p here : path) :
  Forall plain p → foldl Path.step here p = here ++ p.
Proof.
  revert here. induction p as [|c p IH]; intros here Hp; simpl.
  - by rewrite app_nil_r.
  - apply Forall_cons in Hp as [(_ & H0 & H1 & H2) Hp].
    unfold Path.step at 2. rewrite !bool_decide_eq_false_2 by done. simpl.
    rewrite IH by done. by rewrite <-app_assoc.
Qed.

(** A resolved path printed and read again is the same path. *)
Lemma resolve_str (cwd p : path) : Forall plain p → Path.resolve cwd (Path.str p) = p.
Proof.
  intros Hp. unfold Path.resolve, Path.join, Path.str.
  change (Path.is_absolute ("/" +:+ Py.join "/" p)) with true. cbn [negb].
  change ("/" +:+ Py.join "/" p) with (String Py.slash (Py.join "/" p)).
  rewrite split_slash. cbn [foldl]. change (Path.step [] "") with (@nil string).
  destruct (decide (p = [])) as [->|Hne]; [done|].
  rewrite split_join by done. by apply foldl_step_plain.
Qed.

Lemma split_components (s : string) :
  Forall (λ c, Py.has_char Py.slash c = false) (Path.split s).
Proof.
  induction s as [|a s IH]; simpl.
  - by repeat constructor.
  - case_bool_decide as Ha.
    + by constructor.
    + destruct (Path.split s) as [|x l].
      * repeat constructor. simpl. by rewrite bool_decide_eq_false_2.
      * apply Forall_cons in IH as [Hx Hl]. constructor; [|done].
        simpl. by rewrite bool_decide_eq_false_2.
Qed.

Lemma Forall_removelast {A} (P : A → Prop) (l : list A) :
  Forall P l → Forall P (removelast l).
Proof.
  induction l as [|x l IH]; [done|]. intros H.
  apply Forall_cons in H as [Hx Hl]. simpl.
  destruct l; [constructor|]. constructor; [done|by apply IH].
Qed.

Lemma step_plain (here : path) (c : string) :
  Forall plain here → Py.has_char Py.slash c = false → Forall plain (Path.step here c).
Proof.
  intros Hhere Hc. unfold Path.step.
  case_bool_decide as H0; [done|]. case_bool_decide as H1; [done|]. simpl.
  case_bool_decide as H2; [by apply Forall_removelast|].
  apply Forall_app. split; [done|]. by repeat constructor.
Qed.

Lemma join_plain (here : path) (s : string) :
  Forall plain here → Forall plain (Path.join here s).
Proof.
  intros Hhere. unfold Path.join.
  assert (Forall plain (if Path.is_absolute s then [] else here)) as Hstart
      by (by destruct (Path.is_absolute s)).
  revert Hstart. generalize (if Path.is_absolute s then [] else here).
  induction (split_components s) as [|c l Hc _ IH]; intros start Hstart; [done|].
  simpl. apply IH. by apply step_plain.
Qed.

Lemma deploy_base_plain (e : env) (nginx_base_dir : option string) :
  Forall plain (env_cwd e) → Forall plain (deploy_base e nginx_base_dir).
Proof.
  intros Hcwd. unfold deploy_base, Path.resolve.
  destruct nginx_base_dir; by apply join_plain.
Qed.

Lemma project_id_plain (e : env) (suffix : string) :
  Py.has_char Py.slash suffix = false → plain (Deploy.generate_project_id e +:+ suffix).
Proof.
  intros Hsuffix. unfold plain, Deploy.generate_project_id.
  rewrite !has_char_app, str_int_no_slash, Hsuffix. done.
Qed.

(** The record deploy_frontend writes names its own staged directory and
    configuration file, not the record file. *)
Lemma deployed_record_spares (e e' : env) (source_dir : string) (base : path) (port : Z) :
  Forall plain base →
  Py.is_utf8 (Json.dumps (Json.Dict (record_of e source_dir base port))) = true →
  spares e' (Deploy.info_file_of base (Deploy.generate_project_id e))
    (Json.dumps (Json.Dict (record_of e source_dir base port))) = true.
Proof.
  intros Hbase Hutf8. unfold spares. rewrite Hutf8. cbn [andb].
  rewrite loads_dumps by (apply (bool_decide_unpack _); by vm_compute).
  cbn [Json.subscript Json.dict_get record_of bool_decide decide_rel].
  change (Json.dict_get "html_dir" (record_of e source_dir base port))
    with (Some (Json.Str (Path.str (html_dir_of base (Deploy.generate_project_id e))))).
  change (Json.dict_get "conf_file" (record_of e source_dir base port))
    with (Some (Json.Str (Path.str (conf_file_of base (Deploy.generate_project_id e))))).
  pose proof (project_id_is_name e "" eq_refl) as Hid.
  rewrite string_app_nil in Hid.
  unfold html_dir_of, conf_file_of, Deploy.info_file_of.
  rewrite Hid, !(project_id_is_name e) by done.
  rewrite conf_dir_of_eq, (join_name base "html"), (join_name base "deployments") by done.
  rewrite <-!app_assoc. simpl.
  pose proof (project_id_plain e "" eq_refl) as Hname. rewrite string_app_nil in Hname.
  rewrite !resolve_str.
  - apply andb_true_iff. split; apply negb_true_iff, bool_decide_eq_false_2.
    + intros H. apply prefix_app_inv, prefix_cons_inv_1 in H. done.
    + intros H. apply app_inv_head in H. done.
  - apply Forall_app. split; [done|].
    repeat (apply Forall_cons; split; [first [done|by apply project_id_plain]|]).
    apply Forall_nil_2.
  - apply Forall_app. split; [done|].
    repeat (apply Forall_cons; split; [first [done|by apply project_id_plain]|]).
    apply Forall_nil_2.
Qed.

(** After a deployment, a cleanup of its id that fails leaves the record
    file where deploy_frontend put it. *)
Corollary failed_cleanup_after_deploy (e e' : env) (source_dir : string)
          (nginx_base_dir : option string) (info : list (string * Json.scalar))
          (w w1 w2 : world) :
  let base := deploy_base e nginx_base_dir in
  let info_file := Deploy.info_file_of base (Deploy.generate_project_id e) in
  Forall plain (env_cwd e) →
  Deploy.deploy_frontend e source_dir nginx_base_dir w = (Return info, w1) →
  Cleanup.cleanup_deployment e' (Deploy.generate_project_id e) (Some (AsPath base)) w1
    = (Return false, w2) →
  w_fs w2 !! info_file = Some (File (Json.dumps (Json.Dict info))).
Proof.
  intros base info_file Hcwd Hdeploy Hcleanup.
  pose proof (deploy_frontend_frame e source_dir nginx_base_dir w) as Hrecord.
  rewrite Hdeploy in Hrecord. cbv zeta in Hrecord.
  destruct Hrecord as ((port & _ & ->) & _ & (text & Hfile & -> & Hutf8 & _) & _).
  assert (info_file = deploy_base e nginx_base_dir ++ ["deployments"]
                      ++ [Deploy.generate_project_id e +:+ ".json"]) as Hpath.
  { unfold info_file, Deploy.info_file_of, base.
    rewrite (join_name _ "deployments"), (project_id_is_name e ".json") by done.
    by rewrite <-app_assoc. }
  rewrite app_assoc in Hpath. rewrite <-Hpath in Hfile.
  pose proof (cleanup_record_last e' (Deploy.generate_project_id e)
                (Some (AsPath base)) w1) as Hlast.
  cbv zeta in Hlast. change (Cleanup.info_file_of (Cleanup.base_dir e' (Some (AsPath base)))
                               (Deploy.generate_project_id e)) with info_file in Hlast.
  rewrite Hcleanup in Hlast.
  destruct Hlast as [Hkept _].
  - apply bool_decide_eq_true. rewrite node_at_lookup, Hfile; [by eexists|].
    rewrite Hpath. by destruct (deploy_base e nginx_base_dir).
  - intros text Htext. rewrite Hfile in Htext. injection Htext as <-.
    apply deployed_record_spares; [by apply deploy_base_plain|done].
  - by rewrite Hkept.
Qed.

(** ** Staging a directory into itself *)

Example stage_source_containing_destination :
  let first := Deploy.stage ["srv"] ["srv"; "html"; "demo"] office_world in
  let second := Deploy.stage ["srv"] ["srv"; "html"; "demo"] first.2 in
  first.1 = Return () ∧
  w_fs first.2 !! ["srv"; "html"; "demo"; "docker-compose.yml"]
    = Some (File "services:") ∧
  second.1 = Raise RecursionError.
Proof. vm_compute. done. Qed.

(** * Further properties of the two scripts *)

(** ** What a computation leaves of the world *)

Section keeps.
Context (R : relation world) `{!PreOrder R}.
Hypothesis R_say : ∀ l w, R w (say l w).

Lemma keeps_ret {A} (a : A) : keeps R (mret a : M A).
Proof. intros w r w' [= <- <-]. reflexivity. Qed.

Lemma keeps_raise {A} (ex : exn) : keeps R (raise ex : M A).
Proof. intros w r w' [= <- <-]. reflexivity. Qed.

Lemma keeps_of_outcome {A} (r : outcome A) : keeps R (of_outcome r).
Proof. intros w r' w' [= <- <-]. reflexivity. Qed.

Lemma keeps_print (l : line) : keeps R (print l).
Proof. intros w r w' [= <- <-]. apply R_say. Qed.

Lemma keeps_path_exists (p : path) : keeps R (path_exists p).
Proof. intros w r w' [= <- <-]. reflexivity. Qed.

Lemma keeps_fs_read {A} (f : gmap path node → outcome A) : keeps R (fs_read f).
Proof. intros w r w' [= <- <-]. reflexivity. Qed.

Lemma keeps_bind {A B} (m : M A) (f : A → M B) :
  keeps R m → (∀ a, keeps R (f a)) → keeps R (m ≫= f).
Proof.
  intros Hm Hf w r w' H. rewrite bind_run in H.
  destruct (m w) as [[a|ex] w1] eqn:Hmw.
  - etrans; [by eapply Hm|by eapply Hf].
  - injection H as <- <-. by eapply Hm.
Qed.

Lemma keeps_try_except {A} (body : M A) (handler : exn → M A) :
  keeps R body → (∀ ex, keeps R (handler ex)) → keeps R (try_except body handler).
Proof.
  intros Hm Hf w r w' H. rewrite try_except_run in H.
  destruct (body w) as [[a|ex] w1] eqn:Hmw.
  - injection H as <- <-. by eapply Hm.
  - etrans; [by eapply Hm|by eapply Hf].
Qed.

Lemma keeps_when (b : bool) (m : M unit) : keeps R m → keeps R (when_ b m).
Proof. intros Hm. destruct b; [done|]. apply keeps_ret. Qed.

End keeps.

Lemma keeps_run {A} (R : relation world) (m : M A) (w : world) :
  keeps R m → R w (m w).2.
Proof. intros H. apply (H w (m w).1). by destruct (m w). Qed.

Global Instance read_only_preorder : PreOrder read_only.
Proof.
  split.
  - by intros w.
  - intros w1 w2 w3 [H1 H2] [H3 H4]. split; congruence.
Qed.

Global Instance shrinks_preorder : PreOrder shrinks.
Proof.
  split.
  - intros w. split; [done|]. exists 0%nat. by rewrite app_nil_r.
  - intros w1 w2 w3 [H1 [n Hn]] [H2 [m Hm]]. split; [by etrans|].
    exists (n + m)%nat. by rewrite Hm, Hn, replicate_add, app_assoc.
Qed.

Global Instance preserves_preorder (touched : path → Prop) : PreOrder (preserves touched).
Proof.
  split.
  - by intros w q n.
  - intros w1 w2 w3 H1 H2 q n Hq Hn. apply H2; [done|]. by apply H1.
Qed.

Lemma read_only_say (l : line) (w : world) : read_only w (say l w).
Proof. done. Qed.

Lemma shrinks_say (l : line) (w : world) : shrinks w (say l w).
Proof. split; [done|]. exists 0%nat. by rewrite app_nil_r. Qed.

Lemma preserves_say (touched : path → Prop) (l : line) (w : world) :
  preserves touched w (say l w).
Proof. by intros q n. Qed.

Lemma read_only_shrinks (w w' : world) : read_only w w' → shrinks w w'.
Proof.
  intros [Hfs Hcmds]. split; [by rewrite Hfs|].
  exists 0%nat. by rewrite app_nil_r.
Qed.

Create HintDb keeps.
#[export] Hint Resolve read_only_say shrinks_say preserves_say : keeps.

(** One step through the structure of a computation. *)
Ltac keeps_side :=
  lazymatch goal with
  | |- PreOrder _ => apply _
  | |- ∀ _ : line, _ => solve [auto with keeps]
  | |- ∀ _, _ => intros ?
  | _ => idtac
  end.

Ltac keeps_step :=
  lazymatch goal with
  | |- keeps _ (mret _) => apply keeps_ret
  | |- keeps _ (raise _) => apply keeps_raise
  | |- keeps _ (of_outcome _) => apply keeps_of_outcome
  | |- keeps _ (print _) => apply keeps_print
  | |- keeps _ (path_exists _) => apply keeps_path_exists
  | |- keeps _ (fs_read _) => apply keeps_fs_read
  | |- keeps _ (when_ _ _) => apply keeps_when
  | |- keeps _ (try_except _ _) => apply keeps_try_except
  | |- keeps _ (_ ≫= _) => apply keeps_bind
  | |- keeps _ (match ?x with _ => _ end) => destruct x
  end; keeps_side.

(** ** cleanup.py only removes *)

Lemma shrinks_rmtree (p : path) : keeps shrinks (fs_update (Fs.rmtree p)).
Proof.
  intros w r w' H. rewrite fs_update_run in H.
  destruct (Fs.rmtree p (w_fs w)) as [t|ex] eqn:Hrm; injection H as <- <-; [|reflexivity].
  apply rmtree_inv in Hrm. subst t. split; [apply map_filter_subseteq|].
  exists 0%nat. by rewrite app_nil_r.
Qed.

Lemma shrinks_unlink (p : path) : keeps shrinks (fs_update (Fs.unlink p)).
Proof.
  intros w r w' H. rewrite fs_update_run in H.
  destruct (Fs.unlink p (w_fs w)) as [t|ex] eqn:Hun; injection H as <- <-; [|reflexivity].
  apply unlink_inv in Hun. subst t. split; [apply delete_subseteq|].
  exists 0%nat. by rewrite app_nil_r.
Qed.

Lemma shrinks_reload_signal (e : env) : keeps shrinks (run e NginxReload).
Proof.
  intros w r w' H. unfold run in H.
  destruct (command_result e NginxReload); injection H as <- <-;
    (split; [done|by exists 1%nat]).
Qed.

Lemma shrinks_reload_step (e : env) : keeps shrinks (Cleanup.reload_step e).
Proof.
  unfold Cleanup.reload_step, run_checked.
  repeat first [apply shrinks_reload_signal | keeps_step].
Qed.

Lemma keeps_path_field (R : relation world) `{!PreOrder R} (e : env)
      (info : Json.value) (key : string) :
  keeps R (Cleanup.path_field e info key).
Proof. unfold Cleanup.path_field. repeat keeps_step. Qed.

Lemma shrinks_cleanup_deployment (e : env) (project_id : string)
      (nginx_base_dir : option pathlike) :
  keeps shrinks (Cleanup.cleanup_deployment e project_id nginx_base_dir).
Proof.
  unfold Cleanup.cleanup_deployment. cbv zeta.
  repeat first
    [ apply shrinks_rmtree | apply shrinks_unlink | apply shrinks_reload_step
    | apply keeps_path_field; keeps_side | keeps_step ].
Qed.

Lemma shrinks_cleanup_each (e : env) (nginx_base_dir : path) (names : list string) :
  keeps shrinks (Cleanup.cleanup_each e nginx_base_dir names).
Proof.
  induction names as [|name names IH]; cbn [Cleanup.cleanup_each].
  - keeps_step.
  - cbv zeta. repeat first [apply shrinks_cleanup_deployment | apply IH | keeps_step].
Qed.

Lemma shrinks_cleanup_all (e : env) (nginx_base_dir : option pathlike) :
  keeps shrinks (Cleanup.cleanup_all e nginx_base_dir).
Proof.
  unfold Cleanup.cleanup_all. cbv zeta.
  repeat first [apply shrinks_cleanup_each | keeps_step].
Qed.

(** X1. Whatever the id, the record and the state of the proxy, and however
    it ends, cleanup_deployment makes and rewrites no entry of the disk (what
    it leaves is a part of what was there), and the only command it runs is
    the reload signal: it neither queries nor starts the proxy. *)
Theorem cleanup_deployment_only_removes (e : env) (project_id : string)
        (nginx_base_dir : option pathlike) (w : world) :
  shrinks w (Cleanup.cleanup_deployment e project_id nginx_base_dir w).2.
Proof. apply keeps_run, shrinks_cleanup_deployment. Qed.




Example cleanup_all_goes_on_after_a_failure :
  let run := Cleanup.cleanup_all office (Some (AsStr "/srv")) two_records_world in
  run.1 = Return () ∧
  Fs.exists_ (w_fs run.2) ["srv"; "deployments"; "broken.json"] = true ∧
  Fs.exists_ (w_fs run.2) ["srv"; "deployments"; "project-1700000000.json"] = false ∧
  w_cmds run.2 = w_cmds two_records_world ++ [NginxReload] ∧
  Report "❌ 清理失败: " JSONDecodeError ∈ w_out run.2 ∧
  Text "✅ 清理完成: project-1700000000" ∈ w_out run.2.
Proof.
  vm_compute. repeat split; try done; apply list_elem_of_In; vm_compute; tauto.
Qed.

(** ** list_deployments only reads *)

Lemma read_only_list_each (deployments_dir : path) (names : list string) :
  keeps read_only (Cleanup.list_each deployments_dir names).
Proof.
  induction names as [|name names IH]; cbn [Cleanup.list_each].
  - keeps_step.
  - repeat first [apply IH | keeps_step].
Qed.

Lemma read_only_list_deployments (e : env) (nginx_base_dir : option pathlike) :
  keeps read_only (Cleanup.list_deployments e nginx_base_dir).
Proof.
  unfold Cleanup.list_deployments. cbv zeta.
  repeat first [apply read_only_list_each | keeps_step].
Qed.

(** X3. list_deployments changes no file and runs no command, whether it
    lists, finds nothing or stops at a record it cannot read. *)
Theorem list_deployments_read_only (e : env) (nginx_base_dir : option pathlike)
        (w : world) :
  read_only w (Cleanup.list_deployments e nginx_base_dir w).2.
Proof. apply keeps_run, read_only_list_deployments. Qed.

(** X4. Whatever its arguments, python cleanup.py makes and rewrites no
    entry of the disk and runs no command but reload signals. *)
Theorem cleanup_main_only_removes (e : env) (argv : list string) (w : world) :
  shrinks w (Cleanup.main e argv w).2.
Proof.
  unfold Cleanup.main.
  destruct argv as [|prog [|command rest]];
    [split; [done|exists 0%nat; by rewrite app_nil_r]..|].
  cbv zeta.
  assert (keeps shrinks
            (if bool_decide (command = "list")
             then Cleanup.list_deployments e (AsStr <$> head rest)
             else if bool_decide (command = "all")
                  then Cleanup.cleanup_all e (AsStr <$> head rest)
                  else Cleanup.cleanup_deployment e command (AsStr <$> head rest);;
                       mret ())) as Hbody.
  { destruct (bool_decide (command = "list")).
    - intros w0 r w1 H. apply read_only_shrinks.
      by apply (read_only_list_deployments _ _ _ _ _ H).
    - destruct (bool_decide (command = "all")); [apply shrinks_cleanup_all|].
      repeat first [apply shrinks_cleanup_deployment | keeps_step]. }
  match goal with |- context [match ?m w with _ => _ end] =>
    pose proof (Hbody w (m w).1 (m w).2) as H; destruct (m w) as [[[]|ex] w1] end.
  - by apply H.
  - cbn [snd print]. etrans; [by apply H|apply shrinks_say].
Qed.

(** ** deploy.py leaves the rest of the disk alone *)

Section preserves.
Context (touched : path → Prop).

Lemma preserves_rmtree (p : path) :
  (∀ q, p `prefix_of` q → touched q) →
  keeps (preserves touched) (fs_update (Fs.rmtree p)).
Proof.
  intros HT w r w' H. rewrite fs_update_run in H.
  destruct (Fs.rmtree p (w_fs w)) as [t|ex] eqn:Hrm; injection H as <- <-; [|reflexivity].
  apply rmtree_inv in Hrm. subst t. intros q n Hq Hn. cbn [set_fs w_fs].
  rewrite lookup_rmtree, decide_False; [done|]. intros Hp. by apply Hq, HT.
Qed.

Lemma preserves_copytree (src dst : path) :
  (∀ q, dst `prefix_of` q → touched q) →
  keeps (preserves touched) (copytree src dst).
Proof.
  intros HT w r w' H. unfold copytree in H.
  destruct (Fs.copytree src dst (w_fs w)) as [r' t] eqn:Hcp. injection H as <- <-.
  intros q n Hq Hn. cbn [set_fs w_fs]. unfold Fs.copytree in Hcp.
  destruct (Fs.node_at (w_fs w) src) as [[content|]|]; [by injection Hcp as <- <-| |by injection Hcp as <- <-].
  destruct (Fs.exists_ (w_fs w) dst); [by injection Hcp as <- <-|].
  destruct (Fs.makedirs dst (w_fs w)) as [t1|ex] eqn:Hmk; [|by injection Hcp as <- <-].
  apply makedirs_inv in Hmk as [-> _].
  assert ((w_fs w ∪ Fs.dirs_map dst) !! q = Some n) as Hdirs
      by (by apply lookup_union_Some_l).
  destruct (Fs.walks_into_itself src dst (w_fs w)); injection Hcp as <- <-; [done|].
  rewrite lookup_union_r; [done|].
  apply lookup_graft_outside. intros Hp. by apply Hq, HT.
Qed.

Lemma preserves_makedirs (p : path) :
  keeps (preserves touched) (fs_update (Fs.makedirs p)).
Proof.
  intros w r w' H. rewrite fs_update_run in H.
  destruct (Fs.makedirs p (w_fs w)) as [t|ex] eqn:Hmk; injection H as <- <-; [|reflexivity].
  apply makedirs_inv in Hmk as [-> _]. intros q n Hq Hn. cbn [set_fs w_fs].
  by apply lookup_union_Some_l.
Qed.

Lemma preserves_write_text (p : path) (s : string) :
  touched p → keeps (preserves touched) (fs_update (Fs.write_text p s)).
Proof.
  intros HT w r w' H. rewrite fs_update_run in H.
  destruct (Fs.write_text p s (w_fs w)) as [t|ex] eqn:Hwr; injection H as <- <-; [|reflexivity].
  apply write_text_inv in Hwr. subst t. intros q n Hq Hn. cbn [set_fs w_fs].
  rewrite lookup_insert_ne; [done|]. by intros ->.
Qed.

Lemma preserves_encoded_write (p : path) (s : string) :
  touched p → keeps (preserves touched) (write_text p s).
Proof.
  intros HT w r w' H. rewrite write_text_run in H.
  destruct (Py.is_utf8 s).
  - destruct (Fs.write_text p s (w_fs w)) as [t|ex] eqn:Hwr;
      injection H as <- <-; [|reflexivity].
    apply write_text_inv in Hwr. subst t. intros q n Hq Hn. cbn [set_fs w_fs].
    rewrite lookup_insert_ne; [done|]. by intros ->.
  - destruct (Fs.write_text p EmptyString (w_fs w)) as [t|ex] eqn:Hwr;
      injection H as <- <-; [|reflexivity].
    apply write_text_inv in Hwr. subst t. intros q n Hq Hn. cbn [set_fs w_fs].
    rewrite lookup_insert_ne; [done|]. by intros ->.
Qed.

Lemma preserves_mkdir (p : path) :
  keeps (preserves touched) (fs_update (Fs.mkdir p)).
Proof.
  intros w r w' H. rewrite fs_update_run in H.
  destruct (Fs.mkdir p (w_fs w)) as [t|ex] eqn:Hmk; injection H as <- <-; [|reflexivity].
  intros q n Hq Hn. cbn [set_fs w_fs].
  destruct (decide (q = p)) as [->|Hne]; [|by rewrite (mkdir_frame _ q _ _ Hmk)].
  unfold Fs.mkdir in Hmk. destruct p as [|c p]; [by injection Hmk as <-|].
  rewrite node_at_lookup, Hn in Hmk by done. destruct n; [done|]. by injection Hmk as <-.
Qed.

Lemma preserves_command (e : env) (c : command) :
  keeps (preserves touched) (run e c).
Proof.
  intros w r w' H. unfold run in H.
  destruct (command_result e c); injection H as <- <-; by intros q n.
Qed.

Lemma preserves_reload_nginx (e : env) (base : path) :
  keeps (preserves touched) (Deploy.reload_nginx e base).
Proof.
  unfold Deploy.reload_nginx, run_checked. cbv zeta.
  repeat first [apply preserves_command | keeps_step].
Qed.

Lemma preserves_stage (src dst : path) :
  (∀ q, dst `prefix_of` q → touched q) →
  keeps (preserves touched) (Deploy.stage src dst).
Proof.
  intros HT. unfold Deploy.stage.
  repeat first [by apply preserves_rmtree | by apply preserves_copytree | keeps_step].
Qed.

Lemma preserves_create_nginx_conf (project_id : string) (port : Z) (base : path) :
  touched (conf_file_of base project_id) →
  keeps (preserves touched) (Deploy.create_nginx_conf project_id port base).
Proof.
  intros HT. unfold Deploy.create_nginx_conf. cbv zeta.
  repeat first [apply preserves_makedirs | by apply preserves_write_text | keeps_step].
Qed.

End preserves.

Lemma preserves_deploy_frontend (e : env) (source_dir : string)
      (nginx_base_dir : option string) :
  keeps (preserves (deployment_paths (deploy_base e nginx_base_dir)
                      (Deploy.generate_project_id e)))
        (Deploy.deploy_frontend e source_dir nginx_base_dir).
Proof.
  unfold Deploy.deploy_frontend. cbv zeta.
  fold (deploy_base e nginx_base_dir).
  fold (html_dir_of (deploy_base e nginx_base_dir) (Deploy.generate_project_id e)).
  fold (Deploy.info_file_of (deploy_base e nginx_base_dir) (Deploy.generate_project_id e)).
  repeat first
    [ apply preserves_stage; intros q Hq; by left
    | apply preserves_create_nginx_conf; right; by left
    | apply preserves_reload_nginx
    | apply preserves_mkdir
    | apply preserves_encoded_write; right; by right
    | keeps_step ].
Qed.

(** X5. However deploy_frontend ends, every entry of the disk other than
    the staged directory <base>/html/<id> with what is below it, the
    configuration file <base>/config/conf.d/<id>.conf and the record file
    <base>/deployments/<id>.json is still there afterwards, with the content
    it had: other deployments, the source tree and the proxy's own files are
    neither removed nor rewritten. *)
Theorem deploy_frontend_spares_the_rest (e : env) (source_dir : string)
        (nginx_base_dir : option string) (w : world) :
  preserves (deployment_paths (deploy_base e nginx_base_dir)
               (Deploy.generate_project_id e))
    w (Deploy.deploy_frontend e source_dir nginx_base_dir w).2.
Proof. apply keeps_run, preserves_deploy_frontend. Qed.

(** ** Where a deployment lives *)

Lemma deployment_paths_eq (e : env) (base : path) :
  let project_id := Deploy.generate_project_id e in
  plain project_id ∧
  html_dir_of base project_id = base ++ ["html"; project_id] ∧
  conf_file_of base project_id = base ++ ["config"; "conf.d"; project_id +:+ ".conf"] ∧
  Deploy.info_file_of base project_id
    = base ++ ["deployments"; project_id +:+ ".json"].
Proof.
  intros project_id. unfold html_dir_of, conf_file_of, Deploy.info_file_of.
  pose proof (project_id_is_name e "" eq_refl) as Hid.
  pose proof (project_id_plain e "" eq_refl) as Hplain.
  rewrite string_app_nil in Hid, Hplain. fold project_id in Hid, Hplain.
  unfold project_id at 3 4.
  rewrite Hid, !(project_id_is_name e) by done.
  rewrite conf_dir_of_eq, (join_name base "html"), (join_name base "deployments") by done.
  by rewrite <-!app_assoc.
Qed.

(** X6. Whatever the clock reads, the generated id is a plain file name, so
    the staged directory, the configuration file and the record file of a
    deployment are the children of <base>/html, <base>/config/conf.d and
    <base>/deployments that carry its name: no id leads out of the base
    directory. *)
Theorem deployment_locations (e : env) (base : path) :
  let project_id := Deploy.generate_project_id e in
  plain project_id ∧
  html_dir_of base project_id = base ++ ["html"; project_id] ∧
  conf_file_of base project_id = base ++ ["config"; "conf.d"; project_id +:+ ".conf"] ∧
  Deploy.info_file_of base project_id
    = base ++ ["deployments"; project_id +:+ ".json"].
Proof. apply deployment_paths_eq. Qed.

(** ** The exit status of deploy.py *)

(** X7. python deploy.py ends with status 0 exactly when deploy_frontend
    returned, and with status 1 when it raised, whatever the exception, and
    when no source directory is given; besides what deploy_frontend did, it
    only prints. *)
Theorem deploy_main_exit_status (e : env) (argv : list string) (w : world) :
  match argv with
  | _ :: source_dir :: rest =>
      let run := Deploy.deploy_frontend e source_dir (head rest) w in
      (Deploy.main e argv w).1 = match run.1 with Return _ => 0 | Raise _ => 1 end ∧
      read_only run.2 (Deploy.main e argv w).2
  | _ => (Deploy.main e argv w).1 = 1 ∧ read_only w (Deploy.main e argv w).2
  end.
Proof.
  destruct argv as [|prog [|source_dir rest]]; [done..|].
  unfold Deploy.main. cbv zeta. rewrite try_except_run, bind_run.
  by destruct (Deploy.deploy_frontend e source_dir (head rest) w) as [[info|ex] w'].
Qed.

(** ** The port allocator on every range *)

Lemma all_refused_next (e : env) (port p : Z) :
  bind e port = BindOSError → all_refused e (port + 1) p → all_refused e port p.
Proof.
  intros Hport Hrest q Hq. destruct (decide (q = port)) as [->|Hne]; [done|].
  apply Hrest. lia.
Qed.

Lemma scan_ports_outcomes (e : env) (msg : string) (n : nat) (port : Z) :
  match scan_ports e msg n port with
  | Return p => port ≤ p < port + Z.of_nat n ∧ bind e p = Bound ∧ all_refused e port p
  | Raise ex =>
      (ex = RuntimeError msg ∧ all_refused e port (port + Z.of_nat n)) ∨
      (ex = OverflowError ∧
       ∃ p, port ≤ p < port + Z.of_nat n ∧ bind e p = BindOverflow ∧
            all_refused e port p)
  end.
Proof.
  revert port. induction n as [|n IH]; intros port.
  - left. split; [done|]. intros q Hq. lia.
  - cbn [scan_ports]. destruct (bind e port) eqn:Hport.
    + split; [lia|]. split; [done|]. intros q Hq. lia.
    + specialize (IH (port + 1)).
      destruct (scan_ports e msg n (port + 1)) as [p|ex].
      * destruct IH as (Hp & Hbound & Hrefused).
        split; [lia|]. split; [done|]. by apply all_refused_next.
      * destruct IH as [[-> Hrefused]|[-> (p & Hp & Hover & Hrefused)]].
        -- left. split; [done|]. apply all_refused_next; [done|].
           by replace (port + Z.of_nat (S n)) with (port + 1 + Z.of_nat n) by lia.
        -- right. split; [done|]. exists p.
           split; [lia|]. split; [done|]. by apply all_refused_next.
    + right. split; [done|]. exists port.
      split; [lia|]. split; [done|]. intros q Hq. lia.
Qed.

(** X8. find_available_port on any range, also one that leaves the port
    numbers: it walks up from start_port past the ports in use and stops at
    the first port that is not an in-use port number. If that port can be
    bound it is returned; if it is no port number (below 0 or above 65535)
    the OverflowError of bind escapes; and when all max_attempts ports are
    in use (or max_attempts is not positive) the error is the RuntimeError
    naming the range. *)
Theorem find_available_port_outcomes (e : env) (start_port max_attempts : Z) :
  match find_available_port e start_port max_attempts with
  | Return p =>
      start_port ≤ p < start_port + max_attempts ∧ bind e p = Bound ∧
      all_refused e start_port p
  | Raise ex =>
      (ex = NoAvailablePort start_port max_attempts ∧
       all_refused e start_port (start_port + max_attempts)) ∨
      (ex = OverflowError ∧
       ∃ p, start_port ≤ p < start_port + max_attempts ∧ bind e p = BindOverflow ∧
            all_refused e start_port p)
  end.
Proof.
  unfold find_available_port, NoAvailablePort.
  destruct (decide (0 ≤ max_attempts)) as [Hpos|Hneg].
  - pose proof (scan_ports_outcomes e (no_port_msg start_port max_attempts)
                  (Z.to_nat max_attempts) start_port) as H.
    by rewrite Z2Nat.id in H.
  - replace (Z.to_nat max_attempts) with 0%nat by lia.
    left. split; [done|]. intros q Hq. lia.
Qed.

(** ** The reload controller *)

Lemma run_checked_run (e : env) (c : command) (w : world) :
  run_checked e c w
  = (match command_result e c with
     | SpawnFailed => Raise (OSError FileNotFoundError)
     | Exited code _ =>
         if bool_decide (code = 0) then Return () else Raise (CalledProcessError c code)
     end,
     {| w_fs := w_fs w; w_cmds := w_cmds w ++ [c]; w_out := w_out w |}).
Proof.
  unfold run_checked. rewrite bind_run. unfold run.
  destruct (command_result e c) as [|code out]; [done|].
  cbn [fst]. by destruct (bool_decide (code = 0)).
Qed.

Lemma reload_nginx_run (e : env) (base : path) (w : world) :
  Deploy.reload_nginx e base w
  = if Fs.exists_ (w_fs w) (base ++ ["docker-compose.yml"]) then
      match env_docker_ps e with
      | SpawnFailed =>
          (Raise (OSError FileNotFoundError),
           {| w_fs := w_fs w; w_cmds := w_cmds w ++ [DockerPs]; w_out := w_out w |})
      | Exited _ listing =>
          let running := Py.contains "nginx-web" listing in
          let action := if running then NginxReload else ComposeUp in
          (match command_result e action with
           | SpawnFailed => Raise (OSError FileNotFoundError)
           | Exited code _ =>
               if bool_decide (code = 0) then Return ()
               else Raise (CalledProcessError action code)
           end,
           {| w_fs := w_fs w;
              w_cmds := w_cmds w ++ [DockerPs; action];
              w_out := w_out w ++ [Text (if running then "重新加载 nginx 配置..."
                                         else "启动 nginx 容器...")] |})
      end
    else
      (Raise (RuntimeError ("docker-compose.yml 不存在: "
                            +:+ Path.str (base ++ ["docker-compose.yml"]))), w).
Proof.
  unfold Deploy.reload_nginx.
  rewrite (join_name base "docker-compose.yml") by done.
  rewrite bind_run. unfold path_exists at 1.
  destruct (Fs.exists_ (w_fs w) _); cbn [negb]; [|done].
  rewrite bind_run. unfold run at 1. cbn [command_result].
  destruct (env_docker_ps e) as [|code listing]; [done|].
  cbn [snd]. destruct (Py.contains "nginx-web" listing); cbn [negb].
  - rewrite bind_run, print_run, run_checked_run. cbn [fst snd say w_cmds w_fs w_out].
    by rewrite <-app_assoc.
  - rewrite bind_run, print_run, run_checked_run. cbn [fst snd say w_cmds w_fs w_out].
    by rewrite <-app_assoc.
Qed.

(** X9. reload_nginx, for every state of the proxy. Without the compose
    file it raises before any command is run. Otherwise it lists the running
    containers once (the exit status of that command is not looked at) and
    then runs exactly one more command: the reload signal when the listing
    contains "nginx-web", the start of the proxy when it does not; it returns
    when that command exits with 0 and raises otherwise. It never touches a
    file. *)
Theorem reload_nginx_outcomes (e : env) (base : path) (w : world) :
  let result := Deploy.reload_nginx e base w in
  let compose_file := base ++ ["docker-compose.yml"] in
  w_fs result.2 = w_fs w ∧
  if Fs.exists_ (w_fs w) compose_file then
    match env_docker_ps e with
    | SpawnFailed =>
        result.1 = Raise (OSError FileNotFoundError) ∧
        w_cmds result.2 = w_cmds w ++ [DockerPs]
    | Exited _ listing =>
        let action :=
          if Py.contains "nginx-web" listing then NginxReload else ComposeUp in
        w_cmds result.2 = w_cmds w ++ [DockerPs; action] ∧
        result.1 = match command_result e action with
                   | SpawnFailed => Raise (OSError FileNotFoundError)
                   | Exited code _ =>
                       if bool_decide (code = 0) then Return ()
                       else Raise (CalledProcessError action code)
                   end
    end
  else
    result
    = (Raise (RuntimeError ("docker-compose.yml 不存在: " +:+ Path.str compose_file)),
       w).
Proof.
  intros result compose_file. split; [apply reload_nginx_files|].
  subst result. rewrite reload_nginx_run. fold compose_file.
  destruct (Fs.exists_ (w_fs w) compose_file); [|done].
  by destruct (env_docker_ps e) as [|code listing].
Qed.

(** ** A deployment that went through *)

Lemma exists_lookup (t : gmap path node) (p : path) (n : node) :
  t !! p = Some n → Fs.exists_ t p = true.
Proof.
  intros H. apply bool_decide_eq_true. destruct p; [by eexists|]. by exists n.
Qed.

Lemma copytree_makes_dir (src dst : path) (t t' : gmap path node) :
  Fs.copytree src dst t = (Return (), t') → dst ≠ [] → t' !! dst = Some Dir.
Proof.
  unfold Fs.copytree. intros H Hne.
  destruct (Fs.node_at t src) as [[content|]|]; [done| |done].
  destruct (Fs.exists_ t dst); [done|].
  destruct (Fs.makedirs dst t) as [t1|ex] eqn:Hmk; [|done].
  apply makedirs_inv in Hmk as [-> Hclear].
  destruct (Fs.walks_into_itself src dst t); [done|]. injection H as <-.
  rewrite lookup_union_r by apply lookup_graft_self.
  rewrite lookup_after_makedirs by done.
  rewrite decide_True; [done|by apply dirs_to_self].
Qed.

Lemma stage_makes_dir (src dst : path) (w w' : world) :
  Deploy.stage src dst w = (Return (), w') → dst ≠ [] → w_fs w' !! dst = Some Dir.
Proof.
  rewrite stage_run. intros H Hne.
  destruct (Fs.exists_ (w_fs w) dst).
  - destruct (Fs.rmtree dst (w_fs w)) as [t1|ex]; [|done].
    destruct (Fs.copytree src dst t1) as [r t2] eqn:Hcp. injection H as -> <-.
    by apply (copytree_makes_dir src dst t1).
  - destruct (Fs.copytree src dst (w_fs w)) as [r t2] eqn:Hcp. injection H as -> <-.
    by apply (copytree_makes_dir src dst (w_fs w)).
Qed.

Lemma create_nginx_conf_written (project_id : string) (port : Z) (base p : path)
      (w w' : world) :
  Deploy.create_nginx_conf project_id port base w = (Return p, w') →
  w_fs w' !! conf_file_of base project_id
    = Some (File (Deploy.config_content project_id port)) ∧
  w_cmds w' = w_cmds w.
Proof.
  unfold Deploy.create_nginx_conf, conf_file_of. intros H.
  rewrite bind_run, fs_update_run in H.
  destruct (Fs.makedirs _ _) as [t1|]; [|done].
  rewrite bind_run, fs_update_run in H. cbn [set_fs w_fs] in H.
  destruct (Fs.write_text _ _ _) as [t2|] eqn:Hwr; [|done].
  apply write_text_inv in Hwr. subst t2. injection H as _ <-.
  cbn [set_fs w_fs w_cmds]. split; [by rewrite lookup_insert_eq|done].
Qed.

(** The three locations of a deployment are apart from each other and from
    the directories deploy_frontend makes. *)
Lemma deployment_paths_apart (e : env) (base : path) :
  let project_id := Deploy.generate_project_id e in
  let html_dir := html_dir_of base project_id in
  let conf_file := conf_file_of base project_id in
  let info_file := Deploy.info_file_of base project_id in
  (html_dir ≠ [] ∧ conf_file ≠ [] ∧ info_file ≠ []) ∧
  (¬ html_dir `prefix_of` conf_file ∧ ¬ html_dir `prefix_of` info_file ∧
   conf_file ≠ info_file) ∧
  (html_dir ≠ conf_file ∧ ¬ html_dir `prefix_of` Deploy.conf_dir_of base) ∧
  (html_dir ≠ base ++ ["deployments"] ∧ conf_file ≠ base ++ ["deployments"]).
Proof.
  intros project_id html_dir conf_file info_file.
  destruct (deployment_paths_eq e base) as (_ & Hhtml & Hconf & Hinfo).
  fold project_id html_dir conf_file info_file in Hhtml, Hconf, Hinfo.
  rewrite Hhtml, Hconf, Hinfo, conf_dir_of_eq.
  repeat split; try (by destruct base).
  - intros H. by apply prefix_app_inv, prefix_cons_inv_1 in H.
  - intros H. by apply prefix_app_inv, prefix_cons_inv_1 in H.
  - intros H. by apply app_inv_head in H.
  - intros H. by apply app_inv_head in H.
  - intros H. by apply prefix_app_inv, prefix_cons_inv_1 in H.
  - intros H. by apply app_inv_head in H.
  - intros H. by apply app_inv_head in H.
Qed.

Lemma deployment_paths_plain (e : env) (base : path) :
  Forall plain base →
  Forall plain (html_dir_of base (Deploy.generate_project_id e)) ∧
  Forall plain (conf_file_of base (Deploy.generate_project_id e)).
Proof.
  intros Hbase.
  destruct (deployment_paths_eq e base) as (Hid & -> & -> & _).
  split; (apply Forall_app; split; [done|]);
    repeat (apply Forall_cons; split; [first [done|by apply project_id_plain]|]);
    apply Forall_nil_2.
Qed.

Lemma mkdir_makes_dir (p : path) (t t' : gmap path node) :
  Fs.mkdir p t = Return t' → p ≠ [] → t' !! p = Some Dir.
Proof.
  unfold Fs.mkdir. intros H Hne. rewrite node_at_lookup in H by done.
  destruct (t !! p) as [[content|]|] eqn:Hp; [done|by injection H as <-|].
  destruct (Fs.node_at t (Path.parent p)) as [[content|]|]; [done| |done].
  injection H as <-. by rewrite lookup_insert_eq.
Qed.

Lemma deploy_frontend_result (e : env) (source_dir : string)
      (nginx_base_dir : option string) (info : list (string * Json.scalar))
      (w w1 : world) :
  let base := deploy_base e nginx_base_dir in
  let project_id := Deploy.generate_project_id e in
  Deploy.deploy_frontend e source_dir nginx_base_dir w = (Return info, w1) →
  ∃ port action,
    find_available_port e 8080 100 = Return port ∧
    info = record_of e source_dir base port ∧
    w_fs w1 !! html_dir_of base project_id = Some Dir ∧
    w_fs w1 !! conf_file_of base project_id
      = Some (File (Deploy.config_content project_id port)) ∧
    w_fs w1 !! Deploy.info_file_of base project_id
      = Some (File (Json.dumps (Json.Dict info))) ∧
    w_cmds w1 = w_cmds w ++ [DockerPs; action] ∧
    (action = ComposeUp ∨ action = NginxReload) ∧
    (∃ out, command_result e action = Exited 0 out) ∧
    w_fs w1 !! (base ++ ["deployments"]) = Some Dir ∧
    Py.is_utf8 (Json.dumps (Json.Dict info)) = true.
Proof.
  intros base project_id H. subst project_id.
  destruct (deployment_paths_apart e base)
    as ((Hh0 & Hc0 & Hi0) & (Hhc & Hhi & Hci) & (Hhc' & Hhd) & (Hhdep & Hcdep)).
  unfold Deploy.deploy_frontend in H. fold (deploy_base e nginx_base_dir) in H.
  fold base in H.
  rewrite (join_name base "deployments") in H by done.
  fold (html_dir_of base (Deploy.generate_project_id e)) in H.
  rewrite (project_id_is_name e ".json") in H by done.
  assert (Deploy.info_file_of base (Deploy.generate_project_id e)
          = (base ++ ["deployments"]) ++ [Deploy.generate_project_id e +:+ ".json"])
    as Hinfo_eq.
  { destruct (deployment_paths_eq e base) as (_ & _ & _ & ->). by rewrite <-app_assoc. }
  rewrite <-Hinfo_eq in H.
  rewrite bind_run in H. unfold path_exists at 1 in H.
  destruct (Fs.exists_ _ _); cbn [negb] in H; [|done].
  rewrite bind_run in H. unfold of_outcome at 1 in H.
  destruct (find_available_port e 8080 100) as [port|ex]; [|done].
  rewrite bind_run in H.
  destruct (Deploy.stage _ _ w) as [[[]|ex] ws] eqn:Hstage; [|done].
  rewrite bind_run in H.
  destruct (Deploy.create_nginx_conf _ _ _ ws) as [[conf_file|ex] wc] eqn:Hconf; [|done].
  pose proof (create_nginx_conf_result _ _ _ _ _ _ Hconf) as ->.
  rewrite bind_run, reload_nginx_run in H.
  destruct (Fs.exists_ (w_fs wc) _); [|done].
  destruct (env_docker_ps e) as [|code listing]; [done|]. cbv zeta in H.
  set (action := if Py.contains "nginx-web" listing then NginxReload else ComposeUp) in H.
  destruct (command_result e action) as [|status out] eqn:Haction; [done|].
  case_bool_decide as Hstatus; [subst status|done].
  rewrite bind_run, fs_update_run in H. cbn [w_fs] in H.
  destruct (Fs.mkdir _ (w_fs wc)) as [t4|ex] eqn:Hmkdir; [|done].
  rewrite bind_run, write_text_run in H. cbn [set_fs w_fs] in H.
  fold (record_of e source_dir base port) in H.
  destruct (Py.is_utf8 _) eqn:Hutf8; [|by destruct (Fs.write_text _ _ t4)].
  destruct (Fs.write_text _ _ t4) as [t5|ex] eqn:Hwrite; [|done].
  apply write_text_inv in Hwrite. subst t5.
  cbn [mret M_ret set_fs w_fs w_cmds w_out] in H. injection H as <- <-.
  cbn [set_fs w_fs w_cmds w_out].
  destruct (create_nginx_conf_written _ _ _ _ _ _ Hconf) as [Hwritten Hcmds].
  destruct (stage_world _ _ _ _ _ Hstage) as [Hcmds' _].
  exists port, action. split; [done|]. split; [done|].
  split; [|split; [|split; [|split; [|split; [|split; [|split]]]]]].
  - rewrite lookup_insert_ne by (intros Heq; apply Hhi; by rewrite Heq).
    rewrite (mkdir_frame _ _ _ _ Hmkdir) by done.
    rewrite (create_nginx_conf_frame _ _ _ _ _ _ _ Hconf) by done.
    by apply (stage_makes_dir _ _ _ _ Hstage).
  - rewrite lookup_insert_ne by (intros Heq; by apply Hci).
    by rewrite (mkdir_frame _ _ _ _ Hmkdir).
  - by rewrite lookup_insert_eq.
  - by rewrite Hcmds, Hcmds'.
  - unfold action. destruct (Py.contains _ _); [by right|by left].
  - by exists out.
  - rewrite lookup_insert_ne.
    + apply (mkdir_makes_dir _ _ _ Hmkdir). by destruct base.
    + rewrite Hinfo_eq. intros Heq. apply (f_equal length) in Heq.
      rewrite length_app in Heq. cbn [length] in Heq. lia.
  - done.
Qed.

(** X10. A deployment that went through left its three parts on the disk
    and they agree: the staged directory is there, the configuration file
    holds the server block for the very port the record (and its url) names,
    the record file holds the record that was returned, and the proxy was
    asked what runs and then started or reloaded, by a command that ended
    with status 0. *)
Theorem deploy_frontend_success (e : env) (source_dir : string)
        (nginx_base_dir : option string) (info : list (string * Json.scalar))
        (w w1 : world) :
  let base := deploy_base e nginx_base_dir in
  let project_id := Deploy.generate_project_id e in
  Deploy.deploy_frontend e source_dir nginx_base_dir w = (Return info, w1) →
  ∃ port action,
    find_available_port e 8080 100 = Return port ∧
    info = record_of e source_dir base port ∧
    w_fs w1 !! html_dir_of base project_id = Some Dir ∧
    w_fs w1 !! conf_file_of base project_id
      = Some (File (Deploy.config_content project_id port)) ∧
    w_fs w1 !! Deploy.info_file_of base project_id
      = Some (File (Json.dumps (Json.Dict info))) ∧
    w_cmds w1 = w_cmds w ++ [DockerPs; action] ∧
    (action = ComposeUp ∨ action = NginxReload) ∧
    ∃ out, command_result e action = Exited 0 out.
Proof.
  intros base project_id Hdeploy.
  destruct (deploy_frontend_result e source_dir nginx_base_dir info w w1 Hdeploy)
    as (port & action & Hport & Hinfo & Hhtml & Hconf & Hrecord & Hcmds & Haction
        & Hstatus & _).
  exists port, action. repeat (split; [assumption|]). assumption.
Qed.

Lemma deploy_frontend_success_witness :
  ∃ port action,
    find_available_port office 8080 100 = Return port ∧
    record_of office "site" ["srv"] 8083
      = record_of office "site" (deploy_base office (Some "/srv")) port ∧
    w_fs (Deploy.deploy_frontend office "site" (Some "/srv") office_world).2
      !! html_dir_of (deploy_base office (Some "/srv")) (Deploy.generate_project_id office)
      = Some Dir ∧
    w_fs (Deploy.deploy_frontend office "site" (Some "/srv") office_world).2
      !! conf_file_of (deploy_base office (Some "/srv")) (Deploy.generate_project_id office)
      = Some (File (Deploy.config_content (Deploy.generate_project_id office) port)) ∧
    w_fs (Deploy.deploy_frontend office "site" (Some "/srv") office_world).2
      !! Deploy.info_file_of (deploy_base office (Some "/srv"))
           (Deploy.generate_project_id office)
      = Some (File (Json.dumps (Json.Dict (record_of office "site" ["srv"] 8083)))) ∧
    w_cmds (Deploy.deploy_frontend office "site" (Some "/srv") office_world).2
      = w_cmds office_world ++ [DockerPs; action] ∧
    (action = ComposeUp ∨ action = NginxReload) ∧
    ∃ out, command_result office action = Exited 0 out.
Proof.
  apply (deploy_frontend_success office "site" (Some "/srv")
           (record_of office "site" ["srv"] 8083) office_world).
  apply pair_eta_fst. vm_compute. reflexivity.
Defined.

(** ** Cleanup after a deployment *)

Lemma reload_step_run (e : env) (w : world) :
  Cleanup.reload_step e w
  = (match env_nginx_reload e with
     | SpawnFailed => Raise (OSError FileNotFoundError)
     | Exited code _ =>
         if bool_decide (code = 0) then Return ()
         else Raise (CalledProcessError NginxReload code)
     end,
     {| w_fs := w_fs w;
        w_cmds := w_cmds w ++ [NginxReload];
        w_out := w_out w ++ [Text "重新加载 nginx 配置..."] |}).
Proof.
  unfold Cleanup.reload_step. by rewrite bind_run, print_run, run_checked_run.
Qed.

Lemma cleanup_of_deployed (e e' : env) (source_dir : string) (base : path)
      (port : Z) (cleanup_base : option pathlike) (w1 : world) (out : string) :
  let project_id := Deploy.generate_project_id e in
  Forall plain base →
  w_fs w1 !! html_dir_of base project_id = Some Dir →
  w_fs w1 !! conf_file_of base project_id
    = Some (File (Deploy.config_content project_id port)) →
  w_fs w1 !! Deploy.info_file_of base project_id
    = Some (File (Json.dumps (Json.Dict (record_of e source_dir base port)))) →
  Cleanup.base_dir e' cleanup_base = base →
  env_nginx_reload e' = Exited 0 out →
  ∃ w2, Cleanup.cleanup_deployment e' project_id cleanup_base w1 = (Return true, w2) ∧
        (∀ q, deployment_paths base project_id q → w_fs w2 !! q = None) ∧
        (∀ q, ¬ deployment_paths base project_id q → w_fs w2 !! q = w_fs w1 !! q) ∧
        w_cmds w2 = w_cmds w1 ++ [NginxReload].
Proof.
  intros project_id Hplain Hhtml Hconf Hinfo Hbase Hreload.
  destruct (deployment_paths_apart e base)
    as ((Hh0 & Hc0 & Hi0) & (Hhc & Hhi & Hci) & _).
  fold project_id in Hh0, Hc0, Hi0, Hhc, Hhi, Hci.
  destruct (deployment_paths_plain e base Hplain) as [Hhp Hcp].
  fold project_id in Hhp, Hcp.
  unfold deployment_paths.
  set (html_dir := html_dir_of base project_id) in *.
  set (conf_file := conf_file_of base project_id) in *.
  set (info_file := Deploy.info_file_of base project_id) in *.
  unfold Cleanup.cleanup_deployment. cbv zeta. rewrite Hbase.
  change (Path.join (Path.join base "deployments") (project_id +:+ ".json"))
    with info_file.
  rewrite bind_run. unfold path_exists at 1.
  rewrite (exists_lookup _ _ _ Hinfo). cbn [negb].
  rewrite try_except_run.
  rewrite bind_run. unfold fs_read at 1. unfold Fs.read_text.
  rewrite node_at_lookup, Hinfo by done. cbv beta iota.
  rewrite bind_run. unfold of_outcome at 1.
  rewrite loads_dumps by (apply (bool_decide_unpack _); by vm_compute).
  cbv beta iota.
  rewrite bind_run, path_field_run.
  change (Json.subscript (Json.Dict (record_of e source_dir base port)) "html_dir")
    with (Return (Json.Str (Path.str html_dir))).
  cbv beta iota. rewrite resolve_str by done.
  rewrite bind_run. unfold path_exists at 1. rewrite (exists_lookup _ _ _ Hhtml).
  cbv beta iota. rewrite bind_run, removal_step_run. unfold Fs.rmtree.
  rewrite node_at_lookup, Hhtml by done. cbv beta iota.
  rewrite bind_run, path_field_run.
  change (Json.subscript (Json.Dict (record_of e source_dir base port)) "conf_file")
    with (Return (Json.Str (Path.str conf_file))).
  cbv beta iota. rewrite resolve_str by done.
  assert (filter (Fs.outside html_dir) (w_fs w1) !! conf_file
          = Some (File (Deploy.config_content project_id port))) as Hconf1.
  { rewrite lookup_rmtree. by rewrite decide_False. }
  rewrite bind_run. unfold path_exists at 1. cbn [set_fs say w_fs].
  rewrite (exists_lookup _ _ _ Hconf1). cbv beta iota.
  rewrite bind_run, removal_step_run. cbn [set_fs say w_fs]. unfold Fs.unlink at 1.
  rewrite node_at_lookup, Hconf1 by done. cbv beta iota.
  rewrite bind_run, reload_step_run, Hreload.
  rewrite bool_decide_eq_true_2 by done. cbv beta iota.
  assert (delete conf_file (filter (Fs.outside html_dir) (w_fs w1)) !! info_file
          = Some (File (Json.dumps (Json.Dict (record_of e source_dir base port)))))
    as Hinfo1.
  { rewrite lookup_delete_ne by done. rewrite lookup_rmtree. by rewrite decide_False. }
  rewrite bind_run, fs_update_run. cbn [set_fs say w_fs]. unfold Fs.unlink.
  rewrite node_at_lookup, Hinfo1 by done. cbv beta iota.
  rewrite bind_run, print_run. cbn [mret M_ret].
  eexists. split; [reflexivity|]. cbn [set_fs say w_fs w_cmds].
  split; [|split; [|done]].
  - intros q [Hq|[->| ->]].
    + apply lookup_delete_None. right. apply lookup_delete_None. right.
      rewrite lookup_rmtree. by rewrite decide_True.
    + apply lookup_delete_None. right. apply lookup_delete_None. by left.
    + apply lookup_delete_None. by left.
  - intros q Hq.
    rewrite lookup_delete_ne by (intros <-; apply Hq; by right; right).
    rewrite lookup_delete_ne by (intros <-; apply Hq; by right; left).
    rewrite lookup_rmtree. rewrite decide_False; [done|]. intros Hp. apply Hq. by left.
Qed.

(** X11. Cleanup undoes a deployment. After deploy_frontend went through,
    a cleanup of the id it generated, given the same base directory without
    a ".." in it and a proxy that takes the reload signal, returns True;
    afterwards the staged directory with everything below it, the
    configuration file and the record file are gone, every other entry of
    the disk is as the deployment left it, and the one command run is the
    reload signal. *)
Theorem cleanup_after_deploy (e e' : env) (source_dir : string)
        (nginx_base_dir : option string) (cleanup_base : option pathlike)
        (info : list (string * Json.scalar)) (w w1 : world) (out : string) :
  let base := deploy_base e nginx_base_dir in
  let project_id := Deploy.generate_project_id e in
  Forall plain (env_cwd e) →
  Deploy.deploy_frontend e source_dir nginx_base_dir w = (Return info, w1) →
  spelled_out cleanup_base →
  Cleanup.base_dir e' cleanup_base = base →
  env_nginx_reload e' = Exited 0 out →
  ∃ w2, Cleanup.cleanup_deployment e' project_id cleanup_base w1 = (Return true, w2) ∧
        (∀ q, deployment_paths base project_id q → w_fs w2 !! q = None) ∧
        (∀ q, ¬ deployment_paths base project_id q → w_fs w2 !! q = w_fs w1 !! q) ∧
        w_cmds w2 = w_cmds w1 ++ [NginxReload].
Proof.
  intros base project_id Hcwd Hdeploy _ Hbase Hreload.
  destruct (deploy_frontend_result e source_dir nginx_base_dir info w w1 Hdeploy)
    as (port & action & _ & -> & Hhtml & Hconf & Hinfo & _).
  apply (cleanup_of_deployed e e' source_dir base port cleanup_base w1 out);
    [by apply deploy_base_plain|done..].
Qed.

Lemma cleanup_after_deploy_witness :
  ∃ w2, Cleanup.cleanup_deployment office (Deploy.generate_project_id office)
          (Some (AsStr "/srv"))
          (Deploy.deploy_frontend office "site" (Some "/srv") office_world).2
        = (Return true, w2) ∧
        (∀ q, deployment_paths (deploy_base office (Some "/srv"))
                (Deploy.generate_project_id office) q → w_fs w2 !! q = None) ∧
        (∀ q, ¬ deployment_paths (deploy_base office (Some "/srv"))
                  (Deploy.generate_project_id office) q →
              w_fs w2 !! q
              = w_fs (Deploy.deploy_frontend office "site" (Some "/srv") office_world).2
                  !! q) ∧
        w_cmds w2
        = w_cmds (Deploy.deploy_frontend office "site" (Some "/srv") office_world).2
          ++ [NginxReload].
Proof.
  apply (cleanup_after_deploy office office "site" (Some "/srv") (Some (AsStr "/srv"))
           (record_of office "site" ["srv"] 8083) office_world _ "").
  - repeat constructor; done.
  - apply pair_eta_fst. vm_compute. reflexivity.
  - apply (bool_decide_unpack _). vm_compute. reflexivity.
  - reflexivity.
  - reflexivity.
Defined.

(** ** Listing when there is nothing to list *)

Lemma elem_of_glob_json (dir : path) (t : gmap path node) (name : string) :
  name ∈ Fs.glob_json dir t ↔
  Path.ends_with ".json" name = true ∧ is_Some (t !! (dir ++ [name])).
Proof.
  unfold Fs.glob_json. rewrite list_elem_of_omap. split.
  - intros ([q n] & Hin & Hchild). apply elem_of_map_to_list in Hin.
    unfold Fs.child_name in Hchild. cbn [fst] in Hchild.
    destruct (Fs.relative_to dir q) as [[|c [|c' rel]]|] eqn:Hrel; try done.
    apply relative_to_Some in Hrel. subst q.
    destruct (Path.ends_with ".json" c) eqn:Hc; [|done].
    injection Hchild as <-. split; [done|by eexists].
  - intros [Hname [n Hn]]. exists (dir ++ [name], n).
    split; [by apply elem_of_map_to_list|].
    unfold Fs.child_name. cbn [fst].
    assert (Fs.relative_to dir (dir ++ [name]) = Some [name]) as ->
        by (by apply relative_to_Some).
    by rewrite Hname.
Qed.

(** X12. When <base>/deployments holds no entry whose name ends in ".json"
    (the directory may be missing, empty, or hold other files and nested
    directories), list_deployments prints the one line that says so and
    returns normally: an empty listing is no error. *)
Theorem list_deployments_nothing (e : env) (nginx_base_dir : option pathlike)
        (w : world) :
  let deployments_dir := Cleanup.base_dir e nginx_base_dir ++ ["deployments"] in
  (∀ name, Path.ends_with ".json" name = true →
           w_fs w !! (deployments_dir ++ [name]) = None) →
  Cleanup.list_deployments e nginx_base_dir w
  = (Return (), say (Text "没有找到部署") w).
Proof.
  intros dir Hnone. unfold Cleanup.list_deployments. cbv zeta.
  rewrite (join_name _ "deployments") by done. fold dir.
  assert (Fs.glob_json dir (w_fs w) = []) as Hglob.
  { apply elem_of_nil_inv. intros name Hin.
    apply elem_of_glob_json in Hin as [Hname [n Hn]].
    by rewrite Hnone in Hn. }
  rewrite bind_run. unfold path_exists at 1. cbv beta iota.
  rewrite bind_run. unfold fs_read at 1. rewrite Hglob. cbv beta iota.
  rewrite bool_decide_eq_true_2 by done. by rewrite orb_true_r.
Qed.

Lemma list_deployments_nothing_witness :
  Cleanup.list_deployments office (Some (AsStr "/srv")) blank_world
  = (Return (), say (Text "没有找到部署") blank_world).
Proof.
  apply (list_deployments_nothing office (Some (AsStr "/srv")) blank_world).
  intros name _. apply lookup_empty.
Defined.

(** ** What a listed record must hold *)

(** X13. A record whose text is UTF-8 and is a flat JSON object of strings
    and integers is listed exactly when it has the keys "project_id", "url"
    and "html_dir": a missing "deployed_at" is shown as N/A, "port",
    "conf_file" and "source_dir" are not looked at, and a record without one
    of the three keys ends the listing with an error. *)
Theorem list_each_required_fields (deployments_dir : path) (name text : string)
        (d : list (string * Json.scalar)) (w : world) :
  Fs.read_text (deployments_dir ++ [name]) (w_fs w) = Return text →
  Py.is_utf8 text = true →
  Json.loads text = Return (Json.Dict d) →
  (Cleanup.list_each deployments_dir [name] w).1 = Return () ↔
  is_Some (Json.dict_get "project_id" d) ∧
  is_Some (Json.dict_get "url" d) ∧
  is_Some (Json.dict_get "html_dir" d).
Proof.
  intros Hread _ Hloads. cbn [Cleanup.list_each].
  rewrite bind_run. unfold fs_read at 1. rewrite Hread. cbv beta iota.
  rewrite bind_run. unfold of_outcome at 1. rewrite Hloads. cbv beta iota.
  unfold Json.subscript, Cleanup.get_or.
  destruct (Json.dict_get "project_id" d) as [project_id|].
  2:{ split; [done|]. by intros ([? ?] & _). }
  destruct (Json.dict_get "url" d) as [url|].
  2:{ split; [done|]. by intros (_ & [? ?] & _). }
  destruct (Json.dict_get "html_dir" d) as [html_dir|].
  2:{ split; [done|]. by intros (_ & _ & [? ?]). }
  split; [|done]. intros _. repeat split; by eexists.
Qed.

Lemma list_each_required_fields_witness :
  (Cleanup.list_each ["srv"; "deployments"] ["project-1.json"]
     {| w_fs := {[ ["srv"; "deployments"; "project-1.json"]
                   := File (Json.dumps (Json.Dict undated_record)) ]};
        w_cmds := []; w_out := [] |}).1 = Return () ↔
  is_Some (Json.dict_get "project_id" undated_record) ∧
  is_Some (Json.dict_get "url" undated_record) ∧
  is_Some (Json.dict_get "html_dir" undated_record).
Proof.
  apply (list_each_required_fields ["srv"; "deployments"] "project-1.json"
           (Json.dumps (Json.Dict undated_record)) undated_record).
  - unfold Fs.read_text, Fs.node_at. cbn [app w_fs]. by rewrite lookup_singleton_eq.
  - vm_compute. reflexivity.
  - vm_compute. reflexivity.
Defined.

Example list_each_stops_at_a_record_without_url :
  let w := {| w_fs := {[ ["srv"; "deployments"; "a.json"]
                         := File (Json.dumps (Json.Dict
                              [("project_id", Json.Str "a");
                               ("html_dir", Json.Str "/srv/html/a")])) ]};
              w_cmds := []; w_out := [] |} in
  (Cleanup.list_each ["srv"; "deployments"] ["a.json"] w).1 = Raise (KeyError "url").
Proof. vm_compute. reflexivity. Qed.

(** ** From the name of a record file back to the id *)

Lemma rfind_app (c : ascii) (a b : string) :
  Path.rfind c (a +:+ b)
  = match Path.rfind c b with
    | Some i => Some (String.length a + i)%nat
    | None => Path.rfind c a
    end.
Proof.
  induction a as [|x a IH].
  - change ("" +:+ b) with b. by destruct (Path.rfind c b).
  - rewrite string_app_cons. cbn [Path.rfind String.length]. rewrite IH.
    by destruct (Path.rfind c b).
Qed.

Lemma substring_app (a b : string) : String.substring 0 (String.length a) (a +:+ b) = a.
Proof.
  induction a as [|x a IH].
  - change ("" +:+ b) with b. by destruct b.
  - rewrite string_app_cons. cbn [String.length String.substring]. by rewrite IH.
Qed.

Lemma stem_of_record_name (project_id : string) :
  project_id ≠ "" → Path.stem (project_id +:+ ".json") = project_id.
Proof.
  intros Hne. unfold Path.stem. rewrite rfind_app.
  change (Path.rfind "." ".json") with (Some 0%nat).
  rewrite string_length_app. change (String.length ".json") with 5%nat.
  rewrite Nat.add_0_r, bool_decide_eq_true_2.
  - apply substring_app.
  - destruct project_id; [done|]. cbn [String.length]. lia.
Qed.

Lemma ends_with_app (a suffix : string) : Path.ends_with suffix (a +:+ suffix) = true.
Proof.
  induction a as [|x a IH].
  - change ("" +:+ suffix) with suffix.
    destruct suffix; cbn [Path.ends_with]; by rewrite bool_decide_eq_true_2.
  - rewrite string_app_cons. cbn [Path.ends_with]. rewrite IH. apply orb_true_r.
Qed.

Lemma child_name_Some (dir : path) (pattern : string → bool) (entry : path * node)
      (name : string) :
  Fs.child_name dir pattern entry = Some name → entry.1 = dir ++ [name].
Proof.
  unfold Fs.child_name. intros H.
  destruct (Fs.relative_to dir entry.1) as [[|c [|c' rel]]|] eqn:Hrel; try done.
  apply relative_to_Some in Hrel. destruct (pattern c); [|done]. by injection H as <-.
Qed.

(** A directory lists each of its entries once. *)
Lemma glob_json_NoDup (dir : path) (t : gmap path node) : NoDup (Fs.glob_json dir t).
Proof.
  unfold Fs.glob_json.
  pose proof (NoDup_fst_map_to_list t) as Hkeys.
  induction (map_to_list t) as [|entry l IH]; [constructor|].
  rewrite fmap_cons in Hkeys. apply NoDup_cons in Hkeys as [Hfresh Hkeys].
  cbn [omap list_omap].
  destruct (Fs.child_name dir _ entry) as [name|] eqn:Hname; [|by apply IH].
  apply NoDup_cons. split; [|by apply IH].
  intros Hin. apply list_elem_of_omap in Hin as (entry' & Hin & Hname').
  apply child_name_Some in Hname, Hname'. apply Hfresh.
  rewrite Hname, <-Hname'. by apply list_elem_of_fmap_2.
Qed.

Lemma glob_json_single (dir : path) (t : gmap path node) (name : string) :
  Path.ends_with ".json" name = true →
  is_Some (t !! (dir ++ [name])) →
  (∀ other, Path.ends_with ".json" other = true → other ≠ name →
            t !! (dir ++ [other]) = None) →
  Fs.glob_json dir t = [name].
Proof.
  intros Hname Hthere Hothers.
  assert (∀ x, x ∈ Fs.glob_json dir t ↔ x = name) as Hin.
  { intros x. rewrite elem_of_glob_json. split.
    - intros [Hx [n Hn]]. destruct (decide (x = name)) as [|Hne]; [done|].
      by rewrite (Hothers x Hx Hne) in Hn.
    - by intros ->. }
  pose proof (glob_json_NoDup dir t) as Hnodup.
  destruct (Fs.glob_json dir t) as [|x l].
  - pose proof (proj2 (Hin name) eq_refl) as Hbad. inversion Hbad.
  - assert (x = name) as -> by (apply Hin; by left).
    apply NoDup_cons in Hnodup as [Hfresh _].
    destruct l as [|y l]; [done|].
    assert (y = name) as -> by (apply Hin; right; by left).
    exfalso. apply Hfresh. by left.
Qed.

(** X14. cleanup_all finds the record of a deployment and cleans it up
    under the id it was written for. After deploy_frontend went through,
    with no other record in <base>/deployments, the directory lists the one
    name <id>.json, whose stem is the id; cleanup_all, given the same base
    directory without a ".." in it and a proxy that takes the reload signal,
    returns, and afterwards the staged directory, the configuration file and
    the record file of that id are gone, every other entry of the disk is as
    the deployment left it, and the one command run is the reload signal. *)
Theorem cleanup_all_after_deploy (e e' : env) (source_dir : string)
        (nginx_base_dir : option string) (cleanup_base : option pathlike)
        (info : list (string * Json.scalar)) (w w1 : world) (out : string) :
  let base := deploy_base e nginx_base_dir in
  let project_id := Deploy.generate_project_id e in
  Forall plain (env_cwd e) →
  Deploy.deploy_frontend e source_dir nginx_base_dir w = (Return info, w1) →
  (∀ name, Path.ends_with ".json" name = true → name ≠ project_id +:+ ".json" →
           w_fs w1 !! (base ++ ["deployments"; name]) = None) →
  spelled_out cleanup_base →
  Cleanup.base_dir e' cleanup_base = base →
  env_nginx_reload e' = Exited 0 out →
  Fs.glob_json (base ++ ["deployments"]) (w_fs w1) = [project_id +:+ ".json"] ∧
  Path.stem (project_id +:+ ".json") = project_id ∧
  ∃ w2, Cleanup.cleanup_all e' cleanup_base w1 = (Return (), w2) ∧
        (∀ q, deployment_paths base project_id q → w_fs w2 !! q = None) ∧
        (∀ q, ¬ deployment_paths base project_id q → w_fs w2 !! q = w_fs w1 !! q) ∧
        w_cmds w2 = w_cmds w1 ++ [NginxReload].
Proof.
  intros base project_id Hcwd Hdeploy Hothers _ Hbase Hreload.
  destruct (deploy_frontend_result e source_dir nginx_base_dir info w w1 Hdeploy)
    as (port & action & _ & -> & Hhtml & Hconf & Hinfo & _ & _ & _ & Hdir & _).
  fold base project_id in Hhtml, Hconf, Hinfo, Hdir.
  destruct (deployment_paths_eq e base) as (Hid & _ & _ & Hinfo_eq).
  fold project_id in Hid, Hinfo_eq.
  assert (Path.stem (project_id +:+ ".json") = project_id) as Hstem.
  { apply stem_of_record_name. apply Hid. }
  assert (Fs.glob_json (base ++ ["deployments"]) (w_fs w1) = [project_id +:+ ".json"])
    as Hglob.
  { apply glob_json_single.
    - apply ends_with_app.
    - rewrite <-app_assoc. cbn [app]. rewrite <-Hinfo_eq, Hinfo. by eexists.
    - intros other Hjson Hne. rewrite <-app_assoc. by apply Hothers. }
  split; [done|]. split; [done|].
  destruct (cleanup_of_deployed e e' source_dir base port (Some (AsPath base))
              (say (Text (Py.nl +:+ "清理项目: " +:+ project_id)) w1) out)
    as (w2 & Hrun & Hgone & Hrest & Hcmds);
    [by apply deploy_base_plain|done..|].
  exists w2. split; [|done].
  unfold Cleanup.cleanup_all. cbv zeta. rewrite Hbase.
  rewrite (join_name base "deployments") by done.
  rewrite bind_run. unfold path_exists at 1.
  rewrite (exists_lookup _ _ _ Hdir). cbn [negb].
  rewrite bind_run. unfold fs_read at 1. rewrite Hglob.
  cbn [Cleanup.cleanup_each]. cbv zeta. rewrite Hstem.
  rewrite bind_run, print_run, bind_run.
  unfold project_id in *. by rewrite Hrun.
Qed.

Lemma cleanup_all_after_deploy_witness :
  let w1 := (Deploy.deploy_frontend office "site" (Some "/srv") office_world).2 in
  let base := deploy_base office (Some "/srv") in
  let project_id := Deploy.generate_project_id office in
  Fs.glob_json (base ++ ["deployments"]) (w_fs w1) = [project_id +:+ ".json"] ∧
  Path.stem (project_id +:+ ".json") = project_id ∧
  ∃ w2, Cleanup.cleanup_all office (Some (AsStr "/srv")) w1 = (Return (), w2) ∧
        (∀ q, deployment_paths base project_id q → w_fs w2 !! q = None) ∧
        (∀ q, ¬ deployment_paths base project_id q → w_fs w2 !! q = w_fs w1 !! q) ∧
        w_cmds w2 = w_cmds w1 ++ [NginxReload].
Proof.
  cbv zeta.
  apply (cleanup_all_after_deploy office office "site" (Some "/srv")
           (Some (AsStr "/srv")) (record_of office "site" ["srv"] 8083)
           office_world _ "").
  - repeat constructor; done.
  - apply pair_eta_fst. vm_compute. reflexivity.
  - intros name _ Hne.
    change (deploy_base office (Some "/srv") ++ ["deployments"; name])
      with ["srv"; "deployments"; name].
    destruct (w_fs (Deploy.deploy_frontend office "site" (Some "/srv") office_world).2
                !! ["srv"; "deployments"; name]) as [n|] eqn:Hn; [|done].
    exfalso. apply elem_of_map_to_list in Hn.
    apply (list_elem_of_fmap_2 fst) in Hn. cbn [fst] in Hn.
    assert (["srv"; "deployments"; name]
            ∈ filter (λ k, take 2 k = ["srv"; "deployments"])
                (map_to_list
                   (w_fs (Deploy.deploy_frontend office "site" (Some "/srv")
                            office_world).2)).*1) as Hq.
    { apply list_elem_of_filter. split; [reflexivity|exact Hn]. }
    vm_compute in Hq.
    inversion Hq as [|? ? ? Hq']; subst.
    inversion Hq' as [|? ? ? Hq'']; subst; [by apply Hne|inversion Hq''].
  - apply (bool_decide_unpack _). vm_compute. reflexivity.
  - reflexivity.
  - reflexivity.
Defined.

(** ** Cleanup of a record that cannot be read *)

Lemma cleanup_record_raises (e : env) (project_id : string)
      (nginx_base_dir : option pathlike) (w : world) (ex : exn) :
  let info_file :=
    Cleanup.info_file_of (Cleanup.base_dir e nginx_base_dir) project_id in
  Fs.exists_ (w_fs w) info_file = true →
  match Fs.read_text info_file (w_fs w) with
  | Return text =>
      match Json.loads text with
      | Return info =>
          match Json.subscript info "html_dir" with
          | Raise ex' => ex' = ex
          | Return (Json.Int _) => ex = TypeError
          | Return (Json.Str _) => False
          end
      | Raise ex' => ex' = ex
      end
  | Raise ex' => ex' = ex
  end →
  Cleanup.cleanup_deployment e project_id nginx_base_dir w
  = (Return false, say (Traceback ex) (say (Report "❌ 清理失败: " ex) w)).
Proof.
  intros info_file Hexists Hrecord.
  unfold Cleanup.cleanup_deployment. fold (Cleanup.info_file_of
    (Cleanup.base_dir e nginx_base_dir) project_id). fold info_file.
  rewrite bind_run. unfold path_exists at 1. rewrite Hexists. cbn [negb].
  rewrite try_except_run.
  rewrite bind_run. unfold fs_read at 1.
  destruct (Fs.read_text info_file (w_fs w)) as [text|ex']; [|by subst ex'].
  rewrite bind_run. unfold of_outcome at 1.
  destruct (Json.loads text) as [info|ex']; [|by subst ex'].
  rewrite bind_run, path_field_run.
  destruct (Json.subscript info "html_dir") as [[s|n]|ex']; [done|by subst ex|by subst ex'].
Qed.



(** ** What deploy_frontend checks before it touches anything *)

(** X16. deploy_frontend looks for the source directory and for a port
    before it changes anything: without the source directory it raises the
    ValueError, without a port the error of the allocator, and in both cases
    the disk is untouched, no command has run and nothing is printed. *)
Theorem deploy_frontend_checks_first (e : env) (source_dir : string)
        (nginx_base_dir : option string) (w : world) :
  let attempt := Deploy.deploy_frontend e source_dir nginx_base_dir w in
  let source_path := Path.resolve (env_cwd e) source_dir in
  (Fs.exists_ (w_fs w) source_path = false ∧
   attempt = (Raise (ValueError ("源目录不存在: " +:+ source_dir)), w)) ∨
  (Fs.exists_ (w_fs w) source_path = true ∧
   ∃ ex, find_available_port e 8080 100 = Raise ex ∧ attempt = (Raise ex, w)) ∨
  (Fs.exists_ (w_fs w) source_path = true ∧
   ∃ port, find_available_port e 8080 100 = Return port).
Proof.
  intros attempt source_path. subst attempt. unfold Deploy.deploy_frontend.
  fold source_path. rewrite bind_run. unfold path_exists.
  destruct (Fs.exists_ (w_fs w) source_path); cbn [negb]; [|by left].
  right. rewrite bind_run. unfold of_outcome.
  destruct (find_available_port e 8080 100) as [port|ex].
  - right. split; [done|]. by exists port.
  - left. split; [done|]. by exists ex.
Qed.

(** ** A file in the way of the configuration directory *)

(** X17. When a file stands at <base>/config or at <base>/config/conf.d,
    create_nginx_conf raises the error of mkdir and leaves the disk as it
    was: no directory is made and no configuration file is written. *)
Theorem create_nginx_conf_blocked (project_id : string) (port : Z) (base q : path)
        (w : world) :
  q ∈ Fs.dirs_to (Deploy.conf_dir_of base) →
  Fs.is_file (w_fs w) q = true →
  ∃ kind, Deploy.create_nginx_conf project_id port base w = (Raise (OSError kind), w).
Proof.
  intros Hq Hfile. unfold Deploy.create_nginx_conf.
  rewrite bind_run, fs_update_run. unfold Fs.makedirs.
  destruct (list_find _ _) as [[i q']|] eqn:Hfind; [by eexists|].
  apply list_find_None in Hfind. rewrite Forall_forall in Hfind.
  by destruct (Hfind q Hq).
Qed.

Lemma create_nginx_conf_blocked_witness :
  ∃ kind, Deploy.create_nginx_conf "demo" 8080 ["srv"] blocked_world
          = (Raise (OSError kind), blocked_world).
Proof.
  apply (create_nginx_conf_blocked "demo" 8080 ["srv"] ["srv"; "config"] blocked_world).
  - apply elem_of_dirs_to. split; [done|]. by exists ["conf.d"].
  - vm_compute. reflexivity.
Defined.

(** ** A successful cleanup is final *)

(** One step of a computation that is known to return. *)
Ltac run_step H :=
  lazymatch type of H with
  | (?m ≫= ?f) ?w = _ =>
      rewrite (bind_run m f w) in H;
      let E := fresh "Hstep" in
      destruct (m w) as [[?|?] ?] eqn:E; [|discriminate H]
  end.

Lemma cleanup_success_removed (e : env) (project_id : string)
      (nginx_base_dir : option pathlike) (w w1 : world) :
  Cleanup.cleanup_deployment e project_id nginx_base_dir w = (Return true, w1) →
  Fs.exists_ (w_fs w1)
    (Cleanup.info_file_of (Cleanup.base_dir e nginx_base_dir) project_id) = false.
Proof.
  unfold Cleanup.cleanup_deployment. fold (Cleanup.info_file_of
    (Cleanup.base_dir e nginx_base_dir) project_id).
  set (info_file := Cleanup.info_file_of _ _). intros H.
  rewrite bind_run in H. unfold path_exists at 1 in H.
  destruct (Fs.exists_ (w_fs w) info_file); cbn [negb] in H; [|done].
  rewrite try_except_run in H.
  match type of H with
  | context [match ?body w with _ => _ end] =>
      destruct (body w) as [[ok|ex] w'] eqn:Hbody;
        [injection H as -> ->|by rewrite cleanup_failed_report in H]
  end.
  repeat run_step Hbody.
  injection Hbody as <-.
  match goal with
  | Hprint : print _ _ = _ |- _ => rewrite print_run in Hprint; injection Hprint as <-
  end.
  match goal with
  | Hunlink : fs_update (Fs.unlink info_file) _ = _ |- _ =>
      rewrite fs_update_run in Hunlink;
      destruct (Fs.unlink info_file _) as [t|] eqn:Hgone; [|done];
      injection Hunlink as <-
  end.
  unfold Fs.unlink in Hgone.
  destruct info_file as [|c p]; [done|].
  destruct (Fs.node_at _ _) as [[content|]|]; [|done..]. injection Hgone as <-.
  subst. cbn [say set_fs w_fs].
  apply bool_decide_eq_false. cbn [Fs.node_at]. rewrite lookup_delete_eq.
  by intros [? ?].
Qed.

(** X18. A cleanup that returned True is final: the record file is gone,
    so a second cleanup of the same id in the same base directory finds no
    record, says so, returns False and changes nothing. *)
Theorem cleanup_success_is_final (e e2 : env) (project_id : string)
        (nginx_base_dir base2 : option pathlike) (w w1 : world) :
  Cleanup.cleanup_deployment e project_id nginx_base_dir w = (Return true, w1) →
  Cleanup.base_dir e2 base2 = Cleanup.base_dir e nginx_base_dir →
  Cleanup.cleanup_deployment e2 project_id base2 w1
  = (Return false, say (Text ("❌ 项目不存在: " +:+ project_id)) w1).
Proof.
  intros Hfirst Hbase. apply cleanup_deployment_missing. rewrite Hbase.
  by apply (cleanup_success_removed e project_id nginx_base_dir w).
Qed.

Lemma cleanup_success_is_final_witness :
  Cleanup.cleanup_deployment stopped_proxy "project-1700000000" (Some (AsStr "/srv"))
    (Cleanup.cleanup_deployment office "project-1700000000" (Some (AsStr "/srv"))
       deployed_world).2
  = (Return false,
     say (Text ("❌ 项目不存在: " +:+ "project-1700000000"))
       (Cleanup.cleanup_deployment office "project-1700000000" (Some (AsStr "/srv"))
          deployed_world).2).
Proof.
  apply (cleanup_success_is_final office stopped_proxy "project-1700000000"
           (Some (AsStr "/srv")) (Some (AsStr "/srv")) deployed_world).
  - apply pair_eta_fst. vm_compute. reflexivity.
  - reflexivity.
Defined.

(** ** A deployment that fails after staging *)

Lemma create_nginx_conf_cmds (project_id : string) (port : Z) (base : path)
      (w w' : world) (r : outcome path) :
  Deploy.create_nginx_conf project_id port base w = (r, w') → w_cmds w' = w_cmds w.
Proof.
  unfold Deploy.create_nginx_conf. intros H.
  rewrite bind_run, fs_update_run in H.
  destruct (Fs.makedirs _ _) as [t1|]; [|by injection H as <- <-].
  rewrite bind_run, fs_update_run in H. cbn [set_fs w_fs] in H.
  destruct (Fs.write_text _ _ _) as [t2|]; by injection H as <- <-.
Qed.

Lemma deploy_frontend_leftovers (e : env) (source_dir : string)
      (nginx_base_dir : option string) (ex : exn) (w w1 : world) :
  let base := deploy_base e nginx_base_dir in
  let project_id := Deploy.generate_project_id e in
  Deploy.deploy_frontend e source_dir nginx_base_dir w = (Raise ex, w1) →
  w_cmds w1 ≠ w_cmds w →
  w_fs w1 !! html_dir_of base project_id = Some Dir ∧
  (∃ port, w_fs w1 !! conf_file_of base project_id
           = Some (File (Deploy.config_content project_id port))) ∧
  (w_fs w1 !! Deploy.info_file_of base project_id
     = w_fs w !! Deploy.info_file_of base project_id ∨
   ex = UnicodeEncodeError ∧
   w_fs w1 !! Deploy.info_file_of base project_id = Some (File EmptyString)).
Proof.
  intros base project_id H Hran. subst project_id.
  destruct (deployment_paths_apart e base)
    as ((Hh0 & Hc0 & Hi0) & (Hhc & Hhi & Hci) & (Hhc' & Hhd) & (Hhdep & Hcdep)).
  assert (Deploy.info_file_of base (Deploy.generate_project_id e)
          = (base ++ ["deployments"]) ++ [Deploy.generate_project_id e +:+ ".json"])
    as Hinfo_eq.
  { destruct (deployment_paths_eq e base) as (_ & _ & _ & ->). by rewrite <-app_assoc. }
  pose proof (deploy_frontend_frame e source_dir nginx_base_dir w) as Hframe.
  rewrite H in Hframe. cbv zeta in Hframe. fold base in Hframe.
  rewrite <-Hinfo_eq in Hframe.
  assert (w_fs w1 !! Deploy.info_file_of base (Deploy.generate_project_id e)
            = w_fs w !! Deploy.info_file_of base (Deploy.generate_project_id e) ∨
          ex = UnicodeEncodeError ∧
          w_fs w1 !! Deploy.info_file_of base (Deploy.generate_project_id e)
            = Some (File EmptyString)) as Hrecord.
  { destruct Hframe as [_ [Hsame|(-> & Hempty & _)]]; [by left|by right]. }
  clear Hframe.
  unfold Deploy.deploy_frontend in H. fold (deploy_base e nginx_base_dir) in H.
  fold base in H.
  rewrite (join_name base "deployments") in H by done.
  fold (html_dir_of base (Deploy.generate_project_id e)) in H.
  rewrite (project_id_is_name e ".json") in H by done.
  rewrite <-Hinfo_eq in H.
  rewrite bind_run in H. unfold path_exists at 1 in H.
  destruct (Fs.exists_ _ _); cbn [negb] in H; [|by injection H as _ <-].
  rewrite bind_run in H. unfold of_outcome at 1 in H.
  destruct (find_available_port e 8080 100) as [port|ex']; [|by injection H as _ <-].
  rewrite bind_run in H.
  destruct (Deploy.stage _ _ w) as [[[]|ex'] ws] eqn:Hstage.
  2:{ injection H as _ <-. by destruct (stage_world _ _ _ _ _ Hstage). }
  destruct (stage_world _ _ _ _ _ Hstage) as [Hcmds_s _].
  rewrite bind_run in H.
  destruct (Deploy.create_nginx_conf _ _ _ ws) as [[conf_file|ex'] wc] eqn:Hconf.
  2:{ injection H as _ <-. apply create_nginx_conf_cmds in Hconf. congruence. }
  pose proof (create_nginx_conf_result _ _ _ _ _ _ Hconf) as ->.
  destruct (create_nginx_conf_written _ _ _ _ _ _ Hconf) as [Hwritten Hcmds_c].
  assert (w_fs wc !! html_dir_of base (Deploy.generate_project_id e) = Some Dir) as Hstaged.
  { rewrite (create_nginx_conf_frame _ _ _ _ _ _ _ Hconf) by done.
    by apply (stage_makes_dir _ _ _ _ Hstage). }
  assert (∀ q, q ≠ Deploy.info_file_of base (Deploy.generate_project_id e) →
               q ≠ base ++ ["deployments"] → w_fs w1 !! q = w_fs wc !! q) as Hlater.
  { intros q Hq1 Hq2.
    rewrite bind_run, reload_nginx_run in H.
    destruct (Fs.exists_ (w_fs wc) _); [|injection H as _ <-; congruence].
    destruct (env_docker_ps e) as [|code listing]; [by injection H as _ <-|].
    cbv zeta in H.
    destruct (command_result e _) as [|status out]; [by injection H as _ <-|].
    case_bool_decide; [|by injection H as _ <-].
    rewrite bind_run, fs_update_run in H. cbn [w_fs] in H.
    destruct (Fs.mkdir _ (w_fs wc)) as [t4|ex'] eqn:Hmkdir; [|by injection H as _ <-].
    rewrite bind_run, write_text_run in H. cbn [set_fs w_fs] in H.
    destruct (Py.is_utf8 _);
      destruct (Fs.write_text _ _ t4) as [t5|ex'] eqn:Hwrite; try done;
      injection H as _ <-; cbn [set_fs w_fs];
      try (apply write_text_inv in Hwrite; subst t5;
           rewrite lookup_insert_ne by (intros Heq; by apply Hq1));
      by rewrite (mkdir_frame _ _ _ _ Hmkdir). }
  split; [|split; [exists port|done]].
  - rewrite Hlater; [done| |done]. intros Heq. apply Hhi. by rewrite Heq.
  - rewrite Hlater; done.
Qed.

(** X19. deploy_frontend does not roll back. When it fails after it has
    turned to the proxy (the reload or the writing of the record failed),
    the staged directory and the configuration file of the new id stay on
    the disk. If no record file of that id was there before, then either
    there is none afterwards, and a cleanup of that id (given the same base
    directory, written without "..") says that the project does not exist;
    or the record could not be encoded and was left empty, and a cleanup of
    that id fails to decode it. Either way the cleanup returns False, runs no
    command and leaves the leftovers where they are. *)
Theorem deploy_frontend_no_rollback (e e2 : env) (source_dir : string)
        (nginx_base_dir : option string) (cleanup_base : option pathlike)
        (ex : exn) (w w1 : world) :
  let base := deploy_base e nginx_base_dir in
  let project_id := Deploy.generate_project_id e in
  let info_file := Deploy.info_file_of base project_id in
  let cleaned := Cleanup.cleanup_deployment e2 project_id cleanup_base w1 in
  Deploy.deploy_frontend e source_dir nginx_base_dir w = (Raise ex, w1) →
  w_cmds w1 ≠ w_cmds w →
  Fs.exists_ (w_fs w) info_file = false →
  spelled_out cleanup_base →
  Cleanup.base_dir e2 cleanup_base = base →
  w_fs w1 !! html_dir_of base project_id = Some Dir ∧
  (∃ port, w_fs w1 !! conf_file_of base project_id
           = Some (File (Deploy.config_content project_id port))) ∧
  (w_fs w1 !! info_file = None ∧
   cleaned = (Return false, say (Text ("❌ 项目不存在: " +:+ project_id)) w1)
   ∨
   ex = UnicodeEncodeError ∧
   w_fs w1 !! info_file = Some (File EmptyString) ∧
   cleaned = (Return false,
              say (Traceback JSONDecodeError)
                (say (Report "❌ 清理失败: " JSONDecodeError) w1))) ∧
  cleaned.1 = Return false ∧
  w_fs cleaned.2 = w_fs w1 ∧
  w_cmds cleaned.2 = w_cmds w1.
Proof.
  intros base project_id info_file cleaned Hdeploy Hran Hnone _ Hbase.
  destruct (deploy_frontend_leftovers e source_dir nginx_base_dir ex w w1 Hdeploy Hran)
    as (Hhtml & Hconf & Hrecord).
  split; [done|]. split; [done|].
  destruct (deployment_paths_apart e base) as ((_ & _ & Hi0) & _).
  fold base project_id info_file in Hi0, Hrecord.
  assert (w_fs w !! info_file = None) as Hbefore.
  { unfold Fs.exists_ in Hnone. rewrite node_at_lookup in Hnone by done.
    apply bool_decide_eq_false in Hnone. by apply eq_None_not_Some. }
  assert (cleaned = (Return false, say (Text ("❌ 项目不存在: " +:+ project_id)) w1) ∨
          cleaned = (Return false,
                     say (Traceback JSONDecodeError)
                       (say (Report "❌ 清理失败: " JSONDecodeError) w1)) →
          cleaned.1 = Return false ∧ w_fs cleaned.2 = w_fs w1 ∧
          w_cmds cleaned.2 = w_cmds w1) as Hquiet.
  { by intros [-> | ->]. }
  destruct Hrecord as [Hsame|(-> & Hempty)].
  - assert (cleaned = (Return false, say (Text ("❌ 项目不存在: " +:+ project_id)) w1))
      as Hcleaned.
    { apply cleanup_deployment_missing. rewrite Hbase.
      change (Cleanup.info_file_of base project_id) with info_file.
      unfold Fs.exists_. rewrite node_at_lookup by done.
      apply bool_decide_eq_false. rewrite Hsame, Hbefore. by intros [? ?]. }
    split; [left; split; [congruence|done]|]. apply Hquiet. by left.
  - assert (cleaned = (Return false,
                       say (Traceback JSONDecodeError)
                         (say (Report "❌ 清理失败: " JSONDecodeError) w1)))
      as Hcleaned.
    { apply cleanup_record_raises; rewrite Hbase;
        change (Cleanup.info_file_of base project_id) with info_file.
      - by apply (exists_lookup _ _ (File EmptyString)).
      - unfold Fs.read_text. rewrite node_at_lookup, Hempty by done. reflexivity. }
    split; [by right|]. apply Hquiet. by right.
Qed.

Lemma deploy_frontend_no_rollback_witness :
  let attempt := Deploy.deploy_frontend failing_reload "site" (Some "/srv") office_world in
  let base := deploy_base failing_reload (Some "/srv") in
  let project_id := Deploy.generate_project_id failing_reload in
  let info_file := Deploy.info_file_of base project_id in
  let cleaned :=
    Cleanup.cleanup_deployment office project_id (Some (AsStr "/srv")) attempt.2 in
  w_fs attempt.2 !! html_dir_of base project_id = Some Dir ∧
  (∃ port, w_fs attempt.2 !! conf_file_of base project_id
           = Some (File (Deploy.config_content project_id port))) ∧
  (w_fs attempt.2 !! info_file = None ∧
   cleaned = (Return false, say (Text ("❌ 项目不存在: " +:+ project_id)) attempt.2)
   ∨
   CalledProcessError NginxReload 1 = UnicodeEncodeError ∧
   w_fs attempt.2 !! info_file = Some (File EmptyString) ∧
   cleaned = (Return false,
              say (Traceback JSONDecodeError)
                (say (Report "❌ 清理失败: " JSONDecodeError) attempt.2))) ∧
  cleaned.1 = Return false ∧
  w_fs cleaned.2 = w_fs attempt.2 ∧
  w_cmds cleaned.2 = w_cmds attempt.2.
Proof.
  intros attempt base project_id.
  apply (deploy_frontend_no_rollback failing_reload office "site" (Some "/srv")
           (Some (AsStr "/srv")) (CalledProcessError NginxReload 1) office_world).
  - apply pair_eta_fst. vm_compute. reflexivity.
  - vm_compute. done.
  - vm_compute. reflexivity.
  - apply (bool_decide_unpack _). vm_compute. reflexivity.
  - reflexivity.
Defined.

(** ** The exit status of cleanup.py *)


(** ** Cleanup removes what the record names, and nothing else *)

Lemma keeps_bind_known {A B} (R : relation world) (m : M A) (f : A → M B) (a : A) :
  (∀ w, m w = (Return a, w)) → keeps R (f a) → keeps R (m ≫= f).
Proof.
  intros Hm Hf w r w' H. rewrite bind_run, Hm in H. by apply (Hf w r w').
Qed.

Lemma preserves_unlink (touched : path → Prop) (p : path) :
  touched p → keeps (preserves touched) (fs_update (Fs.unlink p)).
Proof.
  intros HT w r w' H. rewrite fs_update_run in H.
  destruct (Fs.unlink p (w_fs w)) as [t|ex] eqn:Hun; injection H as <- <-; [|reflexivity].
  apply unlink_inv in Hun. subst t. intros q n Hq Hn. cbn [set_fs w_fs].
  rewrite lookup_delete_ne; [done|]. by intros ->.
Qed.

(** X21. cleanup_deployment removes at most what the record names. When
    the record file is read and decoded and names its staged directory and
    its configuration file, then, however the cleanup ends, every path that
    is not at or below that directory, is not that configuration file and is
    not the record file is afterwards exactly as before. The record is
    trusted: whatever directory it names is removed with all that is below
    it. *)
Theorem cleanup_removes_only_named (e : env) (project_id : string)
        (nginx_base_dir : option pathlike) (w : world) (text : string)
        (info : Json.value) (h c : string) :
  let info_file :=
    Cleanup.info_file_of (Cleanup.base_dir e nginx_base_dir) project_id in
  Fs.read_text info_file (w_fs w) = Return text →
  Json.loads text = Return info →
  Json.subscript info "html_dir" = Return (Json.Str h) →
  Json.subscript info "conf_file" = Return (Json.Str c) →
  ∀ q, ¬ Path.resolve (env_cwd e) h `prefix_of` q →
       q ≠ Path.resolve (env_cwd e) c →
       q ≠ info_file →
       w_fs (Cleanup.cleanup_deployment e project_id nginx_base_dir w).2 !! q
       = w_fs w !! q.
Proof.
  intros info_file Hread Hloads Hhtml Hconf q Hq1 Hq2 Hq3.
  set (touched := λ p : path,
         Path.resolve (env_cwd e) h `prefix_of` p ∨
         p = Path.resolve (env_cwd e) c ∨ p = info_file).
  assert (preserves touched w
            (Cleanup.cleanup_deployment e project_id nginx_base_dir w).2) as Hkept.
  { unfold Cleanup.cleanup_deployment. fold (Cleanup.info_file_of
      (Cleanup.base_dir e nginx_base_dir) project_id). fold info_file.
    rewrite bind_run. unfold path_exists at 1.
    destruct (Fs.exists_ (w_fs w) info_file); cbn [negb]; [|by intros p n].
    rewrite try_except_run.
    rewrite bind_run. unfold fs_read at 1. rewrite Hread. cbv beta iota.
    rewrite bind_run. unfold of_outcome at 1. rewrite Hloads. cbv beta iota.
    rewrite <-try_except_run. apply keeps_run.
    apply keeps_try_except; [apply _| |].
    2:{ intros ex w0 r w1 Hreport. rewrite cleanup_failed_report in Hreport.
        injection Hreport as <- <-. by intros p n. }
    apply (keeps_bind_known _ _ _ (Path.resolve (env_cwd e) h)).
    { intros w'. by rewrite path_field_run, Hhtml. }
    keeps_step; [keeps_step|].
    keeps_step.
    { repeat first [apply preserves_rmtree; intros p Hp; by left | keeps_step]. }
    apply (keeps_bind_known _ _ _ (Path.resolve (env_cwd e) c)).
    { intros w'. by rewrite path_field_run, Hconf. }
    keeps_step; [keeps_step|].
    keeps_step.
    { repeat first [apply preserves_unlink; right; by left | keeps_step]. }
    unfold Cleanup.reload_step, run_checked.
    repeat first
      [ apply preserves_command
      | apply preserves_unlink; right; by right
      | keeps_step ]. }
  destruct (keeps_run _ _ w (shrinks_cleanup_deployment e project_id nginx_base_dir))
    as [Hsub _].
  destruct (w_fs w !! q) as [n|] eqn:Hn.
  - apply Hkept; [|done]. by intros [?|[?|?]].
  - by apply (lookup_weaken_None _ _ _ Hn).
Qed.

Lemma cleanup_removes_only_named_witness :
  w_fs (Cleanup.cleanup_deployment office "project-1700000000"
          (Some (AsStr "/srv")) deployed_world).2 !! ["work"; "site"; "index.html"]
  = w_fs deployed_world !! ["work"; "site"; "index.html"].
Proof.
  apply (cleanup_removes_only_named office "project-1700000000" (Some (AsStr "/srv"))
           deployed_world
           (Json.dumps (Json.Dict (record_of office "site" ["srv"] 8083)))
           (Json.Dict (record_of office "site" ["srv"] 8083))
           "/srv/html/project-1700000000"
           "/srv/config/conf.d/project-1700000000.conf").
  - vm_compute. reflexivity.
  - vm_compute. reflexivity.
  - reflexivity.
  - reflexivity.
  - intros [k Hk]. vm_compute in Hk. discriminate Hk.
  - intros Hq. vm_compute in Hq. discriminate Hq.
  - intros Hq. vm_compute in Hq. discriminate Hq.
Defined.

(** ** The staged directory of a deployment is a copy of the source *)

Lemma copytree_success_inv (src dst : path) (t t' : gmap path node) :
  Fs.copytree src dst t = (Return (), t') →
  Fs.node_at t src = Some Dir ∧ ∀ q, q ∈ Fs.dirs_to dst → Fs.is_file t q = false.
Proof.
  unfold Fs.copytree. intros H.
  destruct (Fs.node_at t src) as [[content|]|]; [done| |done].
  destruct (Fs.exists_ t dst); [done|].
  destruct (Fs.makedirs dst t) as [t1|ex] eqn:Hmk; [|done].
  by apply makedirs_inv in Hmk as [_ Hclear].
Qed.

(** A staging that went through found a directory at the source and no
    file in the way of the destination. *)
Lemma stage_success_inv (src dst : path) (w w' : world) :
  Deploy.stage src dst w = (Return (), w') →
  ¬ dst `prefix_of` src →
  Fs.node_at (w_fs w) src = Some Dir ∧ way_clear (w_fs w) dst = true.
Proof.
  rewrite stage_run. intros H Hds.
  destruct (Fs.exists_ (w_fs w) dst).
  - unfold Fs.rmtree in H.
    destruct (Fs.node_at (w_fs w) dst) as [[content|]|] eqn:Hdst; [done| |done].
    destruct (Fs.copytree src dst _) as [r t2] eqn:Hcp. injection H as -> _.
    apply copytree_success_inv in Hcp as [Hsrc Hclear]. split.
    + destruct src as [|c src]; [done|].
      rewrite node_at_lookup in * by done.
      rewrite lookup_rmtree in Hsrc. by rewrite decide_False in Hsrc.
    + apply way_clear_spec. intros q Hq. specialize (Hclear q Hq).
      apply elem_of_dirs_to in Hq as [Hne Hpre].
      unfold Fs.is_file in *. rewrite node_at_lookup in * by done.
      rewrite lookup_rmtree in Hclear.
      destruct (decide (dst `prefix_of` q)) as [Hqd|Hqd]; [|done].
      assert (q = dst) as -> by (by apply (anti_symm prefix)).
      rewrite node_at_lookup in Hdst by done. by rewrite Hdst.
  - destruct (Fs.copytree src dst _) as [r t2] eqn:Hcp. injection H as -> _.
    apply copytree_success_inv in Hcp as [Hsrc Hclear]. split; [done|].
    by apply way_clear_spec.
Qed.

(** What the steps after the staging leave alone: the staged directory. *)
Lemma deploy_frontend_staged (e : env) (source_dir : string)
      (nginx_base_dir : option string) (info : list (string * Json.scalar))
      (w w1 : world) :
  let base := deploy_base e nginx_base_dir in
  let html_dir := html_dir_of base (Deploy.generate_project_id e) in
  Deploy.deploy_frontend e source_dir nginx_base_dir w = (Return info, w1) →
  ∃ ws, Deploy.stage (Path.resolve (env_cwd e) source_dir) html_dir w = (Return (), ws) ∧
        ∀ q, html_dir `prefix_of` q → w_fs w1 !! q = w_fs ws !! q.
Proof.
  intros base html_dir H.
  destruct (deployment_paths_eq e base) as (_ & Hhtml_eq & Hconf_eq & Hinfo_eq).
  fold html_dir in Hhtml_eq.
  unfold Deploy.deploy_frontend in H. fold (deploy_base e nginx_base_dir) in H.
  fold base in H.
  fold (html_dir_of base (Deploy.generate_project_id e)) in H. fold html_dir in H.
  fold (Deploy.info_file_of base (Deploy.generate_project_id e)) in H.
  rewrite (join_name base "deployments") in H by done.
  rewrite bind_run in H. unfold path_exists at 1 in H.
  destruct (Fs.exists_ _ _); cbn [negb] in H; [|done].
  rewrite bind_run in H. unfold of_outcome at 1 in H.
  destruct (find_available_port e 8080 100) as [port|ex]; [|done].
  rewrite bind_run in H.
  destruct (Deploy.stage _ _ w) as [[[]|ex] ws] eqn:Hstage; [|done].
  exists ws. split; [done|]. intros q Hq.
  assert ((base ++ ["html"]) `prefix_of` q) as Hunder.
  { etrans; [|exact Hq]. rewrite Hhtml_eq. apply prefix_app. by eexists. }
  rewrite bind_run in H.
  destruct (Deploy.create_nginx_conf _ _ _ ws) as [[conf_file|ex] wc] eqn:Hconf; [|done].
  rewrite bind_run in H.
  pose proof (reload_nginx_files e base wc) as Hreload.
  destruct (Deploy.reload_nginx e base wc) as [[[]|ex] wr]; [|done].
  cbn [snd] in Hreload.
  rewrite bind_run, fs_update_run in H.
  destruct (Fs.mkdir _ (w_fs wr)) as [t4|ex] eqn:Hmkdir; [|done].
  rewrite bind_run, write_text_run in H. cbn [set_fs w_fs] in H.
  destruct (Py.is_utf8 _); [|by destruct (Fs.write_text _ _ t4)].
  destruct (Fs.write_text _ _ t4) as [t5|ex] eqn:Hwrite; [|done].
  apply write_text_inv in Hwrite. subst t5.
  cbn [mret M_ret] in H. injection H as _ <-. cbn [set_fs w_fs].
  rewrite lookup_insert_ne.
  2:{ rewrite Hinfo_eq. intros <-.
      by destruct (sibling_apart base [Deploy.generate_project_id e +:+ ".json"]
                     _ "deployments" "html" ltac:(done) Hunder) as [Hno _]. }
  rewrite (mkdir_frame _ q _ _ Hmkdir).
  2:{ intros ->.
      by destruct (sibling_apart base [] _ "deployments" "html" ltac:(done) Hunder)
        as [Hno _]. }
  rewrite Hreload.
  apply (create_nginx_conf_frame _ _ _ q _ _ _ Hconf).
  - fold (conf_file_of base (Deploy.generate_project_id e)). rewrite Hconf_eq.
    intros ->.
    by destruct (sibling_apart base ["conf.d"; Deploy.generate_project_id e +:+ ".conf"]
                   _ "config" "html" ltac:(done) Hunder) as [Hno _].
  - rewrite conf_dir_of_eq.
    by destruct (sibling_apart base ["conf.d"] q "config" "html" ltac:(done) Hunder)
      as [_ Hno].
Qed.

(** X22. What a deployment serves is the source. On a disk where every
    entry hangs from directories, when the source directory and the staged
    directory <base>/html/<id> do not lie inside one another, a deployment
    that went through leaves below <base>/html/<id> exactly the entries of
    the source directory, files with their contents: nothing of an earlier
    staging is left, and the later steps (configuration, reload, record) have
    not touched the copy. *)
Theorem deploy_frontend_serves_the_source (e : env) (source_dir : string)
        (nginx_base_dir : option string) (info : list (string * Json.scalar))
        (w w1 : world) :
  let source_path := Path.resolve (env_cwd e) source_dir in
  let html_dir :=
    html_dir_of (deploy_base e nginx_base_dir) (Deploy.generate_project_id e) in
  is_tree (w_fs w) = true →
  ¬ source_path `prefix_of` html_dir → ¬ html_dir `prefix_of` source_path →
  Deploy.deploy_frontend e source_dir nginx_base_dir w = (Return info, w1) →
  ∀ rel, w_fs w1 !! (html_dir ++ rel) = w_fs w !! (source_path ++ rel).
Proof.
  intros src dst Htree Hsd Hds Hdeploy rel.
  destruct (deploy_frontend_staged e source_dir nginx_base_dir info w w1 Hdeploy)
    as (ws & Hstage & Hkept).
  fold src dst in Hstage, Hkept.
  rewrite Hkept by (by apply prefix_app_r).
  destruct (stage_success_inv src dst w ws Hstage Hds) as [Hsrc Hclear].
  assert (src ≠ []) as Hsrc_ne by (intros Heq; apply Hsd; rewrite Heq; apply prefix_nil).
  assert (dst ≠ []) as Hdst_ne by (intros Heq; apply Hds; rewrite Heq; apply prefix_nil).
  destruct (stage_staged src dst w) as (t2 & Hstage' & Ht2); try done.
  { intros Hmissing q Hq. destruct (w_fs w !! q) as [n|] eqn:Hn; [|done].
    exfalso. apply bool_decide_eq_false in Hmissing. apply Hmissing.
    rewrite node_at_lookup by done.
    destruct (decide (dst = q)) as [->|Hne]; [by eexists|].
    exists Dir. by apply (is_tree_spec _ dst q). }
  rewrite Hstage in Hstage'. injection Hstage' as ->. cbn [set_fs w_fs].
  rewrite Ht2. unfold staged.
  rewrite (proj2 (relative_to_Some dst (dst ++ rel) rel)) by done.
  destruct rel as [|c rel]; [|done].
  rewrite app_nil_r. by rewrite node_at_lookup in Hsrc.
Qed.

Lemma deploy_frontend_serves_the_source_witness :
  w_fs (Deploy.deploy_frontend office "site" (Some "/srv") office_world).2
    !! (html_dir_of (deploy_base office (Some "/srv"))
          (Deploy.generate_project_id office) ++ ["index.html"])
  = w_fs office_world !! (Path.resolve (env_cwd office) "site" ++ ["index.html"]).
Proof.
  apply (deploy_frontend_serves_the_source office "site" (Some "/srv")
           (record_of office "site" ["srv"] 8083) office_world).
  - vm_compute. reflexivity.
  - intros [k Hk]. vm_compute in Hk. discriminate Hk.
  - intros [k Hk]. vm_compute in Hk. discriminate Hk.
  - apply pair_eta_fst. vm_compute. reflexivity.
Defined.
